(** * The document-intake pipeline of [process_intake.py]

  A shallow embedding of the parts of
  [context-engine/specs/document-intake/references/process_intake.py]
  that the intake specification talks about: the centralized text
  registry, the extraction handlers and their router, the phase
  controller, the page-marker format, the code-fence cleaning of
  summaries and the retry loop of the summary generator.

  Python values are modelled as follows.
  - [str] is a list of Unicode code points ([pystr]).
  - [pathlib.Path] is the list of its components ([path]).
  - the file system is a finite map from paths to nodes ([gmap]).
  - a [dict] built by the handlers is a record whose optional keys are
    [option] fields ([doc_record]).
  - an exception is a value of [exn]; code that can raise runs in the
    state-and-exception monad [M], where the effects made before a
    [raise] persist, as they do on disk. *)

From Stdlib Require Import ZArith NArith List Ascii String DecimalNat Decimal.
From stdpp Require Import base option list gmap fin_maps.

Open Scope list_scope.

(** ** Python strings *)

Module Str.

Abbreviation pystr := (list N).

(** An ASCII literal of the source as a [pystr]. *)
Definition str (s : string) : pystr :=
  map N_of_ascii (list_ascii_of_string s).

Definition nl : N := 10%N.

(** [f"{n}"] for a non-negative [int]. *)
Fixpoint digits (d : Decimal.uint) : pystr :=
  match d with
  | Decimal.Nil => []
  | Decimal.D0 d => 48%N :: digits d
  | Decimal.D1 d => 49%N :: digits d
  | Decimal.D2 d => 50%N :: digits d
  | Decimal.D3 d => 51%N :: digits d
  | Decimal.D4 d => 52%N :: digits d
  | Decimal.D5 d => 53%N :: digits d
  | Decimal.D6 d => 54%N :: digits d
  | Decimal.D7 d => 55%N :: digits d
  | Decimal.D8 d => 56%N :: digits d
  | Decimal.D9 d => 57%N :: digits d
  end.

Definition format_int (n : nat) : pystr := digits (Nat.to_uint n).

(** [s.startswith(p)], [s.endswith(p)] and [p in s]. *)
Fixpoint startswith (s p : pystr) {struct p} : bool :=
  match p with
  | [] => true
  | c :: p' =>
      match s with
      | [] => false
      | d :: s' => (c =? d)%N && startswith s' p'
      end
  end.

Definition endswith (s p : pystr) : bool :=
  startswith (rev s) (rev p).

Fixpoint contains (s p : pystr) : bool :=
  startswith s p ||
  match s with
  | [] => false
  | _ :: s' => contains s' p
  end.

(** [str.isspace] on one code point (CPython's [_PyUnicode_IsWhitespace]). *)
Definition isspace (c : N) : bool :=
  ((9 <=? c) && (c <=? 13) || (28 <=? c) && (c <=? 32)
   || (c =? 133) || (c =? 160) || (c =? 5760)
   || (8192 <=? c) && (c <=? 8202)
   || (c =? 8232) || (c =? 8233) || (c =? 8239) || (c =? 8287)
   || (c =? 12288))%N.

(** Stripping the characters of a class [ws] from the left, from the
    right and from both ends. *)
Fixpoint lstrip_by (ws : N -> bool) (s : pystr) : pystr :=
  match s with
  | c :: s' => if ws c then lstrip_by ws s' else s
  | [] => []
  end.

Definition rstrip_by (ws : N -> bool) (s : pystr) : pystr :=
  rev (lstrip_by ws (rev s)).

Definition strip_by (ws : N -> bool) (s : pystr) : pystr :=
  rstrip_by ws (lstrip_by ws s).

(** [s.strip()] *)
Definition strip (s : pystr) : pystr := strip_by isspace s.

(** [s.rfind('.')]: the index of the last dot, if there is one. *)
Fixpoint rfind_from (c : N) (s : pystr) (i : nat) (found : option nat) : option nat :=
  match s with
  | [] => found
  | d :: s' => rfind_from c s' (S i) (if (d =? c)%N then Some i else found)
  end.

Definition rfind (c : N) (s : pystr) : option nat := rfind_from c s 0 None.

Definition dot : N := 46%N.

(** Lexicographic order on code points, the order of [sorted] on [str]. *)
Fixpoint str_leb (a b : pystr) : bool :=
  match a, b with
  | [], _ => true
  | _ :: _, [] => false
  | x :: a', y :: b' => (x <? y)%N || ((x =? y)%N && str_leb a' b')
  end.

End Str.
Export Str.

(** ** Step 4 of [extract_text_with_mistral]: page markers *)

Module Pages.

(** The body of the loop over [enumerate(ocr_response.pages)]: two
    [+=] on the accumulated text. *)
Definition add_page (extracted_text : pystr) (i : nat) (markdown : pystr) : pystr :=
  let extracted_text :=
    extracted_text ++ (str "--- Page " ++ format_int (i + 1) ++ str " ---" ++ [nl]) in
  extracted_text ++ (markdown ++ [nl; nl]).

Fixpoint pages_loop (extracted_text : pystr) (i : nat) (pages : list pystr) : pystr :=
  match pages with
  | [] => extracted_text
  | page :: rest => pages_loop (add_page extracted_text i page) (S i) rest
  end.

(** [extracted_text = ""], then the loop. *)
Definition reassemble_pages (pages : list pystr) : pystr :=
  pages_loop [] 0 pages.

(** The format as the specification words it: for the page numbered
    [n] (1-indexed), the marker line, the content, two newlines. *)
Definition page_block (n : nat) (content : pystr) : pystr :=
  str "--- Page " ++ format_int n ++ str " ---" ++ [nl] ++ content ++ [nl; nl].

Definition spec_reassemble (pages : list pystr) : pystr :=
  concat (imap (fun i content => page_block (S i) content) pages).

End Pages.

(** ** Paths ([pathlib.PurePosixPath]) *)

Module Paths.

Abbreviation path := (list pystr).

(** [p.name] and [p.parent] *)
Definition name (p : path) : pystr := List.last p [].
Definition parent (p : path) : path := removelast p.

(** [p / c] for a single component [c]; pathlib drops an empty or a
    ["."] component. It keeps a [".."] component, which only the
    operating system resolves: the file system of the model looks a
    path up as it is written, so statements about names that become
    components leave [".."] out by hypothesis. *)
Definition join (p : path) (c : pystr) : path :=
  if bool_decide (c = []) || bool_decide (c = str ".") then p else p ++ [c].

(** [p.suffix] and [p.stem] (Python 3.8 to 3.13): the last dot counts
    when it is neither the first nor the last character of the name. *)
Definition suffix (p : path) : pystr :=
  let name := name p in
  match rfind dot name with
  | Some i => if (0 <? i) && (i <? length name - 1) then drop i name else []
  | None => []
  end.

Definition stem (p : path) : pystr :=
  let name := name p in
  match rfind dot name with
  | Some i => if (0 <? i) && (i <? length name - 1) then take i name else name
  | None => name
  end.

End Paths.
Export Paths.

Infix "</>" := join (at level 40, left associativity).

(** ** Exceptions and the file system *)

Module FS.

(** What the code can raise. [OSError] stands for the errors of the
    operating system ([FileNotFoundError], [IsADirectoryError], ...),
    [UnicodeDecodeError] for a text read of bytes that are not UTF-8,
    [External] for an error of an external client, library or
    subprocess, [Exception msg] for [raise Exception("<msg>")],
    [ExceptionFrom prefix e] for [raise Exception(f"<prefix>{e}")] and
    [ValueError] for the one [Path.relative_to] raises. *)
Inductive exn : Type :=
| OSError (what : pystr)
| UnicodeDecodeError
| External (msg : pystr)
| KeyError (key : pystr)
| Exception (msg : pystr)
| ExceptionFrom (prefix : pystr) (cause : exn)
| ValueError (msg : pystr).

(** [str(e)], with the operating system's wording left abstract. *)
Fixpoint exn_str (e : exn) : pystr :=
  match e with
  | OSError what => what
  | UnicodeDecodeError => str "'utf-8' codec can't decode"
  | External msg => msg
  | KeyError key => key
  | Exception msg => msg
  | ExceptionFrom prefix cause => prefix ++ exn_str cause
  | ValueError msg => msg
  end.

(** A directory, or a regular file. The data of a file is its UTF-8
    decoding, exactly as stored (line endings included); [None] stands
    for bytes that do not decode (a PDF, an image, ...). *)
Inductive node : Type :=
| Dir
| File (data : option pystr).

#[export] Instance node_eq_dec : EqDecision node.
Proof. solve_decision. Defined.

(** The root is always there; everything else is looked up. *)
Definition lookup_node (fs : gmap path node) (p : path) : option node :=
  match p with
  | [] => Some Dir
  | _ => fs !! p
  end.

(** [p.exists()] and [p.is_dir()] *)
Definition exists_ (fs : gmap path node) (p : path) : bool :=
  match lookup_node fs p with Some _ => true | None => false end.

Definition is_dir (fs : gmap path node) (p : path) : bool :=
  match lookup_node fs p with Some Dir => true | _ => false end.

Definition is_file (fs : gmap path node) (p : path) : bool :=
  match lookup_node fs p with Some (File _) => true | _ => false end.

(** [p.mkdir(parents=True, exist_ok=True)], on the reversed path: an
    existing directory is accepted as it is, an existing file is an
    error, and a missing path is created after its parents. *)
Fixpoint mkdir_rev (fs : gmap path node) (rp : path) : exn + gmap path node :=
  match rp with
  | [] => inr fs
  | _ :: rparent =>
      match fs !! rev rp with
      | Some Dir => inr fs
      | Some (File _) => inl (OSError (str "FileExistsError"))
      | None =>
          match mkdir_rev fs rparent with
          | inl e => inl e
          | inr fs' => inr (<[rev rp := Dir]> fs')
          end
      end
  end.

Definition mkdir_p (fs : gmap path node) (p : path) : exn + gmap path node :=
  mkdir_rev fs (rev p).

(** Universal newlines: a text-mode read turns ["\r\n"] and a lone
    ["\r"] into ["\n"]. *)
Fixpoint universal_newlines (s : pystr) : pystr :=
  match s with
  | [] => []
  | c :: s' =>
      if (c =? 13)%N then
        match s' with
        | d :: s'' => if (d =? 10)%N then universal_newlines s' else nl :: universal_newlines s'
        | [] => [nl]
        end
      else c :: universal_newlines s'
  end.

(** [open(p, 'r', encoding='utf-8').read()] *)
Definition read_text_node (n : option node) : exn + pystr :=
  match n with
  | Some (File (Some data)) => inr (universal_newlines data)
  | Some (File None) => inl UnicodeDecodeError
  | Some Dir => inl (OSError (str "IsADirectoryError"))
  | None => inl (OSError (str "FileNotFoundError"))
  end.

(** [open(p, 'w', encoding='utf-8').write(content)] on POSIX, where no
    newline is translated on output: the parent must be a directory and
    [p] must not be one. *)
Definition write_text_fs (fs : gmap path node) (p : path) (content : pystr)
  : exn + gmap path node :=
  match lookup_node fs (parent p), p with
  | _, [] => inl (OSError (str "IsADirectoryError"))
  | Some Dir, _ =>
      match fs !! p with
      | Some Dir => inl (OSError (str "IsADirectoryError"))
      | _ => inr (<[p := File (Some content)]> fs)
      end
  | Some (File _), _ => inl (OSError (str "NotADirectoryError"))
  | None, _ => inl (OSError (str "FileNotFoundError"))
  end.

(** [src.rename(dst)] where [dst] does not exist: the node and, for a
    directory, everything below it moves. *)
Definition is_prefix (p q : path) : bool := bool_decide (take (length p) q = p).

Definition rename_fs (fs : gmap path node) (src dst : path) : exn + gmap path node :=
  match src with
  | [] => inl (OSError (str "PermissionError"))
  | _ =>
      match fs !! src, lookup_node fs (parent dst) with
      | None, _ => inl (OSError (str "FileNotFoundError"))
      | Some _, Some Dir =>
          inr (list_to_map
                 (map (fun '(p, n) =>
                         (if is_prefix src p then dst ++ drop (length src) p else p, n))
                      (map_to_list fs)))
      | Some _, _ => inl (OSError (str "FileNotFoundError"))
      end
  end.

(** The entries of a directory, in the order the map lists them (the
    operating system promises no order either). *)
Definition iterdir (fs : gmap path node) (d : path) : list path :=
  filter (fun p => bool_decide (p <> []) && bool_decide (parent p = d))
         (map fst (map_to_list fs)).

(** [d.glob("*" + ext)]: the entries whose name ends with [ext]. *)
Definition glob_suffix (fs : gmap path node) (d : path) (ext : pystr) : list path :=
  filter (fun p => endswith (name p) ext) (iterdir fs d).

(** [d.glob("*/")] followed by the [is_dir()] test of the callers. *)
Definition glob_dirs (fs : gmap path node) (d : path) : list path :=
  filter (is_dir fs) (iterdir fs d).

End FS.
Export FS.

(** ** The world the pipeline runs in *)

Module World.

(** The calls made to external services, in the order they are made. *)
Inductive call : Type :=
| CallMistralOCR (file : path)
| CallGeminiVision (file : path)
| CallMistralAudio (file : path)
| CallPandas (file : path)
| CallExhibitExtractor (folder : path).

Record world : Type := {
  files : gmap path node;
  calls : list call
}.

(** Code that reads and writes the world and may raise. What was done
    before a [raise] stays done. *)
Definition M (A : Type) : Type := world -> (exn + A) * world.

Definition ret {A} (a : A) : M A := fun w => (inr a, w).

Definition raise {A} (e : exn) : M A := fun w => (inl e, w).

Definition bind {A B} (m : M A) (k : A -> M B) : M B :=
  fun w =>
    match m w with
    | (inl e, w') => (inl e, w')
    | (inr a, w') => k a w'
    end.

(** [try: m  except Exception as e: h e] *)
Definition try_except {A} (m : M A) (h : exn -> M A) : M A :=
  fun w =>
    match m w with
    | (inl e, w') => h e w'
    | (inr a, w') => (inr a, w')
    end.

(** [try: m  except Exception as e: raise Exception(f"<prefix>{e}")] *)
Definition reraise {A} (prefix : pystr) (m : M A) : M A :=
  try_except m (fun e => raise (ExceptionFrom prefix e)).

Definition get_files : M (gmap path node) := fun w => (inr (files w), w).

Definition lift_fs (f : gmap path node -> exn + gmap path node) : M unit :=
  fun w =>
    match f (files w) with
    | inl e => (inl e, w)
    | inr fs' => (inr tt, {| files := fs'; calls := calls w |})
    end.

Definition lift_result {A} (r : exn + A) : M A :=
  fun w => (r, w).

Definition log_call (c : call) : M unit :=
  fun w => (inr tt, {| files := files w; calls := calls w ++ [c] |}).

Definition mkdir (p : path) : M unit := lift_fs (fun fs => mkdir_p fs p).

Definition read_text (p : path) : M pystr :=
  fun w => (read_text_node (lookup_node (files w) p), w).

Definition write_text (p : path) (content : pystr) : M unit :=
  lift_fs (fun fs => write_text_fs fs p content).

Definition rename (src dst : path) : M unit :=
  lift_fs (fun fs => rename_fs fs src dst).

(** [open(p, 'rb')]: the file must be there. *)
Definition open_rb (p : path) : M unit :=
  fun w =>
    match lookup_node (files w) p with
    | Some (File _) => (inr tt, w)
    | Some Dir => (inl (OSError (str "IsADirectoryError")), w)
    | None => (inl (OSError (str "FileNotFoundError")), w)
    end.

(** The external calls a piece of code adds to the log: some of [cs],
    in that order. *)
Definition appends {A} (cs : list call) (m : M A) : Prop :=
  forall w, exists cs', cs' `sublist_of` cs /\ calls (snd (m w)) = calls w ++ cs'.


(** The calls a handler can make for the file [p]. *)
Definition handler_calls (p : path) : list call :=
  [CallMistralOCR p; CallGeminiVision p; CallMistralAudio p; CallPandas p].

End World.
Export World.

Notation "x <- c ;; k" := (bind c (fun x => k))
  (at level 100, c at next level, right associativity).
Notation "c ;;; k" := (bind c (fun _ => k))
  (at level 100, right associativity).

(** ** The dicts the pipeline passes around *)

Module Records.

Inductive meta : Type :=
| MInt (n : nat)
| MBool (b : bool)
| MStr (s : pystr).

(** The keys of the extraction and summary dicts; a key that a dict does
    not have is [None]. The float-valued metadata ([processing_time],
    [file_size_mb], [cost_estimate]) is left out. *)
Record doc_record : Type := {
  file_path : option path;
  pdf_path : option path;
  doc_folder : option path;
  doc_type : option pystr;
  success : bool;
  error : option pystr;
  extraction_method : option pystr;
  text_extracted : option bool;
  centralized_copy : option path;
  metadata : option (list (pystr * meta));
  has_exhibits : option bool;
  exhibit_count : option nat;
  doc_id : option pystr
}.

(** [doc_info.get('file_path') or doc_info.get('pdf_path')] *)
Definition file_ref (d : doc_record) : option path :=
  match file_path d with
  | Some p => Some p
  | None => pdf_path d
  end.

(** What a consumer of a document list looks at to find the document:
    its folder and its source file. *)
Definition doc_refs (docs : list doc_record) : list (option path * option path) :=
  map (fun d => (doc_folder d, file_ref d)) docs.

End Records.
Export Records.

(** ** What the pipeline takes from outside *)

Module Outside.

(** The external services and library functions. Each is a function of
    the file it is asked about; what it raises is a value.
    - [str_lower], [str_upper]: [str.lower], [str.upper] (Unicode tables).
    - [cpu_count]: [multiprocessing.cpu_count()].
    - [ocr_process]: upload, signed URL and [client.ocr.process] of
      [extract_text_with_mistral]; the markdown of the pages, or the
      exception the function ends with.
    - [vision_stdout]: [_get_gemini_vision_description]; [inl] when
      [relative_to] raises, [Some stdout] on exit code 0, [None] otherwise.
    - [transcribe]: model, language and text of the transcription.
    - [read_csv]: [len(df)], [len(df.columns)], [df.to_markdown(index=False)].
    - [read_excel]: per sheet, its name and the same three values.
    - [should_extract_exhibits], [extract_exhibits]: the methods of
      [ExhibitExtractor], seen through the keys this module reads. *)
Class externals : Type := {
  str_lower : pystr -> pystr;
  str_upper : pystr -> pystr;
  cpu_count : nat;
  ocr_process : path -> exn + list pystr;
  vision_stdout : path -> exn + option pystr;
  transcribe : path -> exn + (pystr * pystr * pystr);
  read_csv : path -> exn + (nat * nat * pystr);
  read_excel : path -> exn + list (pystr * (nat * nat * pystr));
  should_extract_exhibits : pystr -> bool;
  extract_exhibits : doc_record -> exn + list doc_record
}.

(** The attributes of [DocumentProcessor] ([self]) and the module
    flag [EXHIBIT_EXTRACTOR_AVAILABLE]. *)
Class processor : Type := {
  intake_path : path;
  case_folder : path;
  exhibit_enabled : bool;
  exhibit_create_summaries : bool;
  EXHIBIT_EXTRACTOR_AVAILABLE : bool
}.

End Outside.
Export Outside.

(** ** Module-level tables *)

Module Tables.

Definition DOCUMENT_TYPE_PATTERNS : list (pystr * list pystr) :=
  [ (str "Motion", [str "motion"; str "mtd"; str "mtc"; str "mts"; str "mtv"]);
    (str "Response", [str "response"; str "opposition"; str "reply"; str "answer"]);
    (str "Complaint", [str "complaint"; str "petition"; str "amended complaint"]);
    (str "Order", [str "order"; str "ruling"; str "judgment"; str "decree"]);
    (str "Notice", [str "notice"; str "notification"; str "noa"]);
    (str "Evidence", [str "exhibit"; str "evidence"; str "attachment"; str "affidavit"]);
    (str "Research", [str "memo"; str "research"; str "analysis"; str "brief"]) ].

Definition SUPPORTED_FILE_TYPES : list (pystr * list pystr) :=
  [ (str "pdf", [str ".pdf"]);
    (str "docx", [str ".docx"]);
    (str "pptx", [str ".pptx"]);
    (str "csv", [str ".csv"]);
    (str "xlsx", [str ".xlsx"; str ".xls"]);
    (str "txt", [str ".txt"]);
    (str "md", [str ".md"; str ".markdown"]);
    (str "image", [str ".jpg"; str ".jpeg"; str ".png"; str ".gif"; str ".bmp";
                   str ".tiff"; str ".tif"; str ".avif"]);
    (str "audio", [str ".mp3"; str ".wav"; str ".m4a"; str ".ogg"]) ].

End Tables.
Export Tables.

(** ** Regular expressions of [_sanitize_filename] *)

Module Regex.

Definition underscore : N := 95%N.

(** The class [[a-z0-9_-]]. *)
Definition in_class (c : N) : bool :=
  ((97 <=? c) && (c <=? 122) || (48 <=? c) && (c <=? 57)
   || (c =? 95) || (c =? 45))%N.

(** [re.sub(r'[^a-z0-9_-]', '_', name)]: every character outside the
    class is a match of its own. *)
Definition sub_outside_class (name : pystr) : pystr :=
  map (fun c => if in_class c then c else underscore) name.

(** [re.sub(r'_+', '_', name)], as the scan proceeds: a match starts at
    the first underscore of a run, takes the whole run and leaves one
    underscore. [in_run] says that the previous character belonged to
    the current match. *)
Fixpoint sub_runs (in_run : bool) (name : pystr) : pystr :=
  match name with
  | [] => []
  | c :: rest =>
      if (c =? underscore)%N
      then if in_run then sub_runs true rest else underscore :: sub_runs true rest
      else c :: sub_runs false rest
  end.

Definition sub_underscore_runs (name : pystr) : pystr := sub_runs false name.

(** The steps in the words of the specification: "stripping the
    extension" removes the last dot and what follows it; "collapsing
    runs of consecutive underscores to one" drops every underscore that
    stands directly before another one. They are written without the
    definitions of the code above. *)
Fixpoint after_first_dot (s : pystr) : pystr :=
  match s with
  | [] => []
  | c :: s' => if (c =? dot)%N then s' else after_first_dot s'
  end.

Definition spec_strip_extension (filename : pystr) : pystr :=
  if existsb (N.eqb dot) filename
  then rev (after_first_dot (rev filename))
  else filename.

(** "Replacing every character outside [a-z0-9_-] with an underscore":
    character by character, with the class written out. *)
Definition spec_allowed : pystr := str "abcdefghijklmnopqrstuvwxyz0123456789_-".

Fixpoint spec_replace (name : pystr) : pystr :=
  match name with
  | [] => []
  | c :: rest =>
      (if bool_decide (c ∈ spec_allowed) then c else underscore) :: spec_replace rest
  end.

Definition spec_collapse (name : pystr) : pystr :=
  foldr (fun c acc =>
           match acc with
           | d :: _ => if (c =? underscore)%N && (d =? underscore)%N then acc else c :: acc
           | [] => [c]
           end) [] name.

End Regex.
Export Regex.

(** ** The methods of [DocumentProcessor]

    [self._log] appends a line to [log_file] and prints. Log lines are
    not part of the model: the content of [log_file] is not followed,
    and what is said to be left as it was is said of the other paths.
    [Pool.map] is modelled by running the workers one after the other,
    in the order of its argument. *)

Section Pipeline.

Context {X : externals} {self : processor}.

(** [self.documents_folder] *)
Definition documents_folder : path := case_folder </> str "documents".

(** [self.log_file] *)
Definition log_file : path := documents_folder </> str "processing_log.txt".

(** *** File type detection and the centralized folder *)

Definition _detect_file_type (file_path : path) : pystr :=
  let ext := str_lower (suffix file_path) in
  match find (fun entry => bool_decide (ext ∈ snd entry)) SUPPORTED_FILE_TYPES with
  | Some (file_type, _) => file_type
  | None => str "unsupported"
  end.

Definition fte_folder : path := documents_folder </> str "full_text_extractions".

Definition _create_centralized_extraction_folder : M path :=
  mkdir fte_folder ;;;
  ret fte_folder.

Definition _sanitize_filename (filename : pystr) : pystr :=
  (* Remove extension *)
  let name :=
    match rfind dot filename with
    | Some i => take i filename          (* filename.rsplit('.', 1)[0] *)
    | None => filename
    end in
  (* Lowercase and replace spaces/special chars with underscores *)
  let name := str_lower name in
  let name := sub_outside_class name in
  (* Remove consecutive underscores *)
  let name := sub_underscore_runs name in
  (* Truncate to 200 chars *)
  take 200 name.

(** The name tried for a given value of [counter]. *)
Definition candidate (base_name suffix : pystr) (counter : nat) : pystr :=
  match counter with
  | 0 => base_name ++ suffix
  | _ => base_name ++ [underscore] ++ format_int counter ++ suffix
  end.

(** The [while True] loop of [_get_centralized_path], run for at most
    [fuel] existence tests. *)
Fixpoint free_path_loop (fs : gmap path node) (folder : path) (base_name suffix : pystr)
    (fuel counter : nat) : path :=
  let path := folder </> candidate base_name suffix counter in
  match fuel with
  | 0 => path
  | S fuel' =>
      if negb (exists_ fs path) then path
      else free_path_loop fs folder base_name suffix fuel' (S counter)
  end.

(** The loop gets one test more than the file system has entries, which
    is enough for it to leave through its [return] (see
    [free_path_loop_returns]). *)
Definition _get_centralized_path (original_filename suffix : pystr) : M path :=
  fte_folder <- _create_centralized_extraction_folder ;;
  let base_name := _sanitize_filename original_filename in
  fs <- get_files ;;
  ret (free_path_loop fs fte_folder base_name suffix (S (size fs)) 0).

(** The two statements every handler ends with:
    [centralized_path = self._get_centralized_path(file_path.name, '.txt')]
    and the write of the text to it. *)
Definition write_centralized_copy (file_name content : pystr) : M path :=
  centralized_path <- _get_centralized_path file_name (str ".txt") ;;
  write_text centralized_path content ;;;
  ret centralized_path.

(** Insertion sort, for [sorted(all_files)]. *)
Fixpoint path_leb (p q : path) : bool :=
  match p, q with
  | [], _ => true
  | _ :: _, [] => false
  | a :: p', b :: q' => if bool_decide (a = b) then path_leb p' q' else str_leb a b
  end.

Fixpoint insert_sorted (p : path) (l : list path) : list path :=
  match l with
  | [] => [p]
  | q :: l' => if path_leb q p then q :: insert_sorted p l' else p :: l
  end.

Definition sorted (l : list path) : list path :=
  fold_left (fun acc p => insert_sorted p acc) l [].

Definition _discover_intake_files : M (list path) :=
  fs <- get_files ;;
  let all_files :=
    flat_map (fun entry => flat_map (fun ext => glob_suffix fs intake_path ext) (snd entry))
             SUPPORTED_FILE_TYPES in
  ret (sorted all_files).

Definition detect_document_type (pdf_path : path) : pystr :=
  let filename_lower := str_lower (stem pdf_path) in
  (* Try filename pattern matching *)
  match find (fun entry => existsb (fun pattern => contains filename_lower pattern) (snd entry))
             DOCUMENT_TYPE_PATTERNS with
  | Some (doc_type, _) => doc_type
  (* Fallback: use the filename stem as folder name *)
  | None => stem pdf_path
  end.

(** *** Extraction handlers *)

Definition extract_text_with_mistral (pdf_path output_folder : path)
  : M (pystr * list (pystr * meta)) :=
  (* pdf_path.stat() and open(pdf_path, 'rb') come first inside the try *)
  reraise (str "Mistral OCR failed after <t>s: ") (open_rb pdf_path) ;;;
  log_call (CallMistralOCR pdf_path) ;;;
  pages <- lift_result (ocr_process pdf_path) ;;
  (* Step 4: Extract text with page break markers *)
  let extracted_text := Pages.reassemble_pages pages in
  let actual_page_count := length pages in
  ret (extracted_text,
       [ (str "page_count", MInt actual_page_count);
         (str "ocr_used", MBool true);
         (str "ocr_method", MStr (str "mistral"));
         (str "api_model", MStr (str "mistral-ocr-latest")) ]).

Definition full_text_file (doc_folder : path) : path :=
  doc_folder </> str "full_text_extraction.txt".

Definition extraction_record (file_path doc_folder : path) (doc_type method : pystr)
    (text_extracted : bool) (centralized_path : path) (metadata : list (pystr * meta))
  : doc_record :=
  {| file_path := Some file_path; pdf_path := None; doc_folder := Some doc_folder;
     doc_type := Some doc_type; success := true; error := None;
     extraction_method := Some method; text_extracted := Some text_extracted;
     centralized_copy := Some centralized_path; metadata := Some metadata;
     has_exhibits := None; exhibit_count := None; doc_id := None |}.

Definition _extract_mistral_ocr (file_path doc_folder : path) : M doc_record :=
  reraise (str "Mistral OCR failed: ") (
    let doc_type := detect_document_type file_path in
    r <- extract_text_with_mistral file_path doc_folder ;;
    let '(extracted_text, metadata) := r in
    (* Save to document folder *)
    write_text (full_text_file doc_folder) extracted_text ;;;
    (* Copy to centralized folder *)
    centralized_path <- write_centralized_copy (name file_path) extracted_text ;;
    ret (extraction_record file_path doc_folder doc_type (str "mistral_ocr") true
           centralized_path metadata)).

Definition _get_gemini_vision_description (image_path output_folder : path) : M pystr :=
  r <- lift_result (vision_stdout image_path) ;;
  log_call (CallGeminiVision image_path) ;;;
  match r with
  | Some stdout => ret (strip stdout)
  | None => ret (str "[Visual description unavailable]")
  end.

Definition _extract_image_hybrid (file_path doc_folder : path) : M doc_record :=
  reraise (str "Image extraction failed: ") (
    r <- extract_text_with_mistral file_path doc_folder ;;
    let '(extracted_text, ocr_metadata) := r in
    visual_description <- _get_gemini_vision_description file_path doc_folder ;;
    let combined_content :=
      str "# Image Analysis: " ++ name file_path ++ [nl; nl]
      ++ str "## Extracted Text (OCR)" ++ [nl]
      ++ (match strip extracted_text with
          | [] => str "[No text detected in image]"
          | _ => extracted_text
          end) ++ [nl; nl]
      ++ str "## Visual Description" ++ [nl]
      ++ visual_description ++ [nl] in
    write_text (full_text_file doc_folder) combined_content ;;;
    centralized_path <- write_centralized_copy (name file_path) combined_content ;;
    ret (extraction_record file_path doc_folder (str "IMAGE") (str "hybrid_ocr_vision") true
           centralized_path
           (ocr_metadata ++ [(str "visual_description_generated", MBool true)]))).

Definition _extract_audio (file_path doc_folder : path) : M doc_record :=
  reraise (str "Audio transcription failed: ") (
    open_rb file_path ;;;
    log_call (CallMistralAudio file_path) ;;;
    transcription <- lift_result (transcribe file_path) ;;
    let '(model, language, text) := transcription in
    let transcription_text :=
      str "# Audio Transcription: " ++ name file_path ++ [nl; nl]
      ++ str "**Model:** " ++ model ++ [nl]
      ++ str "**Language:** " ++ language ++ [nl; nl]
      ++ str "## Transcription" ++ [nl]
      ++ text ++ [nl] in
    write_text (full_text_file doc_folder) transcription_text ;;;
    centralized_path <- write_centralized_copy (name file_path) transcription_text ;;
    ret (extraction_record file_path doc_folder (str "AUDIO") (str "mistral_audio") true
           centralized_path
           [(str "model", MStr model); (str "language", MStr language)])).

Definition _extract_csv (file_path doc_folder : path) : M doc_record :=
  reraise (str "CSV extraction failed: ") (
    open_rb file_path ;;;
    log_call (CallPandas file_path) ;;;
    df <- lift_result (read_csv file_path) ;;
    let '(rows, columns, table) := df in
    let markdown_table :=
      str "# CSV Data: " ++ name file_path ++ [nl; nl]
      ++ str "**Rows:** " ++ format_int rows ++ [nl]
      ++ str "**Columns:** " ++ format_int columns ++ [nl; nl]
      ++ str "## Data" ++ [nl; nl]
      ++ table ++ [nl] in
    write_text (full_text_file doc_folder) markdown_table ;;;
    centralized_path <- write_centralized_copy (name file_path) markdown_table ;;
    ret (extraction_record file_path doc_folder (str "CSV") (str "pandas") true
           centralized_path
           [(str "rows", MInt rows); (str "columns", MInt columns)])).

Definition excel_sheet (markdown_content : pystr) (sheet : pystr * (nat * nat * pystr)) : pystr :=
  let '(sheet_name, (rows, columns, table)) := sheet in
  markdown_content
  ++ (str "## Sheet: " ++ sheet_name ++ [nl; nl])
  ++ (str "**Rows:** " ++ format_int rows ++ str " | **Columns:** " ++ format_int columns
      ++ [nl; nl])
  ++ table
  ++ ([nl; nl] ++ str "---" ++ [nl; nl]).

Definition _extract_excel (file_path doc_folder : path) : M doc_record :=
  reraise (str "Excel extraction failed: ") (
    open_rb file_path ;;;
    log_call (CallPandas file_path) ;;;
    sheets <- lift_result (read_excel file_path) ;;
    let markdown_content := str "# Excel Data: " ++ name file_path ++ [nl; nl] in
    let markdown_content :=
      markdown_content ++ (str "**Sheets:** " ++ format_int (length sheets) ++ [nl; nl]) in
    let markdown_content := fold_left excel_sheet sheets markdown_content in
    write_text (full_text_file doc_folder) markdown_content ;;;
    centralized_path <- write_centralized_copy (name file_path) markdown_content ;;
    ret (extraction_record file_path doc_folder (str "EXCEL") (str "pandas") true
           centralized_path
           [(str "sheets", MInt (length sheets))])).

Definition _extract_plaintext (file_path doc_folder : path) : M doc_record :=
  reraise (str "Plaintext extraction failed: ") (
    (* Read original file *)
    content <- read_text file_path ;;
    (* Copy ONLY to centralized folder *)
    centralized_path <- write_centralized_copy (name file_path) content ;;
    ret (extraction_record file_path doc_folder
           (str_upper (drop 1 (suffix file_path)))      (* file_path.suffix[1:].upper() *)
           (str "direct_copy") false centralized_path
           [(str "character_count", MInt (length content))])).

Definition _extract_unsupported (file_path doc_folder : path) : M doc_record :=
  ret {| file_path := Some file_path; pdf_path := None; doc_folder := Some doc_folder;
         doc_type := Some (str "UNSUPPORTED"); success := false;
         error := Some (str "Unsupported file type: " ++ suffix file_path);
         extraction_method := None; text_extracted := None; centralized_copy := None;
         metadata := None; has_exhibits := None; exhibit_count := None; doc_id := None |}.

(** *** Phase 1: the router and the batch *)

Definition failure_record (file_path : path) (e : exn) : doc_record :=
  {| file_path := Some file_path; pdf_path := None; doc_folder := None;
     doc_type := None; success := false; error := Some (exn_str e);
     extraction_method := None; text_extracted := None; centralized_copy := None;
     metadata := None; has_exhibits := None; exhibit_count := None; doc_id := None |}.

Definition handlers : list (pystr * (path -> path -> M doc_record)) :=
  [ (str "pdf", _extract_mistral_ocr);
    (str "docx", _extract_mistral_ocr);
    (str "pptx", _extract_mistral_ocr);
    (str "image", _extract_image_hybrid);
    (str "audio", _extract_audio);
    (str "csv", _extract_csv);
    (str "xlsx", _extract_excel);
    (str "txt", _extract_plaintext);
    (str "md", _extract_plaintext) ].

(** [handlers.get(file_type, self._extract_unsupported)] *)
Definition handlers_get (file_type : pystr) : path -> path -> M doc_record :=
  match find (fun entry => bool_decide (fst entry = file_type)) handlers with
  | Some (_, handler) => handler
  | None => _extract_unsupported
  end.

(** The [try] block of [_extract_single_document_router]. *)
Definition router_try_block (file_path : path) : M doc_record :=
  let file_type := _detect_file_type file_path in
  (* Create document folder *)
  let doc_folder := documents_folder </> stem file_path in
  mkdir doc_folder ;;;
  (* Move file from Intake to document folder *)
  let moved_file := doc_folder </> name file_path in
  fs <- get_files ;;
  (if negb (exists_ fs moved_file) then rename file_path moved_file else ret tt) ;;;
  (* Route to appropriate handler *)
  handlers_get file_type moved_file doc_folder.

Definition _extract_single_document_router (file_path : path) : M doc_record :=
  try_except (router_try_block file_path)
             (fun e => ret (failure_record file_path e)).

(** What happens to the items of a batch, one after the other, each in
    the world the item before has left: [inl e] when the [try] block of
    the router raises [e], [inr r] when its handler returns [r]. The
    [success] flags play no part in it. *)
Fixpoint batch_outcomes (all_files : list path) (w : world)
  : list (path * (exn + doc_record)) :=
  match all_files with
  | [] => []
  | file_path :: rest =>
      let '(outcome, w') := router_try_block file_path w in
      (file_path, outcome) :: batch_outcomes rest w'
  end.

(** An item fails when the [try] block raises, or when the table of the
    router has no handler for the type of its file. *)
Definition handled (file_path : path) : bool :=
  bool_decide (_detect_file_type file_path ∈ map fst handlers).

Definition item_fails (o : path * (exn + doc_record)) : bool :=
  match snd o with
  | inl _ => true
  | inr _ => negb (handled (fst o))
  end.



(** [pool.map(f, items)], one item after the other. *)
Fixpoint pool_map {A B} (f : A -> M B) (items : list A) : M (list B) :=
  match items with
  | [] => ret []
  | a :: rest =>
      b <- f a ;;
      bs <- pool_map f rest ;;
      ret (b :: bs)
  end.

(** [max_workers = min(10, cpu_count(), len(all_files))] *)
Definition phase_1_max_workers (all_files : list path) : nat :=
  Nat.min 10 (Nat.min cpu_count (length all_files)).

(** The body of [phase_1_extract_all] down to its two comprehensions:
    the pair [(successful, failed)]. *)
Definition phase_1_batch : M (list doc_record * list doc_record) :=
  all_files <- _discover_intake_files ;;
  match all_files with
  | [] => ret ([], [])
  | _ =>
      results <- pool_map _extract_single_document_router all_files ;;
      (* Filter successful extractions *)
      let successful := List.filter (fun r => success r) results in
      let failed := List.filter (fun r => negb (success r)) results in
      ret (successful, failed)
  end.

(** [failed] is logged, [successful] is returned. *)
Definition phase_1_extract_all : M (list doc_record) :=
  batch <- phase_1_batch ;;
  ret (fst batch).

(** *** Phase 1.5: exhibits *)

(** One turn of the loop over [extracted_docs]: the exhibits found for
    [doc_meta] and [doc_meta] as the loop leaves it. The key [exhibits]
    (the ids of the exhibits) is left out. *)
Definition exhibits_of_document (doc_meta : doc_record) : M (list doc_record * doc_record) :=
  match doc_folder doc_meta with
  | None => raise (KeyError (str "doc_folder"))
  | Some doc_folder =>
      let full_text_path := full_text_file doc_folder in
      let original_pdf_path :=
        match file_path doc_meta, pdf_path doc_meta with
        | Some p, _ => p
        | None, Some p => p
        | None, None => []
        end in
      fs <- get_files ;;
      (* Skip if not a PDF or if full text doesn't exist *)
      if negb (bool_decide (str_lower (suffix original_pdf_path) = str ".pdf"))
         || negb (exists_ fs full_text_path)
      then ret ([], doc_meta)
      else
        let document_type := default (str "Unknown") (doc_type doc_meta) in
        if negb (should_extract_exhibits document_type) then ret ([], doc_meta)
        else
          log_call (CallExhibitExtractor doc_folder) ;;;
          match extract_exhibits doc_meta with
          | inl _ => ret ([], doc_meta)
          | inr [] => ret ([], doc_meta)
          | inr exhibits =>
              ret (exhibits,
                   {| file_path := file_path doc_meta; pdf_path := pdf_path doc_meta;
                      doc_folder := Records.doc_folder doc_meta;
                      doc_type := doc_type doc_meta; success := success doc_meta;
                      error := error doc_meta;
                      extraction_method := extraction_method doc_meta;
                      text_extracted := text_extracted doc_meta;
                      centralized_copy := centralized_copy doc_meta;
                      metadata := metadata doc_meta;
                      has_exhibits := Some true;
                      exhibit_count := Some (length exhibits);
                      doc_id := doc_id doc_meta |})
          end
  end.

Fixpoint exhibits_loop (extracted_docs : list doc_record)
  : M (list doc_record * list doc_record) :=
  match extracted_docs with
  | [] => ret ([], [])
  | doc_meta :: rest =>
      r <- exhibits_of_document doc_meta ;;
      rs <- exhibits_loop rest ;;
      ret (fst r ++ fst rs, snd r :: snd rs)
  end.

(** Returns [all_exhibits] and the list [extracted_docs] whose dicts
    the loop has updated in place. The second loop of the method calls
    [self._extract_pdf_mistral], which the class does not define; each
    call is caught by the loop's [except] and changes nothing. The
    constructor of [ExhibitExtractor] and its [should_extract_exhibits],
    which the method calls outside any [try], are taken to return. *)
Definition phase_1_5_extract_exhibits (extracted_docs : list doc_record)
  : M (list doc_record * list doc_record) :=
  if negb EXHIBIT_EXTRACTOR_AVAILABLE then ret ([], extracted_docs)
  else if negb exhibit_enabled then ret ([], extracted_docs)
  else exhibits_loop extracted_docs.

(** *** The phase controller, up to the call of Phase 2 *)

(** [run_all_phases] from its start to
    [self.phase_2_summarize_all(extracted_docs)]: the argument of that
    call, or [None] when the method returns before it. *)
Definition run_all_phases_phase_2_input : M (option (list doc_record)) :=
  (* Phase 1: Extract text (parallel) *)
  extracted_docs <- phase_1_extract_all ;;
  match extracted_docs with
  | [] => ret None
  | _ =>
      (* Phase 1.5: Extract exhibits (if enabled) *)
      extracted_docs <-
        (if exhibit_enabled then
           r <- phase_1_5_extract_exhibits extracted_docs ;;
           let '(all_exhibits, extracted_docs) := r in
           match all_exhibits with
           | [] => ret extracted_docs
           | _ =>
               (* Add exhibits to extracted_docs for Phase 2 summarization *)
               if exhibit_create_summaries
               then ret (extracted_docs ++ all_exhibits)
               else ret extracted_docs
           end
         else ret extracted_docs) ;;
      ret (Some extracted_docs)
  end.

(** One turn of the loop of [_load_extracted_documents]. *)
Definition load_extracted_step (fs : gmap path node) (extracted_docs : list doc_record)
    (doc_folder : path) : list doc_record :=
  let text_file := full_text_file doc_folder in
  if exists_ fs text_file then
    (* Find PDF file *)
    match glob_suffix fs doc_folder (str ".pdf") with
    | pdf :: _ =>
        extracted_docs ++
        [ {| file_path := None; pdf_path := Some pdf; doc_folder := Some doc_folder;
             doc_type := Some (name doc_folder); success := true; error := None;
             extraction_method := None; text_extracted := None;
             centralized_copy := None; metadata := None;
             has_exhibits := None; exhibit_count := None; doc_id := None |} ]
    | [] => extracted_docs
    end
  else extracted_docs.

Definition _load_extracted_documents : M (list doc_record) :=
  fs <- get_files ;;
  ret (fold_left (load_extracted_step fs) (glob_dirs fs documents_folder) []).

(** [run_phase("summarize")] from its start to the call of Phase 2. *)
Definition run_phase_summarize_phase_2_input : M (list doc_record) :=
  _load_extracted_documents.

(** [Pool(processes=min(num_workers, cpu_count()))] of
    [phase_2_summarize_all], whose [num_workers] defaults to 10 and is
    left at its default by every caller. *)
Definition phase_2_processes (num_workers : nat) : nat :=
  Nat.min num_workers cpu_count.

Definition default_num_workers : nat := 10.

End Pipeline.

(** ** Summaries: code fences, the worker of the pool, the retrying generator *)

(** The lines that [phase_3_synthesize_case_summary] and
    [_load_summarized_documents] both run on the text of a
    [document_summary.json] before [json.loads]. *)
Definition strip_code_fences (content : pystr) : pystr :=
  let content := strip content in
  let content :=
    if startswith content (str "```json") then drop 7 content else content in
  let content :=
    if startswith content (str "```") then drop 3 content else content in
  let content :=
    if endswith content (str "```") then take (length content - 3) content else content in
  strip content.

(** A text between markdown fences; [before] and [after] are what
    separates it from the fence lines (usually one newline each). *)
Definition fenced (before s after : pystr) : pystr :=
  str "```json" ++ before ++ s ++ after ++ str "```".

(** The whitespace of the JSON grammar, which [json.loads] skips before
    and after the value. *)
Definition json_ws (c : N) : bool :=
  ((c =? 32) || (c =? 9) || (c =? 10) || (c =? 13))%N.

Definition json_strip (s : pystr) : pystr := strip_by json_ws s.

(** The characters a JSON value, as Python reads it, can start and end
    with: brackets, quotes, digits, the sign, and the ends of [true],
    [false], [null], [NaN], [Infinity]. *)
Definition value_start (c : N) : bool :=
  ((c =? 123) || (c =? 91) || (c =? 34) || (c =? 45) || (48 <=? c) && (c <=? 57)
   || (c =? 116) || (c =? 102) || (c =? 110) || (c =? 78) || (c =? 73))%N.

Definition value_end (c : N) : bool :=
  ((c =? 125) || (c =? 93) || (c =? 34) || (48 <=? c) && (c <=? 57)
   || (c =? 101) || (c =? 108) || (c =? 78) || (c =? 121))%N.

Definition well_delimited (s : pystr) : bool :=
  match json_strip s with
  | [] => false
  | c :: rest => value_start c && value_end (List.last rest c)
  end.

(** One [subprocess.run] of the [gemini] command line: it returns (exit
    code, standard error, and whether [output_json] exists afterwards),
    it times out, or it raises something else. *)
Inductive cli_result : Type :=
| Completed (returncode : Z) (stderr : pystr) (output_exists : bool)
| TimeoutExpired
| Raised (e : exn).

(** What a summary routine does that can be observed from outside. *)
Inductive cli_event : Type :=
| Run (timeout : nat)
| Sleep (seconds : nat).

(** Where the module runs, both paths given from the root. The paths of
    the model are written from the current directory [cwd] (which is
    empty when they are written from the root), so that [p.absolute()]
    is [cwd ++ p]; [workspace_root] is
    [Path(__file__).resolve().parent.parent]. *)
Class workspace : Type := {
  cwd : path;
  workspace_root : path
}.

(** [str(p)] for an absolute path, given by its components from the
    root. *)
Definition absolute_str (p : path) : pystr :=
  match p with
  | [] => str "/"
  | _ => flat_map (fun c => str "/" ++ c) p
  end.

(** [p.relative_to(other)] for two absolute paths; the text of the
    error is the one of Python 3.12. *)
Definition relative_to (p other : path) : exn + path :=
  if is_prefix other p then inr (drop (length other) p)
  else inl (ValueError (str "'" ++ absolute_str p ++ str "' is not in the subpath of '"
                        ++ absolute_str other ++ str "'")).

Definition summary_file (doc_folder : path) : path :=
  doc_folder </> str "document_summary.json".

Section Summaries.

Context {X : externals} {W : workspace}.

(** The text file a summary is made from. *)
Definition locate_text (fs : gmap path node) (doc_info : doc_record) : exn + path :=
  match doc_folder doc_info with
  | None => inl (KeyError (str "doc_folder"))
  | Some folder =>
      let text_file := full_text_file folder in
      if exists_ fs text_file then inr text_file
      else
        (* Check if original file is TXT/MD and use it directly *)
        match file_path doc_info with
        | Some original_file =>
            if bool_decide (str_lower (suffix original_file)
                              ∈ [str ".txt"; str ".md"; str ".markdown"])
            then inr original_file
            else inl (Exception
                        (str "No text extraction found and original file is not plaintext"))
        | None =>
            inl (Exception (str "No text extraction found and original file is not plaintext"))
        end
  end.

Definition summary_failure (doc_info : doc_record) (e : exn) : doc_record :=
  {| file_path := file_ref doc_info; pdf_path := None;
     doc_folder := doc_folder doc_info; doc_type := None;
     success := false; error := Some (exn_str e);
     extraction_method := None; text_extracted := None; centralized_copy := None;
     metadata := None; has_exhibits := None; exhibit_count := None; doc_id := None |}.

Definition summary_success (doc_info : doc_record) : doc_record :=
  {| file_path := file_ref doc_info; pdf_path := None;
     doc_folder := doc_folder doc_info;
     doc_type := Some (default (str "Unknown") (doc_type doc_info));
     success := true; error := None;
     extraction_method := None; text_extracted := None; centralized_copy := None;
     metadata := None; has_exhibits := None; exhibit_count := None; doc_id := None |}.

(** The two paths the prompt of the command line names, relative to the
    workspace root: [relative_text] and [relative_output]. *)
Definition prompt_paths (text_file output_json : path) : exn + path * path :=
  let absolute_text := cwd ++ text_file in
  let absolute_output := cwd ++ output_json in
  match relative_to absolute_text workspace_root with
  | inl e => inl e
  | inr relative_text =>
      match relative_to absolute_output workspace_root with
      | inl e => inl e
      | inr relative_output => inr (relative_text, relative_output)
      end
  end.

(** [_generate_summary_worker_static], the function [phase_2_summarize_all]
    hands to [pool.map]: one call of the command line, everything
    caught. [script 0] is the outcome of that call. *)
Definition _generate_summary_worker_static (fs : gmap path node)
    (script : nat -> cli_result) (doc_info : doc_record) : doc_record * list cli_event :=
  match locate_text fs doc_info, doc_folder doc_info with
  | inl e, _ => (summary_failure doc_info e, [])
  | inr _, None => (summary_failure doc_info (KeyError (str "doc_folder")), [])
  | inr text_file, Some folder =>
      let output_json := summary_file folder in
      (* Build prompt for Gemini CLI *)
      match prompt_paths text_file output_json with
      | inl e => (summary_failure doc_info e, [])
      | inr _ =>
          match script 0 with
          | Completed returncode stderr _ =>
              if negb (returncode =? 0)%Z
              then (summary_failure doc_info (Exception (str "Gemini CLI failed: " ++ stderr)),
                    [Run 120])
              else (summary_success doc_info, [Run 120])
          | TimeoutExpired =>
              (summary_failure doc_info (External (str "TimeoutExpired")), [Run 120])
          | Raised e => (summary_failure doc_info e, [Run 120])
          end
      end
  end.

(** ["rate limit" in result.stderr.lower() or "429" in result.stderr] *)
Definition rate_limited (stderr : pystr) : bool :=
  contains (str_lower stderr) (str "rate limit") || contains stderr (str "429").

(** The [for attempt in range(max_retries)] loop of the subprocess
    fallback of [_generate_summary_sync]; [script attempt] is the outcome
    of the call made in that turn. *)
Fixpoint cli_retry_loop (script : nat -> cli_result) (max_retries : nat)
    (range : list nat) (events : list cli_event) : (exn + unit) * list cli_event :=
  match range with
  | [] => (inr tt, events)
  | attempt :: rest =>
      let events := events ++ [Run 90] in
      match script attempt with
      | Completed returncode stderr output_exists =>
          if negb (returncode =? 0)%Z then
            if rate_limited stderr && (attempt <? max_retries - 1) then
              let wait_time := (attempt + 1) * 2 in
              cli_retry_loop script max_retries rest (events ++ [Sleep wait_time])
            else (inl (Exception (str "Gemini failed: " ++ stderr)), events)
          else if negb output_exists
          then (inl (Exception (str "Gemini did not create output file")), events)
          else (inr tt, events)
      | TimeoutExpired =>
          if attempt <? max_retries - 1
          then cli_retry_loop script max_retries rest events
          else (inl (Exception (str "Gemini timeout after 3 attempts")), events)
      | Raised e => (inl e, events)
      end
  end.

(** [_generate_summary_sync]. [gemini] is [self.gemini]: [None], or the
    outcome of [generate_content] (what it raises, or whether the output
    file exists afterwards); [backend] is [self.gemini_config["backend"]]. *)
Definition _generate_summary_sync (gemini : option (exn + bool)) (backend : pystr)
    (fs : gmap path node) (script : nat -> cli_result) (doc_info : doc_record)
  : (exn + unit) * list cli_event :=
  match locate_text fs doc_info, doc_folder doc_info with
  | inl e, _ => (inl e, [])
  | inr _, None => (inl (KeyError (str "doc_folder")), [])
  | inr text_file, Some folder =>
      let output_json := summary_file folder in
      (* Build prompt (different for CLI vs API) *)
      match (if bool_decide (is_Some gemini) && bool_decide (backend = str "api")
             then inr None
             else
               (* CLI backend: use @{path} syntax *)
               match prompt_paths text_file output_json with
               | inl e => inl e
               | inr paths => inr (Some paths)
               end) with
      | inl e => (inl e, [])
      | inr _ =>
          match gemini with
          | Some (inl e) => (inl (ExceptionFrom (str "Gemini Interface failed: ") e), [])
          | Some (inr false) =>
              (inl (ExceptionFrom (str "Gemini Interface failed: ")
                      (Exception (str "Gemini did not create output file"))), [])
          | Some (inr true) => (inr tt, [])
          | None =>
              (* Fallback to subprocess (CLI only) *)
              let max_retries := 3 in
              cli_retry_loop script max_retries (seq 0 max_retries) []
          end
      end
  end.

(** [_generate_summary_worker], which wraps [_generate_summary_sync];
    nothing in the module calls it. *)
Definition _generate_summary_worker (gemini : option (exn + bool)) (backend : pystr)
    (fs : gmap path node) (script : nat -> cli_result) (doc_info : doc_record)
  : doc_record * list cli_event :=
  match _generate_summary_sync gemini backend fs script doc_info with
  | (inr _, events) => (summary_success doc_info, events)
  | (inl e, events) => (summary_failure doc_info e, events)
  end.

(** [phase_2_summarize_all]: the results of the pool, split; logging a
    failure reads [fail['pdf_path']]. [scripts d] is what the command
    line does for document [d]. *)
Definition phase_2_summarize_all (fs : gmap path node)
    (scripts : doc_record -> nat -> cli_result) (extracted_docs : list doc_record)
  : (exn + list doc_record) * list (list cli_event) :=
  match extracted_docs with
  | [] => (inr [], [])
  | _ =>
      let results :=
        map (fun d => _generate_summary_worker_static fs (scripts d) d) extracted_docs in
      let successful := List.filter (fun r => success r) (map fst results) in
      let failed := List.filter (fun r => negb (success r)) (map fst results) in
      match List.find (fun fail => negb (bool_decide (is_Some (pdf_path fail)))) failed with
      | Some _ => (inl (KeyError (str "pdf_path")), map snd results)
      | None => (inr successful, map snd results)
      end
  end.

(** The failures of a call in the words of the specification: a
    rate-limit signal in the error output, a timeout, and the failures
    that are neither. *)
Definition rate_limit_failure (r : cli_result) : bool :=
  match r with
  | Completed returncode stderr _ => negb (returncode =? 0)%Z && rate_limited stderr
  | _ => false
  end.

Definition timed_out (r : cli_result) : bool :=
  match r with
  | TimeoutExpired => true
  | _ => false
  end.

Definition non_transient_failure (r : cli_result) : bool :=
  match r with
  | Completed returncode stderr output_exists =>
      if (returncode =? 0)%Z then negb output_exists else negb (rate_limited stderr)
  | TimeoutExpired => false
  | Raised _ => true
  end.

(** The number of [Run] and the waits among the events of an item. *)
Definition runs (events : list cli_event) : nat :=
  length (List.filter (fun e => match e with Run _ => true | _ => false end) events).

Definition sleeps (events : list cli_event) : list nat :=
  flat_map (fun e => match e with Sleep s => [s] | _ => [] end) events.

End Summaries.

(** ** A small case, for running the definitions *)

Module Demo.

(** [str.lower] and [str.upper] on ASCII text. *)
Definition ascii_lower (s : pystr) : pystr :=
  map (fun c => if (65 <=? c)%N && (c <=? 90)%N then (c + 32)%N else c) s.

Definition ascii_upper (s : pystr) : pystr :=
  map (fun c => if (97 <=? c)%N && (c <=? 122)%N then (c - 32)%N else c) s.

Definition case : path := [str "cases"; str "demo"].
Definition intake : path := case ++ [str "Intake"].
Definition documents : path := case ++ [str "documents"].

(** The default configuration: no [exhibit_extraction] block. *)
Definition demo_processor : processor :=
  {| intake_path := intake; case_folder := case;
     exhibit_enabled := false; exhibit_create_summaries := false;
     EXHIBIT_EXTRACTOR_AVAILABLE := true |}.


Definition exhibit_A : doc_record :=
  {| file_path := None; pdf_path := None; doc_folder := None; doc_type := None;
     success := false; error := None; extraction_method := None;
     text_extracted := None; centralized_copy := None; metadata := None;
     has_exhibits := None; exhibit_count := None; doc_id := Some (str "notice_exhibit_A") |}.

(** Services that answer, except the OCR of [b.pdf] and every
    transcription. *)
Definition demo_externals : externals :=
  {| str_lower := ascii_lower;
     str_upper := ascii_upper;
     cpu_count := 4;
     ocr_process p :=
       if bool_decide (name p = str "b.pdf") then inl (External (str "503 Service Unavailable"))
       else inr [str "A"; str "B"; str "C"];
     vision_stdout _ := inr None;
     transcribe _ := inl (External (str "401 Unauthorized"));
     read_csv _ := inr (2, 3, str "| a | b | c |");
     read_excel _ := inr [];
     should_extract_exhibits _ := true;
     extract_exhibits _ := inr [exhibit_A] |}.

(** The script is started in the workspace root, with the paths of the
    command line relative to it. *)
Definition demo_workspace : workspace :=
  {| cwd := [str "srv"; str "war-room"]; workspace_root := [str "srv"; str "war-room"] |}.

(** The script is started from a directory outside the workspace. *)
Definition outside_workspace : workspace :=
  {| cwd := [str "home"; str "clerk"]; workspace_root := [str "srv"; str "war-room"] |}.

Definition empty_case : gmap path node :=
  list_to_map [ ([str "cases"], Dir); (case, Dir); (intake, Dir); (documents, Dir) ].

Definition add_file (fs : gmap path node) (p : path) (data : option pystr) : gmap path node :=
  <[p := File data]> fs.

Definition world_of (fs : gmap path node) : world := {| files := fs; calls := [] |}.

(** One spreadsheet export in the intake folder. *)
Definition csv_case : gmap path node :=
  add_file empty_case (intake ++ [str "data.csv"]) (Some (str "a,b,c")).

(** One PDF in the intake folder. *)
Definition pdf_case : gmap path node :=
  add_file empty_case (intake ++ [str "notice.pdf"]) None.

(** Five files, two of which the services refuse. *)
Definition five_case : gmap path node :=
  add_file (add_file (add_file (add_file (add_file empty_case
    (intake ++ [str "a.pdf"]) None)
    (intake ++ [str "b.pdf"]) None)
    (intake ++ [str "c.csv"]) (Some (str "a,b,c")))
    (intake ++ [str "d.txt"]) (Some (str "hello")))
    (intake ++ [str "e.mp3"]) None.

(** A note with Windows line endings, already moved to its folder. *)
Definition crlf_text : pystr := str "a" ++ [13%N; 10%N] ++ str "b".

Definition note_case : gmap path node :=
  add_file (<[documents ++ [str "note"] := Dir]> empty_case)
           (documents ++ [str "note"; str "note.txt"]) (Some crlf_text).

Definition plain_note_case : gmap path node :=
  add_file (<[documents ++ [str "note"] := Dir]> empty_case)
           (documents ++ [str "note"; str "note.txt"]) (Some (str "hello")).

(** A case whose centralized folder already holds [report.txt]. *)
Definition report_case : gmap path node :=
  add_file (<[documents ++ [str "full_text_extractions"] := Dir]> empty_case)
           (documents ++ [str "full_text_extractions"; str "report.txt"]) (Some (str "old")).

(** A JSON reader for a fragment of the grammar: [null], [true], [false],
    the empty object and strings without escapes. It skips the
    whitespace of the grammar around the value, as [json.loads] does. *)
Inductive json : Type :=
| JNull
| JBool (b : bool)
| JString (s : pystr)
| JObject.

Definition plain_char (c : N) : bool :=
  ((32 <=? c) && negb (c =? 34) && negb (c =? 92))%N.

Definition json_lite_value (body : pystr) : option json :=
  if bool_decide (body = str "null") then Some JNull
  else if bool_decide (body = str "true") then Some (JBool true)
  else if bool_decide (body = str "false") then Some (JBool false)
  else if bool_decide (body = str "{}") then Some JObject
  else
    match body with
    | 34%N :: rest =>
        match rev rest with
        | 34%N :: inner => if forallb plain_char inner then Some (JString (rev inner)) else None
        | _ => None
        end
    | _ => None
    end.

Definition json_lite_loads (s : pystr) : option json :=
  json_lite_value (json_strip s).

(** Command-line scripts for the summary routines. *)
Definition always_ok : nat -> cli_result := fun _ => Completed 0 [] true.

Definition timeout_then_ok : nat -> cli_result :=
  fun attempt => match attempt with 0 => TimeoutExpired | _ => Completed 0 [] true end.

Definition rate_limit_then_ok : nat -> cli_result :=
  fun attempt =>
    match attempt with
    | 0 => Completed 1 (str "429 Too Many Requests") false
    | _ => Completed 0 [] true
    end.

Definition always_rate_limited : nat -> cli_result :=
  fun _ => Completed 1 (str "Rate limit exceeded") false.

Definition extracted_notice : doc_record :=
  {| file_path := Some (documents ++ [str "notice"; str "notice.pdf"]); pdf_path := None;
     doc_folder := Some (documents ++ [str "notice"]); doc_type := Some (str "Notice");
     success := true; error := None; extraction_method := Some (str "mistral_ocr");
     text_extracted := Some true; centralized_copy := None; metadata := None;
     has_exhibits := None; exhibit_count := None; doc_id := None |}.

Definition notice_extracted_case : gmap path node :=
  add_file (add_file (<[documents ++ [str "notice"] := Dir]> empty_case)
    (documents ++ [str "notice"; str "notice.pdf"]) None)
    (documents ++ [str "notice"; str "full_text_extraction.txt"]) (Some (str "text")).

End Demo.

(** * Further methods of [process_intake.py]

    The case folder, the loader of Phase 3, the sequential methods of
    version 2, and the names that the further properties of the pipeline
    are stated with. *)

(** ** Names used to state the properties of discovery and typing *)

(** Every extension of [SUPPORTED_FILE_TYPES], in the order
    [_discover_intake_files] globs for them. *)
Definition supported_extensions : list pystr :=
  flat_map snd SUPPORTED_FILE_TYPES.

(** The name ends with one of them: some [glob(f"*{ext}")] matches it. *)
Definition supported_name (n : pystr) : bool :=
  existsb (endswith n) supported_extensions.

(** ** More small cases, for running the definitions *)

Module Cases.

(** The intake folder holds one file, named [.pdf]. *)
Definition bare_extension_case : gmap path node :=
  Demo.add_file Demo.empty_case (Demo.intake ++ [str ".pdf"]) None.

(** A case that already has a folder [documents/Motion]. *)
Definition motion_case : gmap path node :=
  Demo.add_file (<[Demo.documents ++ [str "Motion"] := Dir]> Demo.empty_case)
                (Demo.intake ++ [str "motion_to_dismiss.pdf"]) None.

(** A case in which the processor has written its first log lines. *)
Definition with_log (fs : gmap path node) : gmap path node :=
  Demo.add_file fs (Demo.documents ++ [str "processing_log.txt"])
    (Some (str "[2025-10-30 09:00:00] INFO: Document Processor initialized")).

(** A command line that exits with code 0 and writes nothing. *)
Definition ok_without_output : nat -> cli_result := fun _ => Completed 0 [] false.

End Cases.

(** ** Finding the case folder *)

(** The test of the loop of [_find_case_folder]:
    [(current / "Intake").exists() or current.name.startswith("202")]. *)
Definition looks_like_case_folder (fs : gmap path node) (current : path) : bool :=
  exists_ fs (current </> str "Intake") || startswith (name current) (str "202").

(** [_find_case_folder], on the reversed path [rcurrent] of [current]:
    the loop climbs until a folder is named ["cases"] or the root is
    reached; [None] stands for the [ValueError] after the loop. *)
Fixpoint find_case_folder_from (fs : gmap path node) (rcurrent : path) : option path :=
  match rcurrent with
  | [] => None                      (* current.parent == current *)
  | _ :: rparent =>
      let current := rev rcurrent in
      if bool_decide (name current = str "cases") then None
      else if looks_like_case_folder fs current then Some current
      else find_case_folder_from fs rparent
  end.

Definition _find_case_folder (fs : gmap path node) (intake_path : path) : option path :=
  find_case_folder_from fs (rev intake_path).

(** ** Resuming at Phase 3: [_load_summarized_documents] *)

Module Json.

(** What [json.loads] returns. A number keeps its text. *)
#[local] Unset Elimination Schemes.
Inductive json_value : Type :=
| JNull
| JBool (b : bool)
| JNumber (repr : pystr)
| JString (s : pystr)
| JArray (items : list json_value)
| JObject (members : list (pystr * json_value)).
#[local] Set Elimination Schemes.

(** [d.get(key, default)]; only a dict has the method, and
    [AttributeError] is rendered as an [External] error. *)
Definition dict_get (d : json_value) (key : pystr) (default : json_value)
  : exn + json_value :=
  match d with
  | JObject members =>
      match find (fun member => bool_decide (fst member = key)) members with
      | Some (_, v) => inr v
      | None => inr default
      end
  | _ => inl (External (str "AttributeError: object has no attribute 'get'"))
  end.

End Json.
Export Json.

(** The dicts of [_load_summarized_documents]: the keys of an
    extraction record and the two values read from the summary. *)
Record summarized_doc : Type := {
  summarized : doc_record;
  ocr_used : json_value;
  ocr_method : json_value
}.

Section Synthesize.

Context {self : processor}.

(** [json.loads], with what it raises. *)
Variable json_loads : pystr -> exn + json_value.

(** [[f for f in doc_folder.iterdir() if f.is_file() and f.suffix != '.json'
      and f.suffix != '.txt']] *)
Definition source_files (fs : gmap path node) (doc_folder : path) : list path :=
  filter (fun f => is_file fs f
                   && negb (bool_decide (suffix f = str ".json"))
                   && negb (bool_decide (suffix f = str ".txt")))
         (iterdir fs doc_folder).

(** The keys [file_path], [doc_folder], [doc_type] and [success] of a
    loaded record. *)
Definition summarized_record (source doc_folder : path) : doc_record :=
  {| file_path := Some source; pdf_path := None; doc_folder := Some doc_folder;
     doc_type := Some (name doc_folder); success := true; error := None;
     extraction_method := None; text_extracted := None;
     centralized_copy := None; metadata := None;
     has_exhibits := None; exhibit_count := None; doc_id := None |}.

(** One turn of the loop of [_load_summarized_documents]. Nothing is
    caught: what the read, [json.loads] or [get] raises ends the method
    (before its only log line, which follows the loop).
    The summary is opened without an encoding; the default one is taken
    to be UTF-8. *)
Definition load_summarized_step (summarized_docs : list summarized_doc) (doc_folder : path)
  : M (list summarized_doc) :=
  fs <- get_files ;;
  if exists_ fs (summary_file doc_folder) then
    (* Find source file (any file type) *)
    match source_files fs doc_folder with
    | source :: _ =>
        content <- read_text (summary_file doc_folder) ;;
        (* Clean markdown code fences if present *)
        let content := strip_code_fences content in
        summary_data <- lift_result (json_loads content) ;;
        ocr_used <- lift_result (dict_get summary_data (str "ocr_used") (JBool false)) ;;
        ocr_method <- lift_result (dict_get summary_data (str "ocr_method")
                                     (JString (str "unknown"))) ;;
        ret (summarized_docs ++
             [ {| summarized := summarized_record source doc_folder;
                  ocr_used := ocr_used;
                  ocr_method := ocr_method |} ])
    | [] => ret summarized_docs
    end
  else ret summarized_docs.

Fixpoint load_summarized_loop (doc_folders : list path) (summarized_docs : list summarized_doc)
  : M (list summarized_doc) :=
  match doc_folders with
  | [] => ret summarized_docs
  | doc_folder :: rest =>
      summarized_docs <- load_summarized_step summarized_docs doc_folder ;;
      load_summarized_loop rest summarized_docs
  end.

Definition _load_summarized_documents : M (list summarized_doc) :=
  fs <- get_files ;;
  load_summarized_loop (glob_dirs fs documents_folder) [].

End Synthesize.

Module SummaryCases.

(** A reader for the one text ["{}"]. *)
Definition json_loads_lite (s : pystr) : exn + json_value :=
  if bool_decide (json_strip s = str "{}") then inr (JObject [])
  else inl (External (str "JSONDecodeError")).

(** The notice, extracted and summarized, the summary between fences. *)
Definition notice_summarized_case : gmap path node :=
  Demo.add_file Demo.notice_extracted_case
    (Demo.documents ++ [str "notice"; str "document_summary.json"])
    (Some (fenced [nl] (str "{}") [nl])).

(** The notice with a summary that is no JSON. *)
Definition notice_broken_summary_case : gmap path node :=
  Demo.add_file Demo.notice_extracted_case
    (Demo.documents ++ [str "notice"; str "document_summary.json"])
    (Some (str "Sorry, I cannot read this file.")).

(** Both documents, extracted and summarized. *)
Definition two_summarized_case : gmap path node :=
  Demo.add_file
    (Demo.add_file (<[Demo.documents ++ [str "note"] := Dir]> notice_summarized_case)
       (Demo.documents ++ [str "note"; str "note.txt"]) (Some (str "hello")))
    (Demo.documents ++ [str "note"; str "document_summary.json"]) (Some (str "{}")).

End SummaryCases.

(** ** File systems as they are *)

(** A text that can be the name of an entry of a directory: not empty,
    neither [.] nor [..], and without a slash. *)
Definition entry_name (c : pystr) : bool :=
  negb (bool_decide (c = [])) && negb (bool_decide (c = str "."))
  && negb (bool_decide (c = str "..")) && negb (existsb (N.eqb 47) c).

(** Every entry sits in a directory. *)
Definition well_formed (fs : gmap path node) : bool :=
  forallb (fun p => is_dir fs (parent p)) (map fst (map_to_list fs)).

(** ** The sequential methods of version 2

    [create_document_folder], [move_pdf], [insert_page_breaks],
    [classify_document], [process_document] and [process_batch]. *)

Module Text.

(** [s.split(sep)] for a separator of one character. *)
Fixpoint split (sep : N) (s : pystr) : list pystr :=
  match s with
  | [] => [[]]
  | c :: s' =>
      if (c =? sep)%N then [] :: split sep s'
      else match split sep s' with
           | line :: lines => (c :: line) :: lines
           | [] => [[c]]
           end
  end.

(** [sep.join(lines)] *)
Fixpoint join_lines (sep : pystr) (lines : list pystr) : pystr :=
  match lines with
  | [] => []
  | [line] => line
  | line :: rest => line ++ sep ++ join_lines sep rest
  end.

(** [s.count(needle)] for a needle that is not empty: the occurrences
    found from left to right, none overlapping the one before; [skip]
    is what is left of the last occurrence. *)
Fixpoint count_from (needle s : pystr) (skip : nat) : nat :=
  match s with
  | [] => 0
  | _ :: s' =>
      match skip with
      | S skip' => count_from needle s' skip'
      | 0 =>
          if startswith s needle
          then S (count_from needle s' (length needle - 1))
          else count_from needle s' 0
      end
  end.

Definition count (s needle : pystr) : nat := count_from needle s 0.

End Text.
Export Text.

(** The dict of [classify_document]. *)
Record classification : Type := {
  is_evidence : bool;
  is_reference_material : bool;
  is_research : bool;
  is_case_filing : bool;
  is_court_order : bool
}.

Section Sequential.

Context {X : externals} {self : processor}.

(** [self.documents_folder / f"{doc_type}_{counter}"] *)
Definition numbered_folder (doc_type : pystr) (counter : nat) : path :=
  documents_folder </> (doc_type ++ [underscore] ++ format_int counter).

(** The [while] loop of [create_document_folder], run for at most
    [fuel] existence tests: the value of [counter] it ends with. *)
Fixpoint folder_counter_loop (fs : gmap path node) (doc_type : pystr) (fuel counter : nat)
  : nat :=
  match fuel with
  | 0 => counter
  | S fuel' =>
      if exists_ fs (numbered_folder doc_type counter)
      then folder_counter_loop fs doc_type fuel' (S counter)
      else counter
  end.

(** [doc_type] is one path component: the callers pass the result of
    [detect_document_type]. As in [_get_centralized_path], the loop
    gets one test more than the file system has entries. The log line
    that follows [mkdir] is left out; its [relative_to(self.case_folder)]
    does not fail for a folder inside [documents/]. *)
Definition create_document_folder (doc_type : pystr) : M path :=
  fs <- get_files ;;
  let base_folder := documents_folder </> doc_type in
  (* If folder exists, append counter *)
  let folder :=
    if exists_ fs base_folder then
      let counter := folder_counter_loop fs doc_type (S (size fs)) 1 in
      numbered_folder doc_type counter
    else base_folder in
  mkdir folder ;;;
  ret folder.

(** The [except] clause logs and raises again; the log line after the
    [rename] is left out. The file system model of [rename] is the one
    of the router: it is right when the destination does not exist. *)
Definition move_pdf (source destination_folder : path) : M path :=
  let destination := destination_folder </> name source in
  rename source destination ;;;
  ret destination.

(** The loop over [enumerate(lines)] of [insert_page_breaks]. *)
Fixpoint page_break_loop (lines : list pystr) (i current_page : nat)
    (output_lines : list pystr) (page_breaks_added : nat) : list pystr * nat :=
  match lines with
  | [] => (output_lines, page_breaks_added)
  | line :: rest =>
      (* Insert page break every N lines (rough estimate) *)
      if (0 <? i) && (i mod 50 =? 0) then
        let current_page := current_page + 1 in
        let output_lines :=
          output_lines ++ [[nl] ++ str "--- Page " ++ format_int current_page
                           ++ str " ---" ++ [nl]] in
        let page_breaks_added := page_breaks_added + 1 in
        page_break_loop rest (S i) current_page (output_lines ++ [line]) page_breaks_added
      else
        page_break_loop rest (S i) current_page (output_lines ++ [line]) page_breaks_added
  end.

(** [insert_page_breaks]; its argument [metadata] is not used, and its
    log lines are left out. *)
Definition insert_page_breaks (markdown_text : pystr) (output_folder : path)
  : M (pystr * nat) :=
  try_except (
    (* Check if page breaks already exist (from fallback OCR method) *)
    if contains markdown_text (str "--- Page ") then
      let page_breaks_added := count markdown_text (str "--- Page ") in
      write_text (full_text_file output_folder) markdown_text ;;;
      ret (markdown_text, page_breaks_added)
    else
      let lines := split nl markdown_text in
      let '(output_lines, page_breaks_added) := page_break_loop lines 0 1 [] 0 in
      let output_text := join_lines [nl] output_lines in
      write_text (full_text_file output_folder) output_text ;;;
      ret (output_text, page_breaks_added))
  (fun e =>
     (* Fallback: save without page breaks *)
     write_text (full_text_file output_folder) markdown_text ;;;
     ret (markdown_text, 0)).

Definition classify_document (doc_type text : pystr) : classification :=
  let c := {| is_evidence := false; is_reference_material := false; is_research := false;
              is_case_filing := false; is_court_order := false |} in
  (* Rule-based classification *)
  let c :=
    if bool_decide (doc_type ∈ [str "Evidence"; str "Exhibit"]) then
      {| is_evidence := true; is_reference_material := is_reference_material c;
         is_research := is_research c; is_case_filing := is_case_filing c;
         is_court_order := is_court_order c |}
    else if bool_decide (doc_type ∈ [str "Research"; str "Memo"]) then
      {| is_evidence := is_evidence c; is_reference_material := is_reference_material c;
         is_research := true; is_case_filing := is_case_filing c;
         is_court_order := is_court_order c |}
    else if bool_decide (doc_type = str "Order") then
      {| is_evidence := is_evidence c; is_reference_material := is_reference_material c;
         is_research := is_research c; is_case_filing := is_case_filing c;
         is_court_order := true |}
    else if bool_decide (doc_type ∈ [str "Motion"; str "Response"; str "Complaint"]) then
      {| is_evidence := is_evidence c; is_reference_material := is_reference_material c;
         is_research := is_research c; is_case_filing := true;
         is_court_order := is_court_order c |}
    else c in
  (* Text-based classification *)
  let text_lower := str_lower text in
  let c :=
    if contains text_lower (str "exhibit") || contains text_lower (str "evidence") then
      {| is_evidence := true; is_reference_material := is_reference_material c;
         is_research := is_research c; is_case_filing := is_case_filing c;
         is_court_order := is_court_order c |}
    else c in
  let c :=
    if contains text_lower (str "memorandum") || contains text_lower (str "research") then
      {| is_evidence := is_evidence c; is_reference_material := is_reference_material c;
         is_research := true; is_case_filing := is_case_filing c;
         is_court_order := is_court_order c |}
    else c in
  c.

(** The three steps of [process_document] that call Gemini and Docling
    and write the JSON summary are taken as they come: what they
    return or raise, and what they do to the world. The processing time
    passed to the last one is left out. *)
Variable generate_gemini_summary : path -> path -> pystr -> M json_value.
Variable extract_text_with_docling : path -> path -> M (pystr * json_value).
Variable generate_document_summary_json :
  path -> pystr -> json_value -> pystr -> json_value -> nat -> path -> M unit.




End Sequential.

(** The loop of [detect_document_type] over a table of patterns. *)
Definition detect_in {X : externals} (patterns : list (pystr * list pystr)) (pdf_path : path)
  : pystr :=
  let filename_lower := str_lower (stem pdf_path) in
  match find (fun entry => existsb (fun pattern => contains filename_lower pattern) (snd entry))
             patterns with
  | Some (doc_type, _) => doc_type
  | None => stem pdf_path
  end.

(** [DOCUMENT_TYPE_PATTERNS] without the pattern ["amended complaint"]. *)
Definition patterns_without_amended : list (pystr * list pystr) :=
  [ (str "Motion", [str "motion"; str "mtd"; str "mtc"; str "mts"; str "mtv"]);
    (str "Response", [str "response"; str "opposition"; str "reply"; str "answer"]);
    (str "Complaint", [str "complaint"; str "petition"]);
    (str "Order", [str "order"; str "ruling"; str "judgment"; str "decree"]);
    (str "Notice", [str "notice"; str "notification"; str "noa"]);
    (str "Evidence", [str "exhibit"; str "evidence"; str "attachment"; str "affidavit"]);
    (str "Research", [str "memo"; str "research"; str "analysis"; str "brief"]) ].

Module UploadCases.

(** The notice has been extracted; the same name arrives again. *)
Definition notice_again_case : gmap path node :=
  Demo.add_file Demo.notice_extracted_case (Demo.intake ++ [str "notice.pdf"]) None.

(** A photo, moved to its folder. *)
Definition photo_case : gmap path node :=
  Demo.add_file (<[Demo.documents ++ [str "photo"] := Dir]> Demo.empty_case)
                (Demo.documents ++ [str "photo"; str "photo.png"]) None.

End UploadCases.

(** * Properties *)

(** ** Strings *)

Lemma str_app (a b : string) : str (a ++ b)%string = str a ++ str b.
Proof.
  unfold str. induction a as [|c a IH]; simpl; [done|]. by rewrite IH.
Qed.

Lemma digits_inj d d' : digits d = digits d' -> d = d'.
Proof.
  revert d'. induction d; intros d'; destruct d'; simpl; intros H;
    try done; injection H as H; f_equal; auto.
Qed.

Lemma format_int_inj n m : format_int n = format_int m -> n = m.
Proof.
  unfold format_int. intros H. apply digits_inj in H.
  by apply DecimalNat.Unsigned.to_uint_inj.
Qed.

Lemma startswith_app (p rest : pystr) : startswith (p ++ rest) p = true.
Proof.
  induction p as [|c p IH]; simpl; [done|]. rewrite N.eqb_refl. exact IH.
Qed.

Lemma startswith_head (s p : pystr) c d :
  c <> d -> startswith (d :: s) (c :: p) = false.
Proof.
  intros Hne. simpl. destruct (N.eqb_spec c d); [done|done].
Qed.

Lemma endswith_app (rest p : pystr) : endswith (rest ++ p) p = true.
Proof. unfold endswith. rewrite rev_app_distr. apply startswith_app. Qed.

(** ** Page markers *)

Lemma page_block_add_page acc i content :
  Pages.add_page acc i content = acc ++ Pages.page_block (S i) content.
Proof.
  unfold Pages.add_page, Pages.page_block.
  replace (i + 1) with (S i) by lia. by rewrite <- !app_assoc.
Qed.

Lemma pages_loop_concat pages : forall acc i,
  Pages.pages_loop acc i pages
  = acc ++ concat (imap (fun j content => Pages.page_block (S (i + j)) content) pages).
Proof.
  induction pages as [|page rest IH]; intros acc i.
  - simpl. by rewrite app_nil_r.
  - cbn [Pages.pages_loop]. rewrite IH, page_block_add_page, imap_cons, <- app_assoc.
    cbn [concat]. rewrite Nat.add_0_r. do 3 f_equal.
    apply imap_ext. intros j x _. simpl. f_equal. lia.
Qed.

(** C2. For every list of page contents, the text rebuilt by step 4 of
    [extract_text_with_mistral] is the concatenation, in page order, of
    the blocks "--- Page N ---", newline, content, two newlines, with N
    counted from 1; whenever [extract_text_with_mistral] returns, its
    text is that concatenation for the pages the service gave; and for
    the pages A, B, C it is the text of the specification. *)
Theorem page_markers_format :
  (forall pages : list pystr,
      Pages.reassemble_pages pages = Pages.spec_reassemble pages)
  /\ (forall (X : externals) (pdf_path folder : path) (w : world),
        match fst (extract_text_with_mistral pdf_path folder w) with
        | inr (text, _) =>
            exists pages, ocr_process pdf_path = inr pages
                          /\ text = Pages.spec_reassemble pages
        | inl _ => True
        end)
  /\ Pages.reassemble_pages [str "A"; str "B"; str "C"]
     = str "--- Page 1 ---" ++ [nl] ++ str "A" ++ [nl; nl]
       ++ str "--- Page 2 ---" ++ [nl] ++ str "B" ++ [nl; nl]
       ++ str "--- Page 3 ---" ++ [nl] ++ str "C" ++ [nl; nl].
Proof.
  assert (Hall : forall pages, Pages.reassemble_pages pages = Pages.spec_reassemble pages).
  { intros pages. unfold Pages.reassemble_pages, Pages.spec_reassemble.
    by rewrite pages_loop_concat. }
  split; [exact Hall|]. split; [|reflexivity].
  intros X pdf_path folder w.
  unfold extract_text_with_mistral, bind, reraise, try_except, open_rb, log_call,
    lift_result, ret, raise.
  destruct (lookup_node (files w) pdf_path) as [[|data]|]; simpl; try done.
  destruct (ocr_process pdf_path) as [e|pages] eqn:Hocr; simpl; [done|].
  exists pages. by rewrite Hall.
Qed.

(** ** Pool sizes *)

(** C3, as the code has it. The pool of the extraction phase has
    min(10, hardware parallelism, n) workers for n files; the pool of
    the summarization phase has min(10, hardware parallelism) processes
    whatever the number of documents, which is the value of the claim
    exactly when n is at least that large. *)
Theorem pool_sizes (X : externals) (all_files : list path) (n : nat) :
  phase_1_max_workers all_files = Nat.min 10 (Nat.min cpu_count (length all_files))
  /\ phase_2_processes default_num_workers = Nat.min 10 cpu_count
  /\ (phase_2_processes default_num_workers = Nat.min 10 (Nat.min cpu_count n)
      <-> Nat.min 10 cpu_count <= n).
Proof.
  unfold phase_1_max_workers, phase_2_processes, default_num_workers.
  repeat split; lia.
Qed.

(** C3 fails for the summarization phase: with four processors and one
    document the pool has four processes, not one. *)
Lemma pool_size_phase_2_ignores_batch :
  @phase_2_processes Demo.demo_externals default_num_workers
  <> Nat.min 10 (Nat.min (@cpu_count Demo.demo_externals) 1).
Proof. vm_compute. discriminate. Qed.

(** ** Document types *)

Lemma find_none_existsb {A} (f : A -> bool) (l : list A) :
  existsb f l = false -> List.find f l = None.
Proof.
  induction l as [|a l IH]; simpl; [done|].
  destruct (f a); simpl; [done|auto].
Qed.

(** C10. When no keyword of [DOCUMENT_TYPE_PATTERNS] occurs in the
    lower-cased stem of a file name, [detect_document_type] returns the
    stem itself, and that stem is the [doc_type] of the record
    [_extract_mistral_ocr] returns for the file. *)
Theorem unmatched_type_is_stem (X : externals) (pdf_path : path) :
  existsb (fun entry =>
             existsb (fun pattern => contains (str_lower (stem pdf_path)) pattern) (snd entry))
          DOCUMENT_TYPE_PATTERNS = false ->
  detect_document_type pdf_path = stem pdf_path
  /\ forall (self : processor) (folder : path) (w w' : world) (r : doc_record),
       _extract_mistral_ocr pdf_path folder w = (inr r, w') ->
       doc_type r = Some (stem pdf_path).
Proof.
  intros Hno.
  assert (Hd : detect_document_type pdf_path = stem pdf_path).
  { unfold detect_document_type. by rewrite (find_none_existsb _ _ Hno). }
  split; [exact Hd|].
  intros self folder w w' r.
  unfold _extract_mistral_ocr, reraise, try_except, bind, raise, ret.
  destruct (extract_text_with_mistral pdf_path folder w) as [[e|[text md]] w1]; [done|].
  destruct (write_text (full_text_file folder) text w1) as [[e|[]] w2]; [done|].
  destruct (write_centralized_copy (name pdf_path) text w2) as [[e|cp] w3]; [done|].
  intros [= <- <-]. simpl. by rewrite Hd.
Qed.

Lemma unmatched_type_is_stem_witness :
  @detect_document_type Demo.demo_externals (Demo.intake ++ [str "Smith_Letter_2024.pdf"])
  = str "Smith_Letter_2024".
Proof.
  refine (proj1 (@unmatched_type_is_stem Demo.demo_externals
                   (Demo.intake ++ [str "Smith_Letter_2024.pdf"]) _)).
  vm_compute. reflexivity.
Defined.

(** ** The sanitized name *)

Lemma rfind_from_app c (s t : pystr) : forall i found,
  rfind_from c (s ++ t) i found = rfind_from c t (i + length s) (rfind_from c s i found).
Proof.
  induction s as [|d s IH]; intros i found; simpl.
  - by rewrite Nat.add_0_r.
  - rewrite IH. f_equal. lia.
Qed.

Lemma rfind_snoc c (s : pystr) d :
  rfind c (s ++ [d]) = if (d =? c)%N then Some (length s) else rfind c s.
Proof. unfold rfind. by rewrite rfind_from_app. Qed.

Lemma rfind_lt c (s : pystr) i : rfind c s = Some i -> i < length s.
Proof.
  revert i. induction s as [|d s IH] using rev_ind; intros i; [done|].
  rewrite rfind_snoc, length_app. simpl. destruct (d =? c)%N.
  - intros [= <-]. lia.
  - intros H. apply IH in H. lia.
Qed.

Lemma rfind_none c (s : pystr) : rfind c s = None <-> existsb (N.eqb c) s = false.
Proof.
  induction s as [|d s IH] using rev_ind; [done|].
  rewrite rfind_snoc, existsb_app.
  change (existsb (N.eqb c) [d]) with ((c =? d)%N || false).
  rewrite (N.eqb_sym c d).
  destruct (d =? c)%N; cbn [orb].
  - rewrite orb_true_r. split; discriminate.
  - by rewrite !orb_false_r.
Qed.

(** [filename.rsplit('.', 1)[0] if '.' in filename else filename] strips
    the extension. *)
Lemma rsplit_strips_extension (filename : pystr) :
  match rfind dot filename with
  | Some i => take i filename
  | None => filename
  end = spec_strip_extension filename.
Proof.
  unfold spec_strip_extension.
  induction filename as [|d s IH] using rev_ind; [done|].
  rewrite rfind_snoc, existsb_app, rev_app_distr.
  change (existsb (N.eqb dot) [d]) with ((dot =? d)%N || false).
  change (rev [d] ++ rev s) with (d :: rev s). cbn [after_first_dot].
  rewrite (N.eqb_sym dot d). destruct (d =? dot)%N eqn:Hd; cbn [orb].
  - rewrite orb_true_r, rev_involutive.
    by rewrite take_app_length.
  - rewrite orb_false_r.
    destruct (rfind dot s) as [i|] eqn:Hr.
    + destruct (existsb (N.eqb dot) s) eqn:He.
      * rewrite <- IH. apply rfind_lt in Hr. rewrite take_app_le by lia. done.
      * apply rfind_none in He. congruence.
    + apply rfind_none in Hr. by rewrite Hr.
Qed.

Lemma spec_collapse_cons c (s : pystr) :
  spec_collapse (c :: s)
  = match spec_collapse s with
    | d :: _ => if (c =? underscore)%N && (d =? underscore)%N
                then spec_collapse s else c :: spec_collapse s
    | [] => [c]
    end.
Proof. reflexivity. Qed.

Lemma spec_collapse_head (s : pystr) :
  head (spec_collapse s) = head s.
Proof.
  destruct s as [|c s]; [done|]. rewrite spec_collapse_cons.
  destruct (spec_collapse s) as [|d r] eqn:Hs; [done|].
  destruct (c =? underscore)%N eqn:Hc; simpl; [|done].
  destruct (d =? underscore)%N eqn:Hd; simpl; [|done].
  apply N.eqb_eq in Hc, Hd. by subst.
Qed.

Lemma sub_runs_collapse (s : pystr) :
  sub_runs false s = spec_collapse s
  /\ sub_runs true s
     = match s with
       | c :: _ => if (c =? underscore)%N then tail (spec_collapse s) else spec_collapse s
       | [] => []
       end.
Proof.
  induction s as [|c s [IHf IHt]]; [done|].
  rewrite spec_collapse_cons. cbn [sub_runs].
  pose proof (spec_collapse_head s) as Hh.
  destruct (c =? underscore)%N eqn:Hc; cbn [andb].
  - apply N.eqb_eq in Hc. subst c. rewrite IHt.
    destruct s as [|d s']; [done|].
    destruct (spec_collapse (d :: s')) as [|d' r] eqn:Hs; [done|].
    simpl in Hh. injection Hh as ->.
    destruct (d =? underscore)%N eqn:Hd; simpl; [|done].
    apply N.eqb_eq in Hd. by subst d.
  - rewrite IHf. destruct (spec_collapse s); done.
Qed.

(** [re.sub(r'_+', '_', name)] collapses the runs of underscores. *)
Lemma sub_underscore_runs_collapses (s : pystr) :
  sub_underscore_runs s = spec_collapse s.
Proof. apply sub_runs_collapse. Qed.

(** The class of the pattern holds the characters the specification
    lists, and no other. *)
Lemma in_class_spec (c : N) : in_class c = bool_decide (c ∈ spec_allowed).
Proof.
  destruct (N.ltb_spec c 128) as [Hlt|Hge].
  - assert (H : forallb (fun n => Bool.eqb (in_class (N.of_nat n))
                                    (bool_decide (N.of_nat n ∈ spec_allowed)))
                        (seq 0 128) = true) by (vm_compute; reflexivity).
    rewrite forallb_forall in H. specialize (H (N.to_nat c)).
    rewrite N2Nat.id in H. apply Bool.eqb_prop, H, in_seq. lia.
  - assert (Hout : in_class c = false).
    { unfold in_class.
      destruct (N.leb_spec 97 c), (N.leb_spec c 122), (N.leb_spec 48 c), (N.leb_spec c 57),
        (N.eqb_spec c 95), (N.eqb_spec c 45); cbn; try reflexivity; lia. }
    rewrite Hout. symmetry. apply bool_decide_eq_false_2. intros Hin.
    assert (Hall : forallb (fun d => d <? 128)%N spec_allowed = true) by reflexivity.
    rewrite forallb_forall in Hall. apply list_elem_of_In, Hall, N.ltb_lt in Hin. lia.
Qed.

(** The substitution of the code is the replacement of the
    specification. *)
Lemma sub_outside_class_spec (s : pystr) : sub_outside_class s = spec_replace s.
Proof.
  unfold sub_outside_class. induction s as [|c s IH]; [done|].
  cbn [map spec_replace]. by rewrite IH, in_class_spec.
Qed.

Lemma in_class_allowed (s : pystr) :
  Forall (fun c => in_class c = true) s -> Forall (fun c => c ∈ spec_allowed) s.
Proof.
  induction 1 as [|c s Hc Hs IH]; constructor; [|exact IH].
  rewrite in_class_spec in Hc. by apply bool_decide_eq_true_1 in Hc.
Qed.

Lemma sub_outside_class_in_class (s : pystr) :
  Forall (fun c => in_class c = true) (sub_outside_class s).
Proof.
  unfold sub_outside_class. apply Forall_forall. intros c Hc.
  apply list_elem_of_In, in_map_iff in Hc. destruct Hc as (d & <- & _).
  destruct (in_class d) eqn:Hd; [exact Hd|reflexivity].
Qed.

Lemma sub_runs_in_class (s : pystr) : forall b,
  Forall (fun c => in_class c = true) s ->
  Forall (fun c => in_class c = true) (sub_runs b s).
Proof.
  induction s as [|c s IH]; intros b Hs; [constructor|].
  inversion Hs as [|? ? Hc Hs']; subst. simpl.
  destruct (c =? underscore)%N; [destruct b|]; try constructor; auto.
Qed.

Lemma digits_in_class d : Forall (fun c => in_class c = true) (digits d).
Proof. induction d; simpl; constructor; auto. Qed.

Lemma str_txt_length : length (str ".txt") = 4.
Proof. reflexivity. Qed.

Lemma join_long (p : path) (c : pystr) : 2 <= length c -> p </> c = p ++ [c].
Proof.
  intros Hc. unfold join.
  destruct c as [|x [|y c]]; simpl in Hc; try lia.
  rewrite !bool_decide_eq_false_2; [done| |]; discriminate.
Qed.

Lemma name_snoc (p : path) (c : pystr) : name (p ++ [c]) = c.
Proof. unfold name. apply last_last. Qed.

Lemma parent_snoc (p : path) (c : pystr) : parent (p ++ [c]) = p.
Proof. unfold parent. apply removelast_last. Qed.

Lemma candidate_length base suffix k : length suffix <= length (candidate base suffix k).
Proof.
  destruct k; simpl; rewrite ?length_app; simpl; rewrite ?length_app; lia.
Qed.

Section Sanitize.

Context {X : externals}.

Lemma sanitize_in_class (filename : pystr) :
  Forall (fun c => in_class c = true) (_sanitize_filename filename).
Proof.
  unfold _sanitize_filename. apply Forall_take.
  apply sub_runs_in_class, sub_outside_class_in_class.
Qed.

Lemma sanitize_length (filename : pystr) : length (_sanitize_filename filename) <= 200.
Proof. unfold _sanitize_filename. rewrite length_take. lia. Qed.

Lemma free_path_loop_candidate fs folder base suffix fuel : forall counter,
  exists k, counter <= k
    /\ free_path_loop fs folder base suffix fuel counter
       = folder </> candidate base suffix k.
Proof.
  induction fuel as [|fuel IH]; intros counter; simpl.
  - exists counter. split; [lia|done].
  - destruct (exists_ fs (folder </> candidate base suffix counter)); simpl.
    + destruct (IH (S counter)) as (k & Hk & ->). exists k. split; [lia|done].
    + exists counter. split; [lia|done].
Qed.

Lemma get_centralized_path_run {self : processor} (filename suffix : pystr) (w : world) :
  _get_centralized_path filename suffix w
  = match mkdir_p (files w) fte_folder with
    | inl e => (inl e, w)
    | inr fs' =>
        (inr (free_path_loop fs' fte_folder (_sanitize_filename filename) suffix
                (S (size fs')) 0),
         {| files := fs'; calls := calls w |})
    end.
Proof.
  unfold _get_centralized_path, _create_centralized_extraction_folder, bind, ret,
    get_files, mkdir, lift_fs.
  destruct (mkdir_p (files w) fte_folder); reflexivity.
Qed.

(** C9. For every file name, the sanitized base is what the
    specification describes, each step in the specification's own
    terms: the extension stripped, the result lower-cased, every
    character other than a lower-case letter, a digit, an underscore or
    a hyphen replaced by an underscore, runs of underscores collapsed,
    the first 200 characters kept. It holds only characters of
    [a-z0-9_-], is at most 200 characters long, the first candidate is
    the base followed by ".txt", and the name of every path
    [_get_centralized_path] returns is such a base, or the base with
    "_" and a counter, followed by ".txt". *)
Theorem sanitized_candidate_name (filename : pystr) :
  let base := _sanitize_filename filename in
  base = take 200 (spec_collapse (spec_replace
                                    (str_lower (spec_strip_extension filename))))
  /\ Forall (fun c => c ∈ spec_allowed) base
  /\ length base <= 200
  /\ candidate base (str ".txt") 0 = base ++ str ".txt"
  /\ forall (self : processor) (w w' : world) (p : path),
       _get_centralized_path filename (str ".txt") w = (inr p, w') ->
       exists b, name p = b ++ str ".txt"
                 /\ Forall (fun c => c ∈ spec_allowed) b
                 /\ (b = base \/ exists k, b = base ++ [underscore] ++ format_int k).
Proof.
  intros base. split; [|split; [|split; [|split]]].
  - unfold base, _sanitize_filename.
    by rewrite sub_underscore_runs_collapses, rsplit_strips_extension,
         sub_outside_class_spec.
  - apply in_class_allowed, sanitize_in_class.
  - apply sanitize_length.
  - reflexivity.
  - subst base. set (base := _sanitize_filename filename).
    intros self w w' p.
    rewrite get_centralized_path_run. fold base.
    destruct (mkdir_p (files w) fte_folder) as [e|fs']; [done|].
    destruct (free_path_loop_candidate fs' fte_folder base (str ".txt") (S (size fs')) 0)
      as (k & _ & ->).
    intros [= <- <-].
    rewrite join_long by (pose proof (candidate_length base (str ".txt") k) as Hl;
                          rewrite str_txt_length in Hl; lia).
    rewrite name_snoc. destruct k as [|k].
    + exists base. repeat split; [apply in_class_allowed, sanitize_in_class|by left].
    + exists (base ++ [underscore] ++ format_int (S k)). split; [|split].
      * unfold candidate. by rewrite <- !app_assoc.
      * apply in_class_allowed, Forall_app. split; [apply sanitize_in_class|].
        apply Forall_app. split; [by constructor|apply digits_in_class].
      * right. by exists (S k).
Qed.

(** The steps on a name with a space, capitals, a dot inside and two
    characters in a row that are replaced. *)
Example sanitized_example :
  @_sanitize_filename Demo.demo_externals (str "My  Report (v1.2).PDF") = str "my_report_v1_2_".
Proof. vm_compute. reflexivity. Qed.

End Sanitize.

(** ** Code fences around a summary *)

Lemma rev_cons_last (rest : pystr) c :
  exists r, rev (c :: rest) = List.last rest c :: r.
Proof.
  destruct rest as [|x rest _] using rev_ind.
  - by exists [].
  - change (c :: rest ++ [x]) with ((c :: rest) ++ [x]).
    rewrite rev_app_distr, last_last. by eexists.
Qed.

Section Strip.

Variable ws : N -> bool.

Lemma lstrip_by_app (a s : pystr) :
  Forall (fun c => ws c = true) a -> lstrip_by ws (a ++ s) = lstrip_by ws s.
Proof.
  induction 1 as [|c a Hc _ IH]; [done|]. simpl. by rewrite Hc.
Qed.

Lemma lstrip_by_id c (s : pystr) : ws c = false -> lstrip_by ws (c :: s) = c :: s.
Proof. intros Hc. simpl. by rewrite Hc. Qed.

Lemma lstrip_by_split (s : pystr) :
  exists a, s = a ++ lstrip_by ws s
            /\ Forall (fun c => ws c = true) a
            /\ match lstrip_by ws s with c :: _ => ws c = false | [] => True end.
Proof.
  induction s as [|c s (a & Hs & Ha & Hh)]; [by exists []|].
  simpl. destruct (ws c) eqn:Hc.
  - exists (c :: a). split; [simpl; congruence|]. split; [by constructor|done].
  - exists []. by rewrite Hc.
Qed.

Lemma strip_by_surrounded (a b rest : pystr) c :
  Forall (fun c => ws c = true) a -> Forall (fun c => ws c = true) b ->
  ws c = false -> ws (List.last rest c) = false ->
  strip_by ws (a ++ (c :: rest) ++ b) = c :: rest.
Proof.
  intros Ha Hb Hc Hl. unfold strip_by, rstrip_by.
  rewrite lstrip_by_app by done.
  change ((c :: rest) ++ b) with (c :: (rest ++ b)). rewrite lstrip_by_id by done.
  change (c :: rest ++ b) with ((c :: rest) ++ b).
  rewrite rev_app_distr, lstrip_by_app by (by apply Forall_rev).
  destruct (rev_cons_last rest c) as (r & Hr). rewrite Hr.
  rewrite lstrip_by_id by done.
  rewrite <- Hr. apply rev_involutive.
Qed.

(** What is stripped is of the class; what remains is empty or has
    both its ends outside the class. *)
Lemma strip_by_split (s : pystr) :
  exists a b, s = a ++ strip_by ws s ++ b
    /\ Forall (fun c => ws c = true) a /\ Forall (fun c => ws c = true) b
    /\ match strip_by ws s with
       | c :: rest => ws c = false /\ ws (List.last rest c) = false
       | [] => True
       end.
Proof.
  destruct (lstrip_by_split s) as (a & Hs & Ha & Hh).
  destruct (lstrip_by_split (rev (lstrip_by ws s))) as (b & Hr & Hb & Hh').
  exists a, (rev b). unfold strip_by, rstrip_by.
  set (l := lstrip_by ws s) in *. set (m := lstrip_by ws (rev l)) in *.
  assert (Hl : l = rev m ++ rev b).
  { rewrite <- rev_app_distr, <- Hr. by rewrite rev_involutive. }
  split; [by rewrite <- Hl|]. split; [done|]. split; [by apply Forall_rev|].
  destruct (rev m) as [|c rest] eqn:Hm; [done|].
  assert (Hm' : m = rev (c :: rest)) by (by rewrite <- Hm, rev_involutive).
  split.
  - rewrite Hl in Hh. exact Hh.
  - rewrite Hm' in Hh'. clear -Hh'.
    destruct rest as [|x rest _] using rev_ind; [exact Hh'|].
    rewrite last_last. change (c :: rest ++ [x]) with ((c :: rest) ++ [x]) in Hh'.
    rewrite rev_app_distr in Hh'. exact Hh'.
Qed.

Lemma strip_by_idempotent (s : pystr) : strip_by ws (strip_by ws s) = strip_by ws s.
Proof.
  destruct (strip_by_split s) as (_ & _ & _ & _ & _ & H).
  destruct (strip_by ws s) as [|c rest] eqn:Hs; [done|]. destruct H as [Hc Hl].
  pose proof (strip_by_surrounded [] [] rest c) as Hk.
  rewrite app_nil_r in Hk. apply Hk; auto.
Qed.

End Strip.

Lemma json_ws_isspace c : json_ws c = true -> isspace c = true.
Proof.
  unfold json_ws, isspace. intros H.
  repeat (apply orb_prop in H; destruct H as [H|H]);
    apply N.eqb_eq in H; subst; reflexivity.
Qed.

Lemma value_start_visible c : value_start c = true -> isspace c = false /\ c <> 96%N.
Proof.
  unfold value_start. intros H.
  repeat (apply orb_prop in H; destruct H as [H|H]);
    try (apply N.eqb_eq in H; subst; split; [reflexivity|discriminate]).
  apply andb_prop in H. destruct H as [H1 H2].
  apply N.leb_le in H1, H2. split; [|lia].
  unfold isspace.
  repeat match goal with
         | |- context [(?a <=? ?b)%N] => destruct (N.leb_spec a b); try lia
         | |- context [(?a =? ?b)%N] => destruct (N.eqb_spec a b); try lia
         end; reflexivity.
Qed.

Lemma value_end_visible c : value_end c = true -> isspace c = false /\ c <> 96%N.
Proof.
  unfold value_end. intros H.
  repeat (apply orb_prop in H; destruct H as [H|H]);
    try (apply N.eqb_eq in H; subst; split; [reflexivity|discriminate]).
  apply andb_prop in H. destruct H as [H1 H2].
  apply N.leb_le in H1, H2. split; [|lia].
  unfold isspace.
  repeat match goal with
         | |- context [(?a <=? ?b)%N] => destruct (N.leb_spec a b); try lia
         | |- context [(?a =? ?b)%N] => destruct (N.eqb_spec a b); try lia
         end; reflexivity.
Qed.

Lemma endswith_last (rest p : pystr) c d :
  List.last rest c <> d -> endswith (c :: rest) (p ++ [d]) = false.
Proof.
  intros Hne. unfold endswith. rewrite rev_app_distr. simpl rev at 2.
  destruct rest as [|x rest _] using rev_ind.
  - simpl in *. destruct (N.eqb_spec d c); [congruence|done].
  - rewrite last_last in Hne. change (c :: rest ++ [x]) with ((c :: rest) ++ [x]).
    rewrite rev_app_distr. simpl. destruct (N.eqb_spec d x); [congruence|done].
Qed.

(** The cleaning of a text that is a JSON value between whitespace:
    with or without fences, what is left is the value alone. *)
Lemma strip_code_fences_value (before after a b rest : pystr) c :
  Forall (fun c => isspace c = true) before -> Forall (fun c => isspace c = true) after ->
  Forall (fun c => isspace c = true) a -> Forall (fun c => isspace c = true) b ->
  isspace c = false -> c <> 96%N ->
  isspace (List.last rest c) = false -> List.last rest c <> 96%N ->
  strip_code_fences (fenced before (a ++ (c :: rest) ++ b) after) = c :: rest
  /\ strip_code_fences (a ++ (c :: rest) ++ b) = c :: rest.
Proof.
  intros Hbefore Hafter Ha Hb Hc Hc' Hl Hl'.
  assert (Hplain : strip_code_fences (a ++ (c :: rest) ++ b) = c :: rest).
  { unfold strip_code_fences, strip.
    rewrite strip_by_surrounded by done.
    assert (H1 : startswith (c :: rest) (str "```json") = false)
      by (apply (startswith_head rest (str "``json") 96%N c); congruence).
    assert (H2 : startswith (c :: rest) (str "```") = false)
      by (apply (startswith_head rest (str "``") 96%N c); congruence).
    assert (H3 : endswith (c :: rest) (str "```") = false)
      by (apply (endswith_last rest (str "``") c 96%N); done).
    rewrite H1, H2, H3.
    pose proof (strip_by_surrounded isspace [] [] rest c) as Hk.
    rewrite app_nil_r in Hk. apply Hk; auto. }
  split; [|exact Hplain].
  unfold strip_code_fences, strip, fenced.
  set (inner := before ++ (a ++ (c :: rest) ++ b) ++ after).
  assert (Hin : strip_by isspace inner = c :: rest).
  { unfold inner.
    replace (before ++ (a ++ (c :: rest) ++ b) ++ after)
      with ((before ++ a) ++ (c :: rest) ++ (b ++ after))
      by (by rewrite <- !app_assoc).
    apply strip_by_surrounded; auto using Forall_app_2. }
  assert (Hfull : strip_by isspace (str "```json" ++ inner ++ str "```")
                  = str "```json" ++ inner ++ str "```").
  { pose proof (strip_by_surrounded isspace [] []
                  (str "``json" ++ inner ++ str "```") 96%N) as Hk.
    rewrite app_nil_r in Hk. apply Hk; auto.
    rewrite !app_assoc. change (str "```") with ([96%N; 96%N] ++ [96%N]).
    rewrite !app_assoc. by rewrite last_last. }
  replace (str "```json" ++ before ++ (a ++ (c :: rest) ++ b) ++ after ++ str "```")
    with (str "```json" ++ inner ++ str "```")
    by (unfold inner; by rewrite <- !app_assoc).
  rewrite Hfull, startswith_app.
  change 7 with (length (str "```json")). rewrite drop_app_length.
  assert (Hnofence : startswith (inner ++ str "```") (str "```") = false).
  { destruct (lstrip_by_split isspace inner) as (pre & Hsplit & Hpre & _).
    unfold strip_by, rstrip_by in Hin.
    destruct inner as [|x inner'] eqn:Hi; [done|].
    change ((x :: inner') ++ str "```") with (x :: (inner' ++ str "```")).
    apply (startswith_head _ (str "``") 96%N x).
    destruct (isspace x) eqn:Hx; [intros <-; done|].
    rewrite lstrip_by_id in Hin by done.
    intros <-.
    apply (f_equal (@rev N)) in Hin. rewrite rev_involutive in Hin.
    destruct (lstrip_by_split isspace (rev (96%N :: inner'))) as (post & Hp & _ & _).
    rewrite Hin in Hp. apply (f_equal (@rev N)) in Hp.
    rewrite rev_involutive, rev_app_distr, rev_involutive in Hp.
    simpl in Hp. congruence. }
  rewrite Hnofence, endswith_app, length_app.
  replace (length inner + length (str "```") - 3) with (length inner) by (simpl; lia).
  rewrite take_app_length. exact Hin.
Qed.

Section CodeFences.

Context {J : Type} (json_loads : pystr -> option J).

(** What is assumed of [json.loads]: it skips the whitespace of the
    grammar around the value, and a text it accepts starts and ends,
    inside that whitespace, as a JSON value does. *)
Hypothesis json_loads_skips_ws : forall s, json_loads (json_strip s) = json_loads s.
Hypothesis json_loads_value : forall s v, json_loads s = Some v -> well_delimited s = true.

(** C7. For every text [s] that [json.loads] accepts, the cleaning step
    applied to [s] between a "```json" fence and a closing "```" fence
    (with whitespace between the fences and the text) gives a text that
    parses to the same object as [s], and applied to [s] itself it gives
    a text that parses to the same object as [s]. *)
Theorem fenced_summary_parses_alike (s before after : pystr) (v : J) :
  Forall (fun c => isspace c = true) before ->
  Forall (fun c => isspace c = true) after ->
  json_loads s = Some v ->
  json_loads (strip_code_fences (fenced before s after)) = Some v
  /\ json_loads (strip_code_fences s) = Some v.
Proof.
  intros Hbefore Hafter Hs.
  pose proof (json_loads_value s v Hs) as Hwd. unfold well_delimited in Hwd.
  destruct (strip_by_split json_ws s) as (a & b & Hsplit & Ha & Hb & _).
  fold (json_strip s) in Hsplit.
  destruct (json_strip s) as [|c rest] eqn:Hbody; [done|].
  apply andb_prop in Hwd. destruct Hwd as [Hstart Hend].
  apply value_start_visible in Hstart. apply value_end_visible in Hend.
  destruct Hstart as [Hc Hc']. destruct Hend as [Hl Hl'].
  assert (Ha' : Forall (fun c => isspace c = true) a)
    by (eapply Forall_impl; [exact Ha|apply json_ws_isspace]).
  assert (Hb' : Forall (fun c => isspace c = true) b)
    by (eapply Forall_impl; [exact Hb|apply json_ws_isspace]).
  destruct (strip_code_fences_value before after a b rest c) as [Hf Hp]; auto.
  rewrite <- (json_loads_skips_ws s), Hbody in Hs.
  rewrite Hsplit, Hf, Hp. done.
Qed.

End CodeFences.

Lemma json_lite_skips_ws (s : pystr) :
  Demo.json_lite_loads (json_strip s) = Demo.json_lite_loads s.
Proof.
  unfold Demo.json_lite_loads, json_strip. by rewrite strip_by_idempotent.
Qed.

Lemma json_lite_value_delimited (s : pystr) (v : Demo.json) :
  Demo.json_lite_loads s = Some v -> well_delimited s = true.
Proof.
  unfold Demo.json_lite_loads, well_delimited, Demo.json_lite_value.
  destruct (json_strip s) as [|c body] eqn:Hb.
  - vm_compute. discriminate.
  - repeat case_bool_decide;
      try (match goal with
           | H : _ :: _ = str _ |- _ =>
               vm_compute in H; injection H as -> ->; intros _; reflexivity
           end).
    destruct c as [|p]; [done|].
    do 6 (destruct p as [p|p|]; try done).
    destruct (rev body) as [|d inner] eqn:Hr; [done|].
    destruct d as [|q]; [done|].
    do 6 (destruct q as [q|q|]; try done).
    intros _.
    apply (f_equal (@rev N)) in Hr. rewrite rev_involutive in Hr. simpl in Hr.
    rewrite Hr, last_last. reflexivity.
Qed.

Lemma fenced_summary_parses_alike_witness :
  Demo.json_lite_loads (strip_code_fences (fenced [nl] (str " {} ") [nl])) = Some Demo.JObject
  /\ Demo.json_lite_loads (strip_code_fences (str " {} ")) = Some Demo.JObject.
Proof.
  apply (fenced_summary_parses_alike Demo.json_lite_loads
           json_lite_skips_ws json_lite_value_delimited).
  - repeat constructor.
  - repeat constructor.
  - vm_compute. reflexivity.
Defined.

(** ** Retries *)

Lemma appends_ret {A} (a : A) : appends [] (ret a).
Proof. intros w. exists []. split; [done|]. simpl. by rewrite app_nil_r. Qed.

Lemma appends_raise {A} (e : exn) : appends [] (@raise A e).
Proof. intros w. exists []. split; [done|]. simpl. by rewrite app_nil_r. Qed.

Lemma appends_bind {A B} cs1 cs2 cs (m : M A) (k : A -> M B) :
  appends cs1 m -> (forall a, appends cs2 (k a)) -> cs1 ++ cs2 `sublist_of` cs ->
  appends cs (bind m k).
Proof.
  intros Hm Hk Hcs w. unfold bind. destruct (Hm w) as (c1 & Hs1 & Hc1).
  destruct (m w) as [[e|a] w1]; simpl in *.
  - exists c1. split; [|done]. etrans; [|exact Hcs]. by apply sublist_inserts_r.
  - destruct (Hk a w1) as (c2 & Hs2 & Hc2). exists (c1 ++ c2). split.
    + etrans; [|exact Hcs]. by apply sublist_app.
    + by rewrite Hc2, Hc1, app_assoc.
Qed.

Lemma appends_try_except {A} cs1 cs2 cs (m : M A) (h : exn -> M A) :
  appends cs1 m -> (forall e, appends cs2 (h e)) -> cs1 ++ cs2 `sublist_of` cs ->
  appends cs (try_except m h).
Proof.
  intros Hm Hh Hcs w. unfold try_except. destruct (Hm w) as (c1 & Hs1 & Hc1).
  destruct (m w) as [[e|a] w1]; simpl in *.
  - destruct (Hh e w1) as (c2 & Hs2 & Hc2). exists (c1 ++ c2). split.
    + etrans; [|exact Hcs]. by apply sublist_app.
    + by rewrite Hc2, Hc1, app_assoc.
  - exists c1. split; [|done]. etrans; [|exact Hcs]. by apply sublist_inserts_r.
Qed.

Lemma appends_reraise {A} cs prefix (m : M A) : appends cs m -> appends cs (reraise prefix m).
Proof.
  intros Hm. unfold reraise.
  apply (appends_try_except cs [] cs); [done|intros e; apply appends_raise|].
  by rewrite app_nil_r.
Qed.

Lemma appends_lift_fs f : appends [] (lift_fs f).
Proof.
  intros w. exists []. split; [done|]. unfold lift_fs.
  destruct (f (files w)); simpl; by rewrite app_nil_r.
Qed.

Lemma appends_get_files : appends [] get_files.
Proof. intros w. exists []. split; [done|]. simpl. by rewrite app_nil_r. Qed.

Lemma appends_lift_result {A} (r : exn + A) : appends [] (lift_result r).
Proof. intros w. exists []. split; [done|]. simpl. by rewrite app_nil_r. Qed.

Lemma appends_read_text p : appends [] (read_text p).
Proof. intros w. exists []. split; [done|]. simpl. by rewrite app_nil_r. Qed.

Lemma appends_open_rb p : appends [] (open_rb p).
Proof.
  intros w. exists []. split; [done|]. unfold open_rb.
  destruct (lookup_node (files w) p) as [[|?]|]; simpl; by rewrite app_nil_r.
Qed.

Lemma appends_log_call c : appends [c] (log_call c).
Proof. intros w. exists [c]. split; [done|]. done. Qed.

Lemma appends_weaken {A} cs cs' (m : M A) :
  appends cs m -> cs `sublist_of` cs' -> appends cs' m.
Proof.
  intros Hm Hcs w. destruct (Hm w) as (c & Hc & Heq).
  exists c. split; [by etrans|done].
Qed.

Ltac sublist_go :=
  first
    [ reflexivity
    | simpl; repeat first [ apply sublist_nil_l | apply sublist_skip | apply sublist_cons ] ].

Ltac appends_known := fail.

Ltac appends_go :=
  first [ appends_known | appends_basic ]
with appends_basic :=
  lazymatch goal with
  | |- appends _ (ret _) => apply appends_ret
  | |- appends _ (raise _) => apply appends_raise
  | |- appends _ (lift_fs _) => apply appends_lift_fs
  | |- appends _ get_files => apply appends_get_files
  | |- appends _ (lift_result _) => apply appends_lift_result
  | |- appends _ (read_text _) => apply appends_read_text
  | |- appends _ (open_rb _) => apply appends_open_rb
  | |- appends _ (log_call _) => apply appends_log_call
  | |- appends _ (reraise _ _) => apply appends_reraise; appends_go
  | |- appends _ (bind _ _) =>
      eapply appends_bind; [ appends_go | intros ?; appends_go | sublist_go ]
  | |- appends _ (try_except _ _) =>
      eapply appends_try_except; [ appends_go | intros ?; appends_go | sublist_go ]
  | |- appends _ (match ?r with _ => _ end) => destruct r; appends_go
  | |- appends _ (mkdir _) => unfold mkdir; appends_go
  | |- appends _ (write_text _ _) => unfold write_text; appends_go
  | |- appends _ (rename _ _) => unfold rename; appends_go
  | |- appends _ ?m => fail "appends_go: no rule for" m
  end.

Section Retries.

Context {X : externals} {self : processor}.

Lemma appends_write_centralized_copy file_name content :
  appends [] (write_centralized_copy file_name content).
Proof.
  unfold write_centralized_copy, _get_centralized_path,
    _create_centralized_extraction_folder.
  eapply appends_weaken; [appends_go|sublist_go].
Qed.

Lemma appends_extract_text_with_mistral p folder :
  appends [CallMistralOCR p] (extract_text_with_mistral p folder).
Proof.
  unfold extract_text_with_mistral.
  eapply appends_weaken; [appends_go|sublist_go].
Qed.

Ltac appends_known ::=
  first [ apply appends_extract_text_with_mistral | apply appends_write_centralized_copy ].

Lemma appends_handler_get file_type p folder :
  appends (handler_calls p) (handlers_get file_type p folder).
Proof.
  unfold handlers_get, handlers.
  repeat (cbn [List.find fst]; case_bool_decide; [clear|]); cbn [List.find].
  all: unfold _extract_mistral_ocr, _extract_image_hybrid, _extract_audio, _extract_csv,
         _extract_excel, _extract_plaintext, _extract_unsupported,
         _get_gemini_vision_description.
  all: eapply appends_weaken; [appends_go|unfold handler_calls; sublist_go].
Qed.

Ltac appends_known ::=
  first [ apply appends_extract_text_with_mistral
        | apply appends_write_centralized_copy
        | apply appends_handler_get ].

(** The router calls each service at most once for its file. *)
Lemma appends_router (file : path) :
  appends (handler_calls (documents_folder </> stem file </> name file))
          (_extract_single_document_router file).
Proof.
  unfold _extract_single_document_router, router_try_block.
  eapply appends_weaken; [appends_go|sublist_go].
Qed.

Lemma handler_calls_NoDup p : NoDup (handler_calls p).
Proof.
  unfold handler_calls.
  repeat (constructor;
          [ intros H; repeat (apply elem_of_cons in H as [H|H]; [discriminate|]);
            by apply elem_of_nil in H | ]).
  constructor.
Qed.

End Retries.

Section RetryPolicy.

Context {X : externals} {W : workspace}.

(** One turn of the loop, by the kind of outcome of its call. *)
Lemma retry_step_rate_limit script max_retries attempt rest events :
  rate_limit_failure (script attempt) = true -> (attempt <? max_retries - 1) = true ->
  cli_retry_loop script max_retries (attempt :: rest) events
  = cli_retry_loop script max_retries rest (events ++ [Run 90; Sleep ((attempt + 1) * 2)]).
Proof.
  intros Hrl Hlt. cbn [cli_retry_loop]. unfold rate_limit_failure in Hrl.
  destruct (script attempt) as [rc err out| |x]; [|done|done].
  apply andb_prop in Hrl as [-> ->]. rewrite Hlt. cbn [andb].
  by rewrite <- app_assoc.
Qed.

Lemma retry_step_timeout script max_retries attempt rest events :
  timed_out (script attempt) = true -> (attempt <? max_retries - 1) = true ->
  cli_retry_loop script max_retries (attempt :: rest) events
  = cli_retry_loop script max_retries rest (events ++ [Run 90]).
Proof.
  intros Hto Hlt. cbn [cli_retry_loop]. unfold timed_out in Hto.
  destruct (script attempt) as [rc err out| |x]; [done| |done]. by rewrite Hlt.
Qed.

Lemma retry_step_final script max_retries attempt rest events :
  (rate_limit_failure (script attempt) = false /\ timed_out (script attempt) = false)
  \/ (attempt <? max_retries - 1) = false ->
  exists r, cli_retry_loop script max_retries (attempt :: rest) events
            = (r, events ++ [Run 90]).
Proof.
  intros H. cbn [cli_retry_loop]. unfold rate_limit_failure, timed_out in H.
  destruct (script attempt) as [rc err out| |x].
  - destruct (rc =? 0)%Z; cbn [negb andb] in *.
    + destruct out; by eexists.
    + destruct H as [[H _]|H]; rewrite H, ?andb_false_r; by eexists.
  - destruct H as [[_ H]|H]; [done|]. rewrite H. by eexists.
  - by eexists.
Qed.

Lemma retry_step_non_transient script max_retries attempt rest events :
  non_transient_failure (script attempt) = true ->
  exists e, cli_retry_loop script max_retries (attempt :: rest) events
            = (inl e, events ++ [Run 90]).
Proof.
  intros H. cbn [cli_retry_loop]. unfold non_transient_failure in H.
  destruct (script attempt) as [rc err out| |x]; [|done|by eexists].
  destruct (rc =? 0)%Z; cbn [negb].
  - destruct out; [done|by eexists].
  - apply negb_true_iff in H. rewrite H. by eexists.
Qed.

Lemma outcome_kinds (r : cli_result) :
  rate_limit_failure r = true
  \/ timed_out r = true
  \/ (rate_limit_failure r = false /\ timed_out r = false).
Proof.
  destruct r as [rc err out| |x]; cbn; [|by right; left|by right; right].
  destruct (negb (rc =? 0)%Z && rate_limited err); [by left|by right; right].
Qed.

Lemma timed_out_not_rate_limit (r : cli_result) :
  timed_out r = true -> rate_limit_failure r = false.
Proof. by destruct r. Qed.

Ltac retry_cases script :=
  repeat match goal with
         | |- context [cli_retry_loop script 3 (?a :: ?rest) ?ev] =>
             first
               [ rewrite (retry_step_rate_limit script 3 a rest ev) by done
               | rewrite (retry_step_timeout script 3 a rest ev) by done
               | let r := fresh "r" in
                 let Hr := fresh "Hr" in
                 destruct (retry_step_final script 3 a rest ev) as [r Hr];
                 [ first [ by right | by left ] | rewrite Hr; clear Hr ] ]
         end.

Lemma retry_loop_bounds (script : nat -> cli_result) :
  let result := cli_retry_loop script 3 (seq 0 3) [] in
  runs (snd result) <= 3
  /\ (sleeps (snd result) = [] \/ sleeps (snd result) = [2]
      \/ sleeps (snd result) = [4] \/ sleeps (snd result) = [2; 4])
  /\ (rate_limit_failure (script 0) = false -> rate_limit_failure (script 1) = false ->
      sleeps (snd result) = []).
Proof.
  cbn [seq].
  destruct (outcome_kinds (script 0)) as [H0|[H0|H0]];
    destruct (outcome_kinds (script 1)) as [H1|[H1|H1]];
    try (pose proof (timed_out_not_rate_limit _ H0));
    try (pose proof (timed_out_not_rate_limit _ H1));
    retry_cases script; cbn; repeat split; intros; try lia; try congruence; auto;
    destruct H0, H1; congruence.
Qed.

Lemma retry_loop_first_attempts (script : nat -> cli_result) :
  let result := cli_retry_loop script 3 (seq 0 3) [] in
  (non_transient_failure (script 0) = true -> exists e, result = (inl e, [Run 90]))
  /\ (rate_limit_failure (script 0) = true ->
      exists rest, snd result = [Run 90; Sleep 2; Run 90] ++ rest)
  /\ (rate_limit_failure (script 0) = true -> rate_limit_failure (script 1) = true ->
      snd result = [Run 90; Sleep 2; Run 90; Sleep 4; Run 90])
  /\ (timed_out (script 0) = true ->
      exists rest, snd result = [Run 90; Run 90] ++ rest)
  /\ (timed_out (script 0) = true -> timed_out (script 1) = true ->
      snd result = [Run 90; Run 90; Run 90]).
Proof.
  cbn [seq]. split; [|split; [|split; [|split]]].
  - intros H. by apply retry_step_non_transient.
  - intros H0. rewrite retry_step_rate_limit by done.
    destruct (outcome_kinds (script 1)) as [H1|[H1|H1]]; retry_cases script;
      cbn; by eexists.
  - intros H0 H1. retry_cases script. reflexivity.
  - intros H0. rewrite retry_step_timeout by done.
    destruct (outcome_kinds (script 1)) as [H1|[H1|H1]]; retry_cases script;
      cbn; by eexists.
  - intros H0 H1. retry_cases script. reflexivity.
Qed.

(** C8, as the code has it. For a document whose text is found, the
    retrying generator [_generate_summary_sync], on its subprocess
    path, first makes the two paths of its prompt relative to the
    workspace root, and fails the item without any call when one of
    them is not below that root. Otherwise it calls the command line at
    most 3 times; after a rate-limit failure of the first or second
    call it waits 2 or 4 seconds and calls again; after a timeout of
    the first or second call it calls again without waiting; any other
    failure of a call ends the item with that call. The extraction
    router calls no service twice for a file. *)
Theorem summary_retry_policy (backend : pystr) (fs : gmap path node)
    (script : nat -> cli_result) (doc_info : doc_record) (text_file folder : path) :
  locate_text fs doc_info = inr text_file ->
  doc_folder doc_info = Some folder ->
  let result := _generate_summary_sync None backend fs script doc_info in
  match prompt_paths text_file (summary_file folder) with
  | inl e => result = (inl e, [])
  | inr _ =>
      runs (snd result) <= 3
      /\ (sleeps (snd result) = [] \/ sleeps (snd result) = [2]
          \/ sleeps (snd result) = [4] \/ sleeps (snd result) = [2; 4])
      /\ (rate_limit_failure (script 0) = false -> rate_limit_failure (script 1) = false ->
          sleeps (snd result) = [])
      /\ (rate_limit_failure (script 0) = true ->
          exists rest, snd result = [Run 90; Sleep 2; Run 90] ++ rest)
      /\ (rate_limit_failure (script 0) = true -> rate_limit_failure (script 1) = true ->
          snd result = [Run 90; Sleep 2; Run 90; Sleep 4; Run 90])
      /\ (timed_out (script 0) = true ->
          exists rest, snd result = [Run 90; Run 90] ++ rest)
      /\ (timed_out (script 0) = true -> timed_out (script 1) = true ->
          snd result = [Run 90; Run 90; Run 90])
      /\ (non_transient_failure (script 0) = true -> exists e, result = (inl e, [Run 90]))
      /\ (forall attempt rest events,
            non_transient_failure (script attempt) = true ->
            exists e, cli_retry_loop script 3 (attempt :: rest) events
                      = (inl e, events ++ [Run 90]))
  end
  /\ forall (self : processor) (file : path) (w : world),
       exists cs, calls (snd (_extract_single_document_router file w)) = calls w ++ cs
                  /\ NoDup cs.
Proof.
  intros Hlocate Hfolder result. subst result.
  unfold _generate_summary_sync. rewrite Hlocate, Hfolder. cbn [bool_decide andb].
  assert (Hnone : bool_decide (is_Some (@None (exn + bool))) = false).
  { apply bool_decide_eq_false_2. by intros [? ?]. }
  rewrite Hnone. cbn [andb]. split.
  - destruct (prompt_paths text_file (summary_file folder)) as [e|paths]; [done|].
    destruct (retry_loop_bounds script) as (Hruns & Hsleeps & Hquiet).
    destruct (retry_loop_first_attempts script) as (Hfatal & Hrl & Hrl2 & Hto & Hto2).
    repeat (split; [assumption|]).
    intros attempt rest events H. by apply retry_step_non_transient.
  - intros self file w. destruct (appends_router file w) as (cs & Hsub & Hcalls).
    exists cs. split; [exact Hcalls|].
    eapply sublist_NoDup; [apply handler_calls_NoDup|exact Hsub].
Qed.

(** The pool of Phase 2 runs the static worker, once per document. *)
Lemma phase_2_runs_static_worker (fs : gmap path node)
    (scripts : doc_record -> nat -> cli_result) (extracted_docs : list doc_record) :
  snd (phase_2_summarize_all fs scripts extracted_docs)
  = map (fun d => snd (_generate_summary_worker_static fs (scripts d) d)) extracted_docs.
Proof.
  unfold phase_2_summarize_all. destruct extracted_docs as [|d docs]; [done|].
  set (results := map _ (d :: docs)).
  destruct (List.find _ _); cbn [snd]; unfold results; by rewrite map_map.
Qed.

End RetryPolicy.

Lemma summary_retry_policy_witness :
  exists rest,
    snd (@_generate_summary_sync Demo.demo_externals Demo.demo_workspace None (str "cli")
           Demo.notice_extracted_case Demo.rate_limit_then_ok Demo.extracted_notice)
    = [Run 90; Sleep 2; Run 90] ++ rest.
Proof.
  assert (Hlocate : @locate_text Demo.demo_externals Demo.notice_extracted_case
                      Demo.extracted_notice
                    = inr (Demo.documents ++ [str "notice"; str "full_text_extraction.txt"]))
    by (vm_compute; reflexivity).
  assert (Hpaths : @prompt_paths Demo.demo_workspace
                     (Demo.documents ++ [str "notice"; str "full_text_extraction.txt"])
                     (summary_file (Demo.documents ++ [str "notice"]))
                   = inr (Demo.documents ++ [str "notice"; str "full_text_extraction.txt"],
                          Demo.documents ++ [str "notice"; str "document_summary.json"]))
    by (vm_compute; reflexivity).
  pose proof (@summary_retry_policy Demo.demo_externals Demo.demo_workspace (str "cli")
                Demo.notice_extracted_case Demo.rate_limit_then_ok Demo.extracted_notice
                _ (Demo.documents ++ [str "notice"]) Hlocate eq_refl) as [H _].
  rewrite Hpaths in H. destruct H as (_ & _ & _ & H & _).
  apply H. vm_compute. reflexivity.
Defined.

(** C8 fails for a timeout: the call is made again at once, with no
    wait between the two attempts. *)
Lemma transient_failures_without_backoff :
  @_generate_summary_sync Demo.demo_externals Demo.demo_workspace None (str "cli")
     Demo.notice_extracted_case Demo.timeout_then_ok Demo.extracted_notice
  = (inr tt, [Run 90; Run 90]).
Proof. vm_compute. reflexivity. Qed.

(** Outside the workspace root the item fails and the command line is
    not called at all. *)
Example summary_outside_workspace :
  snd (@_generate_summary_sync Demo.demo_externals Demo.outside_workspace None (str "cli")
         Demo.notice_extracted_case Demo.always_ok Demo.extracted_notice) = []
  /\ snd (@_generate_summary_worker_static Demo.demo_externals Demo.outside_workspace
            Demo.notice_extracted_case Demo.always_ok Demo.extracted_notice) = [].
Proof. vm_compute. done. Qed.

(** A summary that fails makes Phase 2 itself raise: its log line reads
    [fail['pdf_path']], a key the records of the worker do not have. *)
Example failed_summary_raises_in_phase_2 :
  fst (@phase_2_summarize_all Demo.demo_externals Demo.demo_workspace
         Demo.notice_extracted_case
         (fun _ => Demo.always_rate_limited) [Demo.extracted_notice])
  = inl (KeyError (str "pdf_path")).
Proof. vm_compute. reflexivity. Qed.

(** ** The extraction batch *)

Section Batch.

Context {X : externals} {self : processor}.

(** Whatever happens to a file, the router returns a record. *)
Lemma router_returns (file : path) (w : world) :
  exists r w', _extract_single_document_router file w = (inr r, w').
Proof.
  unfold _extract_single_document_router, router_try_block, try_except.
  match goal with |- context [match ?m w with _ => _ end] => destruct (m w) as [[e|r] w1] end.
  - by eexists _, _.
  - by eexists _, _.
Qed.















End Batch.

(** Five files of which two fail: three successes, two failures, and
    Phase 2 is called with the three. *)
Example five_files_two_failures :
  match fst (@phase_1_batch Demo.demo_externals Demo.demo_processor
               (Demo.world_of Demo.five_case)) with
  | inr (successful, failed) => (map (fun r => name (default [] (file_ref r))) successful,
                                 map (fun r => name (default [] (file_ref r))) failed)
  | inl _ => ([], [])
  end = ([str "a.pdf"; str "c.csv"; str "d.txt"], [str "b.pdf"; str "e.mp3"])
  /\ match fst (@run_all_phases_phase_2_input Demo.demo_externals Demo.demo_processor
                  (Demo.world_of Demo.five_case)) with
     | inr (Some docs) => map (fun r => name (default [] (file_ref r))) docs
     | _ => []
     end = [str "a.pdf"; str "c.csv"; str "d.txt"].
Proof. vm_compute. done. Qed.

(** The two items that fail there are the two whose [try] block raises. *)
Example five_files_outcomes :
  map (fun o => (name (fst o), @item_fails Demo.demo_externals Demo.demo_processor o))
      (@batch_outcomes Demo.demo_externals Demo.demo_processor
         (map (fun n => Demo.intake ++ [str n])
              ["a.pdf"; "b.pdf"; "c.csv"; "d.txt"; "e.mp3"]%string)
         (Demo.world_of Demo.five_case))
  = [(str "a.pdf", false); (str "b.pdf", true); (str "c.csv", false);
     (str "d.txt", false); (str "e.mp3", true)].
Proof. vm_compute. reflexivity. Qed.


(** ** The file system *)

Lemma lookup_node_snoc (fs : gmap path node) (p : path) (c : pystr) :
  lookup_node fs (p ++ [c]) = fs !! (p ++ [c]).
Proof. unfold lookup_node. by destruct p. Qed.

Lemma exists_snoc (fs : gmap path node) (p : path) (c : pystr) :
  exists_ fs (p ++ [c]) = bool_decide (is_Some (fs !! (p ++ [c]))).
Proof.
  unfold exists_. rewrite lookup_node_snoc.
  destruct (fs !! (p ++ [c])) eqn:H.
  - by rewrite bool_decide_eq_true_2.
  - rewrite bool_decide_eq_false_2; [done|]. by intros [? ?].
Qed.

(** [mkdir] of a folder directly below an existing directory. *)
Lemma mkdir_p_child (fs : gmap path node) (d : path) (c : pystr) :
  is_dir fs d = true -> is_file fs (d ++ [c]) = false ->
  mkdir_p fs (d ++ [c])
  = inr (match fs !! (d ++ [c]) with
         | Some _ => fs
         | None => <[d ++ [c] := Dir]> fs
         end).
Proof.
  intros Hd Hf. unfold mkdir_p. rewrite rev_app_distr.
  change (rev [c] ++ rev d) with (c :: rev d). cbn [mkdir_rev].
  change (c :: rev d) with (rev [c] ++ rev d). rewrite <- rev_app_distr, rev_involutive.
  unfold is_file in Hf. rewrite lookup_node_snoc in Hf.
  destruct (fs !! (d ++ [c])) as [[|data]|] eqn:Hl; [done|done|].
  assert (Hparent : mkdir_rev fs (rev d) = inr fs).
  { destruct (rev d) as [|x r] eqn:Hr; [done|]. cbn [mkdir_rev].
    rewrite <- Hr, rev_involutive. unfold is_dir, lookup_node in Hd.
    destruct d as [|y d']; [done|]. by destruct (fs !! (y :: d')) as [[|?]|]. }
  by rewrite Hparent.
Qed.

(** ** The counter of the centralized folder *)

Lemma candidate_inj base suffix k k' :
  candidate base suffix k = candidate base suffix k' -> k = k'.
Proof.
  assert (Hzero : forall j, base ++ suffix <> base ++ [underscore] ++ format_int (S j) ++ suffix).
  { intros j H. apply app_inv_head in H. apply (f_equal length) in H.
    simpl in H. rewrite length_app in H. lia. }
  destruct k as [|k], k' as [|k']; cbn [candidate]; intros H; try done.
  - by apply Hzero in H.
  - symmetry in H. by apply Hzero in H.
  - apply app_inv_head in H. injection H as H. apply app_inv_tail in H.
    by apply format_int_inj in H.
Qed.

Lemma candidate_path_inj (folder : path) base k k' :
  folder ++ [candidate base (str ".txt") k] = folder ++ [candidate base (str ".txt") k'] ->
  k = k'.
Proof.
  intros H. apply app_inv_head in H. injection H as H. by apply candidate_inj in H.
Qed.

Lemma candidate_join (folder : path) base k :
  folder </> candidate base (str ".txt") k = folder ++ [candidate base (str ".txt") k].
Proof.
  apply join_long. pose proof (candidate_length base (str ".txt") k) as H.
  rewrite str_txt_length in H. lia.
Qed.

(** The loop either returns the first free candidate at or after
    [counter], or all the candidates it had fuel for exist. *)
Lemma free_path_loop_scan (fs : gmap path node) (folder : path) base fuel :
  forall counter,
    (exists k, counter <= k < counter + fuel
       /\ free_path_loop fs folder base (str ".txt") fuel counter
          = folder ++ [candidate base (str ".txt") k]
       /\ fs !! (folder ++ [candidate base (str ".txt") k]) = None
       /\ forall j, counter <= j < k ->
            is_Some (fs !! (folder ++ [candidate base (str ".txt") j])))
    \/ (forall j, counter <= j < counter + fuel ->
          is_Some (fs !! (folder ++ [candidate base (str ".txt") j]))).
Proof.
  induction fuel as [|fuel IH]; intros counter.
  - right. intros j Hj. lia.
  - cbn [free_path_loop]. rewrite candidate_join, exists_snoc.
    case_bool_decide as Hex; cbn [negb].
    + destruct (IH (S counter)) as [(k & Hk & Hres & Hfree & Hbelow)|Hall].
      * left. exists k. split; [lia|]. split; [done|]. split; [done|].
        intros j Hj. destruct (decide (j = counter)) as [->|Hne]; [done|].
        apply Hbelow. lia.
      * right. intros j Hj. destruct (decide (j = counter)) as [->|Hne]; [done|].
        apply Hall. lia.
    + left. exists counter. split; [lia|]. split; [done|]. split.
      * destruct (fs !! (folder ++ [candidate base (str ".txt") counter])) eqn:Hl; [|done].
        exfalso. apply Hex. by eexists.
      * intros j Hj. lia.
Qed.

(** With one test more than the file system has entries, the loop
    leaves through its [return]: the path it gives is free, and every
    candidate with a smaller counter exists. *)
Lemma free_path_loop_returns (fs : gmap path node) (folder : path) base :
  exists k,
    free_path_loop fs folder base (str ".txt") (S (size fs)) 0
    = folder ++ [candidate base (str ".txt") k]
    /\ fs !! (folder ++ [candidate base (str ".txt") k]) = None
    /\ forall j, j < k -> is_Some (fs !! (folder ++ [candidate base (str ".txt") j])).
Proof.
  destruct (free_path_loop_scan fs folder base (S (size fs)) 0)
    as [(k & Hk & Hres & Hfree & Hbelow)|Hall].
  - exists k. split; [done|]. split; [done|]. intros j Hj. apply Hbelow. lia.
  - exfalso.
    set (l := map (fun j => folder ++ [candidate base (str ".txt") j]) (seq 0 (S (size fs)))).
    assert (Hnd : NoDup l).
    { unfold l. apply NoDup_fmap_2_strong; [|apply NoDup_seq].
      intros j j' _ _ H. by apply candidate_path_inj in H. }
    assert (Hin : forall p, p ∈ l -> p ∈ (map_to_list fs).*1).
    { intros p Hp. unfold l in Hp. apply list_elem_of_fmap in Hp as (j & -> & Hj).
      apply elem_of_seq in Hj. destruct (Hall j) as [n Hn]; [lia|].
      apply list_elem_of_fmap. exists (folder ++ [candidate base (str ".txt") j], n).
      split; [done|]. by apply elem_of_map_to_list. }
    pose proof (submseteq_length _ _ (NoDup_submseteq _ _ Hnd Hin)) as Hlen.
    unfold l in Hlen. rewrite length_map, length_seq, length_fmap, length_map_to_list in Hlen.
    lia.
Qed.

Lemma mkdir_rev_mono (rp : path) : forall (fs fs' : gmap path node),
  mkdir_rev fs rp = inr fs' ->
  forall q, is_Some (fs !! q) -> is_Some (fs' !! q).
Proof.
  induction rp as [|c rp IH]; intros fs fs'; cbn [mkdir_rev].
  - by intros [= <-].
  - destruct (fs !! rev (c :: rp)) as [[|data]|] eqn:Hl.
    + by intros [= <-].
    + done.
    + destruct (mkdir_rev fs rp) as [e|fs1] eqn:Hrec; [done|].
      intros [= <-] q Hq.
      destruct (decide (rev (c :: rp) = q)) as [<-|Hne].
      * rewrite lookup_insert_eq. by eexists.
      * rewrite lookup_insert_ne by done. by eapply IH.
Qed.

Section Registry.

Context {X : externals} {self : processor}.

Lemma documents_folder_snoc : documents_folder = case_folder ++ [str "documents"].
Proof. unfold documents_folder. apply join_long. simpl. lia. Qed.

Lemma fte_folder_snoc : fte_folder = documents_folder ++ [str "full_text_extractions"].
Proof. unfold fte_folder. apply join_long. simpl. lia. Qed.

(** What [_get_centralized_path] returns: the candidate with the
    smallest counter that is free, once the folder is there. *)
Lemma get_centralized_path_returns (filename : pystr) (w w' : world) (p : path) :
  _get_centralized_path filename (str ".txt") w = (inr p, w') ->
  exists k,
    p = fte_folder ++ [candidate (_sanitize_filename filename) (str ".txt") k]
    /\ files w' !! p = None
    /\ (forall j, j < k ->
          is_Some (files w' !! (fte_folder
                                  ++ [candidate (_sanitize_filename filename) (str ".txt") j])))
    /\ mkdir_p (files w) fte_folder = inr (files w')
    /\ calls w' = calls w.
Proof.
  rewrite get_centralized_path_run.
  destruct (mkdir_p (files w) fte_folder) as [e|fs1] eqn:Hmk; [done|].
  destruct (free_path_loop_returns fs1 fte_folder (_sanitize_filename filename))
    as (k & Hres & Hfree & Hbelow).
  rewrite Hres. intros [= <- <-]. exists k. by repeat split.
Qed.

(** A centralized copy is written to a path that did not exist, and
    nothing that existed disappears. *)
Lemma write_centralized_copy_fresh (filename content : pystr) (w w' : world) (p : path) :
  write_centralized_copy filename content w = (inr p, w') ->
  files w !! p = None
  /\ is_Some (files w' !! p)
  /\ forall q, is_Some (files w !! q) -> is_Some (files w' !! q).
Proof.
  unfold write_centralized_copy, bind.
  destruct (_get_centralized_path filename (str ".txt") w) as [[e|p0] w1] eqn:Hget; [done|].
  apply get_centralized_path_returns in Hget as (k & -> & Hfree & _ & Hmk & _).
  unfold write_text, lift_fs, write_text_fs.
  destruct (lookup_node (files w1) (parent _)) as [[|?]|]; [|by destruct (_ ++ _)..].
  destruct (fte_folder ++ _) as [|x r] eqn:Hp; [done|]. rewrite Hfree.
  cbn [ret]. intros [= <- <-]. cbn [files].
  pose proof (mkdir_rev_mono _ _ _ Hmk) as Hmono.
  split; [|split].
  - destruct (files w !! (x :: r)) eqn:Hl; [|done].
    destruct (Hmono (x :: r)) as [nd Hn]; [by eexists|]. congruence.
  - rewrite lookup_insert_eq. by eexists.
  - intros q Hq. destruct (decide (x :: r = q)) as [<-|Hne].
    + rewrite lookup_insert_eq. by eexists.
    + rewrite lookup_insert_ne by done. by apply Hmono.
Qed.

(** Copies written one after the other go to pairwise distinct paths. *)
Lemma centralized_copies_distinct (items : list (pystr * pystr)) :
  forall (w w' : world) (paths : list path),
    pool_map (fun item => write_centralized_copy (fst item) (snd item)) items w
    = (inr paths, w') ->
    NoDup paths
    /\ Forall (fun p => files w !! p = None /\ is_Some (files w' !! p)) paths
    /\ forall q, is_Some (files w !! q) -> is_Some (files w' !! q).
Proof.
  induction items as [|item items IH]; intros w w' paths; cbn [pool_map].
  - unfold ret. intros [= <- <-]. repeat split; [constructor|constructor|done].
  - unfold bind.
    destruct (write_centralized_copy (fst item) (snd item) w) as [[e|p] w1] eqn:H1; [done|].
    destruct (pool_map _ items w1) as [[e|ps] w2] eqn:H2; [done|].
    unfold ret. intros [= <- <-].
    apply write_centralized_copy_fresh in H1 as (Hfree & Hthere & Hmono1).
    apply IH in H2 as (Hnd & Hall & Hmono2).
    split; [|split].
    + constructor; [|done]. intros Hin.
      rewrite Forall_forall in Hall. destruct (Hall p Hin) as [Hnone _].
      destruct Hthere as [nd Hn]. congruence.
    + constructor; [split; [done|by apply Hmono2]|].
      eapply Forall_impl; [exact Hall|]. intros q [Hq1 Hq2]. split; [|done].
      destruct (files w !! q) eqn:Hl; [|done].
      destruct (Hmono1 q) as [nd Hn]; [by eexists|]. congruence.
    + intros q Hq. by apply Hmono2, Hmono1.
Qed.

(** The folder is ready when [documents] is a directory and the
    centralized folder is not a regular file; then a copy goes to the
    candidate with the smallest free counter. *)
Lemma write_centralized_copy_at (filename content : pystr) (w : world) (k : nat) :
  is_dir (files w) documents_folder = true ->
  is_file (files w) fte_folder = false ->
  files w !! (fte_folder ++ [candidate (_sanitize_filename filename) (str ".txt") k]) = None ->
  (forall j, j < k ->
     is_Some (files w !! (fte_folder
                            ++ [candidate (_sanitize_filename filename) (str ".txt") j]))) ->
  write_centralized_copy filename content w
  = (inr (fte_folder ++ [candidate (_sanitize_filename filename) (str ".txt") k]),
     {| files := <[fte_folder ++ [candidate (_sanitize_filename filename) (str ".txt") k]
                   := File (Some content)]> (<[fte_folder := Dir]> (files w));
        calls := calls w |}).
Proof.
  intros Hdocs Hfte Hfree Hbelow.
  set (base := _sanitize_filename filename) in *.
  assert (Hmk : mkdir_p (files w) fte_folder = inr (<[fte_folder := Dir]> (files w))).
  { rewrite fte_folder_snoc in *. rewrite mkdir_p_child by done.
    unfold is_file in Hfte. rewrite lookup_node_snoc in Hfte.
    destruct (files w !! _) as [[|?]|] eqn:Hl; [|done|done].
    by rewrite insert_id. }
  assert (Hne : forall j, fte_folder <> fte_folder ++ [candidate base (str ".txt") j]).
  { intros j H. apply (f_equal length) in H. rewrite length_app in H. simpl in H. lia. }
  unfold write_centralized_copy, bind. rewrite get_centralized_path_run, Hmk. fold base.
  destruct (free_path_loop_returns (<[fte_folder := Dir]> (files w)) fte_folder base)
    as (k' & Hres & Hfree' & Hbelow').
  assert (k' = k) as ->.
  { destruct (Nat.lt_trichotomy k' k) as [Hlt|[->|Hgt]]; [|done|].
    - destruct (Hbelow k' Hlt) as [nd Hn].
      rewrite lookup_insert_ne in Hfree' by apply Hne. congruence.
    - destruct (Hbelow' k Hgt) as [nd Hn].
      rewrite lookup_insert_ne in Hn by apply Hne. congruence. }
  rewrite Hres. unfold write_text, lift_fs, write_text_fs. cbn [files].
  rewrite parent_snoc.
  assert (Hdir : lookup_node (<[fte_folder := Dir]> (files w)) fte_folder = Some Dir).
  { rewrite fte_folder_snoc at 2. rewrite lookup_node_snoc, <- fte_folder_snoc.
    apply lookup_insert_eq. }
  rewrite Hdir, Hfree'.
  destruct (fte_folder ++ [candidate base (str ".txt") k]) eqn:Hp;
    [by destruct fte_folder|].
  reflexivity.
Qed.

Lemma ready_after_copy (fs : gmap path node) (c content : pystr) :
  is_dir fs documents_folder = true ->
  is_dir (<[fte_folder ++ [c] := File (Some content)]> (<[fte_folder := Dir]> fs))
         documents_folder = true
  /\ is_file (<[fte_folder ++ [c] := File (Some content)]> (<[fte_folder := Dir]> fs))
             fte_folder = false.
Proof.
  intros Hdocs.
  assert (H1 : fte_folder ++ [c] <> documents_folder).
  { rewrite fte_folder_snoc. intros H. apply (f_equal length) in H.
    rewrite !length_app in H. simpl in H. lia. }
  assert (H2 : fte_folder <> documents_folder).
  { rewrite fte_folder_snoc. intros H. apply (f_equal length) in H.
    rewrite !length_app in H. simpl in H. lia. }
  assert (H3 : fte_folder ++ [c] <> fte_folder).
  { intros H. apply (f_equal length) in H. rewrite !length_app in H. simpl in H. lia. }
  split.
  - unfold is_dir, lookup_node in *. rewrite documents_folder_snoc in *.
    destruct (case_folder ++ [str "documents"]) eqn:Hd; [done|].
    by rewrite !lookup_insert_ne.
  - unfold is_file. rewrite fte_folder_snoc at 3. rewrite lookup_node_snoc, <- fte_folder_snoc.
    rewrite lookup_insert_ne by done. by rewrite lookup_insert_eq.
Qed.

(** [mkdir] leaves a folder it has made as it is. *)
Lemma mkdir_rev_again (rp : path) (fs fs' : gmap path node) :
  mkdir_rev fs rp = inr fs' -> mkdir_rev fs' rp = inr fs'.
Proof.
  destruct rp as [|c rp]; cbn [mkdir_rev]; [by intros [= <-]|].
  destruct (fs !! rev (c :: rp)) as [[|data]|] eqn:Hl.
  - intros [= <-]. by rewrite Hl.
  - done.
  - destruct (mkdir_rev fs rp) as [e|fs1]; [done|]. intros [= <-].
    by rewrite lookup_insert_eq.
Qed.

(** [_get_centralized_path] writes no file: asked again, it gives the
    same path. *)
Lemma get_centralized_path_again (filename : pystr) (w w' : world) (p : path) :
  _get_centralized_path filename (str ".txt") w = (inr p, w') ->
  _get_centralized_path filename (str ".txt") w' = (inr p, w').
Proof.
  rewrite !get_centralized_path_run.
  destruct (mkdir_p (files w) fte_folder) as [e|fs1] eqn:Hmk; [done|].
  intros [= <- <-]. cbn [files calls]. unfold mkdir_p in *.
  by rewrite (mkdir_rev_again _ _ _ Hmk).
Qed.

(** In a folder that is ready, the call followed by the write goes to
    the candidate with the smallest free counter. *)
Lemma write_centralized_copy_returns (filename content : pystr) (w : world) :
  is_dir (files w) documents_folder = true ->
  is_file (files w) fte_folder = false ->
  exists k,
    files w !! (fte_folder ++ [candidate (_sanitize_filename filename) (str ".txt") k]) = None
    /\ (forall j, j < k ->
          is_Some (files w !! (fte_folder
                                 ++ [candidate (_sanitize_filename filename) (str ".txt") j])))
    /\ write_centralized_copy filename content w
       = (inr (fte_folder ++ [candidate (_sanitize_filename filename) (str ".txt") k]),
          {| files := <[fte_folder ++ [candidate (_sanitize_filename filename) (str ".txt") k]
                        := File (Some content)]> (<[fte_folder := Dir]> (files w));
             calls := calls w |}).
Proof.
  intros Hdocs Hfte.
  set (base := _sanitize_filename filename).
  assert (Hne : forall j, fte_folder <> fte_folder ++ [candidate base (str ".txt") j]).
  { intros j H. apply (f_equal length) in H. rewrite length_app in H. simpl in H. lia. }
  destruct (free_path_loop_returns (<[fte_folder := Dir]> (files w)) fte_folder base)
    as (k & _ & Hfree & Hbelow).
  rewrite lookup_insert_ne in Hfree by apply Hne.
  assert (Hbelow' : forall j, j < k ->
            is_Some (files w !! (fte_folder ++ [candidate base (str ".txt") j]))).
  { intros j Hj. specialize (Hbelow j Hj). by rewrite lookup_insert_ne in Hbelow by apply Hne. }
  exists k. split; [done|]. split; [done|]. by apply write_centralized_copy_at.
Qed.

(** C4, as the code has it. [_get_centralized_path] returns the
    candidate with the smallest counter that is free in the folder as
    it is, and writes no file: asked again at once it gives the same
    path. When the file is written at the returned path before the
    next call, as every handler does, three calls for one file name in
    a folder that is ready go to three candidates with growing
    counters, which are the base name followed by ".txt", "_1.txt" and
    "_2.txt" when the folder holds none of these three; and paths
    obtained and written one after the other never coincide, whatever
    the names. Two names whose first candidates are free get, from the
    same folder, paths that differ when their sanitized bases differ. *)
Theorem centralized_path_collisions (w : world) (filename c0 c1 c2 : pystr) :
  is_dir (files w) documents_folder = true ->
  is_file (files w) fte_folder = false ->
  let base := _sanitize_filename filename in
  let call_and_write := fun (file_name content : pystr) =>
    (centralized_path <- _get_centralized_path file_name (str ".txt") ;;
     write_text centralized_path content ;;;
     ret centralized_path) in
  (exists k0 k1 k2 w1 w2 w3,
      call_and_write filename c0 w
      = (inr (fte_folder ++ [candidate base (str ".txt") k0]), w1)
      /\ call_and_write filename c1 w1
         = (inr (fte_folder ++ [candidate base (str ".txt") k1]), w2)
      /\ call_and_write filename c2 w2
         = (inr (fte_folder ++ [candidate base (str ".txt") k2]), w3)
      /\ k0 < k1 < k2
      /\ ((forall k, k < 3 ->
             files w !! (fte_folder ++ [candidate base (str ".txt") k]) = None) ->
          k0 = 0 /\ k1 = 1 /\ k2 = 2))
  /\ candidate base (str ".txt") 0 = base ++ str ".txt"
  /\ candidate base (str ".txt") 1 = base ++ str "_1.txt"
  /\ candidate base (str ".txt") 2 = base ++ str "_2.txt"
  /\ (forall k k', fte_folder ++ [candidate base (str ".txt") k]
                   = fte_folder ++ [candidate base (str ".txt") k'] -> k = k')
  /\ (forall (any : pystr) (p : path) (w0 w' : world),
        _get_centralized_path any (str ".txt") w0 = (inr p, w') ->
        _get_centralized_path any (str ".txt") w' = (inr p, w')
        /\ mkdir_p (files w0) fte_folder = inr (files w')
        /\ exists k,
             p = fte_folder ++ [candidate (_sanitize_filename any) (str ".txt") k]
             /\ files w' !! p = None
             /\ forall j, j < k ->
                  is_Some (files w' !! (fte_folder
                             ++ [candidate (_sanitize_filename any) (str ".txt") j])))
  /\ (forall (items : list (pystr * pystr)) (paths : list path) (w0 w' : world),
        pool_map (fun item => call_and_write (fst item) (snd item)) items w0
        = (inr paths, w') ->
        NoDup paths)
  /\ (forall (other : pystr) (p p' : path) (w1 w2 : world),
        files w !! (fte_folder ++ [base ++ str ".txt"]) = None ->
        files w !! (fte_folder ++ [_sanitize_filename other ++ str ".txt"]) = None ->
        _sanitize_filename other <> base ->
        _get_centralized_path filename (str ".txt") w = (inr p, w1) ->
        _get_centralized_path other (str ".txt") w = (inr p', w2) ->
        p <> p').
Proof.
  intros Hdocs Hfte base call_and_write.
  change call_and_write with write_centralized_copy.
  set (cand := fun k => fte_folder ++ [candidate base (str ".txt") k]).
  assert (Hinj : forall j j', cand j = cand j' -> j = j').
  { intros j j' H. by apply candidate_path_inj in H. }
  assert (Hnf : forall j, fte_folder <> cand j).
  { intros j H. apply (f_equal length) in H. unfold cand in H.
    rewrite length_app in H. simpl in H. lia. }
  split; [|split; [done|split; [done|split; [done|split; [exact Hinj|split; [|split]]]]]].
  - destruct (write_centralized_copy_returns filename c0 w Hdocs Hfte)
      as (k0 & Hfree0 & Hbelow0 & Hrun0).
    fold base in Hfree0, Hbelow0, Hrun0. fold (cand k0) in Hfree0, Hrun0.
    set (fs1 := <[cand k0 := File (Some c0)]> (<[fte_folder := Dir]> (files w))) in *.
    destruct (ready_after_copy (files w) (candidate base (str ".txt") k0) c0 Hdocs)
      as [Hd1 Hf1].
    fold (cand k0) in Hd1, Hf1. fold fs1 in Hd1, Hf1.
    destruct (write_centralized_copy_returns filename c1 {| files := fs1; calls := calls w |}
                Hd1 Hf1) as (k1 & Hfree1 & Hbelow1 & Hrun1).
    cbn [files calls] in Hfree1, Hbelow1, Hrun1.
    fold base in Hfree1, Hbelow1, Hrun1. fold (cand k1) in Hfree1, Hrun1.
    set (fs2 := <[cand k1 := File (Some c1)]> (<[fte_folder := Dir]> fs1)) in *.
    destruct (ready_after_copy fs1 (candidate base (str ".txt") k1) c1 Hd1) as [Hd2 Hf2].
    fold (cand k1) in Hd2, Hf2. fold fs2 in Hd2, Hf2.
    destruct (write_centralized_copy_returns filename c2 {| files := fs2; calls := calls w |}
                Hd2 Hf2) as (k2 & Hfree2 & Hbelow2 & Hrun2).
    cbn [files calls] in Hfree2, Hbelow2, Hrun2.
    fold base in Hfree2, Hbelow2, Hrun2. fold (cand k2) in Hfree2, Hrun2.
    (* what each world holds of the candidates *)
    assert (H1 : forall j, fs1 !! cand j = if decide (j = k0) then Some (File (Some c0))
                                           else files w !! cand j).
    { intros j. unfold fs1. case_decide as Hj.
      - subst j. apply lookup_insert_eq.
      - rewrite lookup_insert_ne by (intros H; by apply Hinj in H).
        by rewrite lookup_insert_ne by apply Hnf. }
    assert (H2 : forall j, fs2 !! cand j = if decide (j = k1) then Some (File (Some c1))
                                           else fs1 !! cand j).
    { intros j. unfold fs2. case_decide as Hj.
      - subst j. apply lookup_insert_eq.
      - rewrite lookup_insert_ne by (intros H; by apply Hinj in H).
        by rewrite lookup_insert_ne by apply Hnf. }
    assert (Hk01 : k0 < k1).
    { destruct (Nat.lt_trichotomy k0 k1) as [Hlt|[Heq|Hgt]]; [done| |].
      - subst k1. rewrite H1 in Hfree1. by rewrite decide_True in Hfree1.
      - destruct (Hbelow0 k1 Hgt) as [nd Hnd]. fold (cand k1) in Hnd.
        rewrite H1, decide_False in Hfree1 by lia. congruence. }
    assert (Hk12 : k1 < k2).
    { destruct (Nat.lt_trichotomy k1 k2) as [Hlt|[Heq|Hgt]]; [done| |].
      - subst k2. rewrite H2 in Hfree2. by rewrite decide_True in Hfree2.
      - destruct (Hbelow1 k2 Hgt) as [nd Hnd]. fold (cand k2) in Hnd.
        rewrite H2, decide_False in Hfree2 by lia. congruence. }
    exists k0, k1, k2. eexists _, _, _.
    split; [exact Hrun0|]. split; [exact Hrun1|]. split; [exact Hrun2|].
    split; [lia|]. intros Hfree.
    assert (k0 = 0) as ->.
    { destruct k0 as [|k0]; [done|]. destruct (Hbelow0 0) as [nd Hnd]; [lia|].
      rewrite Hfree in Hnd by lia. done. }
    assert (k1 = 1) as ->.
    { destruct (decide (1 < k1)) as [Hgt|Hle]; [|lia].
      destruct (Hbelow1 1 Hgt) as [nd Hnd]. fold (cand 1) in Hnd.
      rewrite H1, decide_False in Hnd by lia. unfold cand in Hnd.
      rewrite Hfree in Hnd by lia. done. }
    assert (k2 = 2) as ->; [|done].
    destruct (decide (2 < k2)) as [Hgt|Hle]; [|lia].
    destruct (Hbelow2 2 Hgt) as [nd Hnd]. fold (cand 2) in Hnd.
    rewrite H2, decide_False in Hnd by lia. rewrite H1, decide_False in Hnd by lia.
    unfold cand in Hnd. rewrite Hfree in Hnd by lia. done.
  - intros any p w0 w' H. split; [exact (get_centralized_path_again _ _ _ _ H)|].
    apply get_centralized_path_returns in H as (k & Hp & Hk & Hbelow & Hmk & _).
    split; [done|]. by exists k.
  - intros items paths w0 w' H. by apply centralized_copies_distinct in H as [H _].
  - intros other p p' w1 w2 Hmine Hother Hdiff Hp Hp'.
    apply get_centralized_path_returns in Hp as (k & -> & Hk & Hbelow & Hmk & _).
    apply get_centralized_path_returns in Hp' as (k' & -> & Hk' & Hbelow' & Hmk' & _).
    assert (Hmk0 : mkdir_p (files w) fte_folder = inr (<[fte_folder := Dir]> (files w))).
    { rewrite fte_folder_snoc in *. rewrite mkdir_p_child by done.
      unfold is_file in Hfte. rewrite lookup_node_snoc in Hfte.
      destruct (files w !! _) as [[|?]|] eqn:Hl; [|done|done].
      by rewrite insert_id. }
    rewrite Hmk0 in Hmk, Hmk'. injection Hmk as Hmk. injection Hmk' as Hmk'.
    assert (k = 0) as ->.
    { destruct k as [|k]; [done|]. destruct (Hbelow 0) as [nd Hn]; [lia|].
      rewrite <- Hmk, lookup_insert_ne in Hn by apply Hnf.
      unfold candidate in Hn. fold base in Hn. rewrite Hmine in Hn. done. }
    assert (k' = 0) as ->.
    { destruct k' as [|k']; [done|]. destruct (Hbelow' 0) as [nd Hn]; [lia|].
      rewrite <- Hmk', lookup_insert_ne in Hn.
      - unfold candidate in Hn. rewrite Hother in Hn. done.
      - intros H. apply (f_equal length) in H. rewrite length_app in H. simpl in H. lia. }
    unfold candidate. intros H. apply app_inv_head in H. injection H as H.
    apply app_inv_tail in H. by symmetry in H.
Qed.

End Registry.

Lemma centralized_path_collisions_witness :
  exists w1 w2 w3,
    (centralized_path <- @_get_centralized_path Demo.demo_externals Demo.demo_processor
                           (str "Report.pdf") (str ".txt") ;;
     write_text centralized_path (str "one") ;;; ret centralized_path)
      (Demo.world_of Demo.empty_case)
    = (inr (Demo.documents ++ [str "full_text_extractions"; str "report.txt"]), w1)
    /\ (centralized_path <- @_get_centralized_path Demo.demo_externals Demo.demo_processor
                              (str "Report.pdf") (str ".txt") ;;
        write_text centralized_path (str "two") ;;; ret centralized_path) w1
       = (inr (Demo.documents ++ [str "full_text_extractions"; str "report_1.txt"]), w2)
    /\ (centralized_path <- @_get_centralized_path Demo.demo_externals Demo.demo_processor
                              (str "Report.pdf") (str ".txt") ;;
        write_text centralized_path (str "three") ;;; ret centralized_path) w2
       = (inr (Demo.documents ++ [str "full_text_extractions"; str "report_2.txt"]), w3).
Proof.
  destruct (@centralized_path_collisions Demo.demo_externals Demo.demo_processor
              (Demo.world_of Demo.empty_case) (str "Report.pdf")
              (str "one") (str "two") (str "three"))
    as [(k0 & k1 & k2 & w1 & w2 & w3 & H0 & H1 & H2 & _ & Hk) _].
  - vm_compute. reflexivity.
  - vm_compute. reflexivity.
  - destruct Hk as (-> & -> & ->).
    { intros k Hk. destruct k as [|[|[|k]]]; [vm_compute; reflexivity..|lia]. }
    exists w1, w2, w3. split; [exact H0|]. split; [exact H1|exact H2].
Defined.

(** C4 fails for the function on its own. It writes nothing, so three
    calls for one file name give one path three times; and with
    [report.txt] in the folder, [report.pdf] and [report_1.pdf], whose
    sanitized bases differ, both get [report_1.txt]. *)
Lemma bare_calls_share_a_path :
  fst ((p1 <- @_get_centralized_path Demo.demo_externals Demo.demo_processor
                (str "Report.pdf") (str ".txt") ;;
        p2 <- @_get_centralized_path Demo.demo_externals Demo.demo_processor
                (str "Report.pdf") (str ".txt") ;;
        p3 <- @_get_centralized_path Demo.demo_externals Demo.demo_processor
                (str "Report.pdf") (str ".txt") ;;
        ret (map name [p1; p2; p3])) (Demo.world_of Demo.empty_case))
  = inr [str "report.txt"; str "report.txt"; str "report.txt"]
  /\ @_sanitize_filename Demo.demo_externals (str "report.pdf") = str "report"
  /\ @_sanitize_filename Demo.demo_externals (str "report_1.pdf") = str "report_1"
  /\ fst (@_get_centralized_path Demo.demo_externals Demo.demo_processor
            (str "report.pdf") (str ".txt") (Demo.world_of Demo.report_case))
     = inr (Demo.documents ++ [str "full_text_extractions"; str "report_1.txt"])
  /\ fst (@_get_centralized_path Demo.demo_externals Demo.demo_processor
            (str "report_1.pdf") (str ".txt") (Demo.world_of Demo.report_case))
     = inr (Demo.documents ++ [str "full_text_extractions"; str "report_1.txt"]).
Proof. vm_compute. done. Qed.

(** ** Plain text *)

Lemma universal_newlines_without_cr (s : pystr) :
  Forall (fun c => c <> 13%N) s -> universal_newlines s = s.
Proof.
  induction 1 as [|c s Hc _ IH]; [done|]. cbn [universal_newlines].
  destruct (N.eqb_spec c 13); [done|]. by rewrite IH.
Qed.

Section Plaintext.

Context {X : externals} {self : processor}.

Lemma full_text_file_snoc (doc_folder : path) :
  full_text_file doc_folder = doc_folder ++ [str "full_text_extraction.txt"].
Proof. unfold full_text_file. apply join_long. simpl. lia. Qed.

(** The router hands the types [txt] and [md] to [_extract_plaintext]. *)
Lemma plaintext_types_routed :
  handlers_get (str "txt") = _extract_plaintext
  /\ handlers_get (str "md") = _extract_plaintext.
Proof. split; reflexivity. Qed.

(** C6, as the code has it. For a text file in a case whose folders
    are in place, [_extract_plaintext] succeeds and changes the file
    system in one file only (besides creating the centralized folder
    itself): a new path directly inside the centralized folder, which
    holds the text of the file as a text-mode read gives it, that is
    with every CR LF and CR turned into LF, and so the same text when
    the file has no carriage return. The file [full_text_extraction.txt]
    of the document folder is neither created nor changed. *)
Theorem plaintext_copied_to_centralized_only (w : world) (file_path doc_folder : path)
    (text : pystr) :
  is_dir (files w) documents_folder = true ->
  is_file (files w) fte_folder = false ->
  lookup_node (files w) file_path = Some (File (Some text)) ->
  doc_folder <> fte_folder ->
  exists (r : doc_record) (cp : path),
    let fs' := <[cp := File (Some (universal_newlines text))]>
                 (<[fte_folder := Dir]> (files w)) in
    _extract_plaintext file_path doc_folder w
    = (inr r, {| files := fs'; calls := calls w |})
    /\ success r = true
    /\ centralized_copy r = Some cp
    /\ text_extracted r = Some false
    /\ parent cp = fte_folder
    /\ files w !! cp = None
    /\ (forall q, q <> cp -> q <> fte_folder -> fs' !! q = files w !! q)
    /\ fs' !! full_text_file doc_folder = files w !! full_text_file doc_folder
    /\ (Forall (fun c => c <> 13%N) text -> universal_newlines text = text).
Proof.
  intros Hdocs Hfte Hfile Hfolder.
  set (base := _sanitize_filename (name file_path)).
  destruct (free_path_loop_returns (files w) fte_folder base) as (k & _ & Hfree & Hbelow).
  set (cp := fte_folder ++ [candidate base (str ".txt") k]) in *.
  eexists _, cp. cbv zeta.
  assert (Hframe : forall q, q <> cp -> q <> fte_folder ->
            <[cp := File (Some (universal_newlines text))]>
              (<[fte_folder := Dir]> (files w)) !! q = files w !! q).
  { intros q H1 H2. by rewrite !lookup_insert_ne. }
  split; [|split; [|split; [|split; [|split; [|split; [|split; [|split]]]]]]].
  - unfold _extract_plaintext, reraise, try_except, bind, read_text. rewrite Hfile.
    cbn [read_text_node].
    rewrite (write_centralized_copy_at (name file_path) (universal_newlines text) w k)
      by done.
    reflexivity.
  - reflexivity.
  - reflexivity.
  - reflexivity.
  - apply parent_snoc.
  - exact Hfree.
  - exact Hframe.
  - apply Hframe; rewrite full_text_file_snoc.
    + intros H. apply app_inj_tail in H as [H _]. done.
    + rewrite fte_folder_snoc. intros H. apply app_inj_tail in H as [_ H]. done.
  - apply universal_newlines_without_cr.
Qed.

End Plaintext.

Lemma plaintext_copied_to_centralized_only_witness :
  exists (r : doc_record) (cp : path),
    let fs' := <[cp := File (Some (universal_newlines (str "hello")))]>
                 (<[@fte_folder Demo.demo_processor := Dir]> Demo.plain_note_case) in
    @_extract_plaintext Demo.demo_externals Demo.demo_processor
      (Demo.documents ++ [str "note"; str "note.txt"]) (Demo.documents ++ [str "note"])
      (Demo.world_of Demo.plain_note_case)
    = (inr r, {| files := fs'; calls := [] |})
    /\ success r = true
    /\ centralized_copy r = Some cp
    /\ text_extracted r = Some false
    /\ parent cp = @fte_folder Demo.demo_processor
    /\ Demo.plain_note_case !! cp = None
    /\ (forall q, q <> cp -> q <> @fte_folder Demo.demo_processor ->
          fs' !! q = Demo.plain_note_case !! q)
    /\ fs' !! full_text_file (Demo.documents ++ [str "note"])
       = Demo.plain_note_case !! full_text_file (Demo.documents ++ [str "note"])
    /\ (Forall (fun c => c <> 13%N) (str "hello") ->
        universal_newlines (str "hello") = str "hello").
Proof.
  apply (@plaintext_copied_to_centralized_only Demo.demo_externals Demo.demo_processor
           (Demo.world_of Demo.plain_note_case)).
  - vm_compute. reflexivity.
  - vm_compute. reflexivity.
  - vm_compute. reflexivity.
  - vm_compute. discriminate.
Defined.

(** C6 fails for a file with Windows line endings: the note holds
    "a", CR, LF, "b", and its centralized copy holds "a", LF, "b". *)
Lemma crlf_note_is_not_copied_unchanged :
  Demo.note_case !! (Demo.documents ++ [str "note"; str "note.txt"])
  = Some (File (Some (str "a" ++ [13%N; 10%N] ++ str "b")))
  /\ files (snd (@_extract_plaintext Demo.demo_externals Demo.demo_processor
                   (Demo.documents ++ [str "note"; str "note.txt"])
                   (Demo.documents ++ [str "note"])
                   (Demo.world_of Demo.note_case)))
     !! (Demo.documents ++ [str "full_text_extractions"; str "note.txt"])
     = Some (File (Some (str "a" ++ [10%N] ++ str "b"))).
Proof. vm_compute. done. Qed.

(** ** Resuming at the summaries *)

Section Resume.

Context {self : processor}.

Lemma load_extracted_step_pdfs (fs : gmap path node) (docs : list doc_record) (d : path) :
  Forall (fun r => exists p, file_ref r = Some p /\ endswith (name p) (str ".pdf") = true) docs ->
  Forall (fun r => exists p, file_ref r = Some p /\ endswith (name p) (str ".pdf") = true)
         (load_extracted_step fs docs d).
Proof.
  intros Hdocs. unfold load_extracted_step.
  destruct (exists_ fs (full_text_file d)); [|done].
  destruct (glob_suffix fs d (str ".pdf")) as [|pdf rest] eqn:Hglob; [done|].
  apply Forall_app. split; [done|]. constructor; [|constructor].
  exists pdf. split; [done|].
  assert (Hin : pdf ∈ glob_suffix fs d (str ".pdf")) by (rewrite Hglob; left).
  unfold glob_suffix in Hin. apply list_elem_of_filter in Hin as [Hin _].
  by apply Is_true_eq_true.
Qed.

(** Whatever [_load_extracted_documents] finds is a PDF: a document of
    any other type is never handed to Phase 2 by [run_phase]. *)
Lemma loaded_documents_are_pdfs (w w' : world) (docs : list doc_record) :
  run_phase_summarize_phase_2_input w = (inr docs, w') ->
  Forall (fun r => exists p, file_ref r = Some p /\ endswith (name p) (str ".pdf") = true) docs.
Proof.
  unfold run_phase_summarize_phase_2_input, _load_extracted_documents, bind, get_files, ret.
  intros [= <- <-].
  generalize (glob_dirs (files w) documents_folder).
  assert (Hnil : Forall (fun r : doc_record =>
                           exists p, file_ref r = Some p
                                     /\ endswith (name p) (str ".pdf") = true) [])
    by constructor.
  revert Hnil. generalize (@nil doc_record).
  intros docs Hdocs dirs. revert docs Hdocs.
  induction dirs as [|d dirs IH]; intros docs Hdocs; [done|].
  cbn [fold_left]. apply IH. by apply load_extracted_step_pdfs.
Qed.

End Resume.

(** C1 at a case with one spreadsheet export. The extract phase
    succeeds and [run_all_phases] would pass one document to Phase 2,
    the folder [documents/data] with the source [data.csv], whose
    [full_text_extraction.txt] exists; scanning the folders afterwards,
    [run_phase("summarize")] passes no document at all. *)
Theorem summarize_alone_misses_csv :
  let after_extract :=
    snd (@phase_1_extract_all Demo.demo_externals Demo.demo_processor
           (Demo.world_of Demo.csv_case)) in
  match fst (@run_all_phases_phase_2_input Demo.demo_externals Demo.demo_processor
               (Demo.world_of Demo.csv_case)) with
  | inr (Some docs) => doc_refs docs
  | _ => []
  end = [(Some (Demo.documents ++ [str "data"]),
          Some (Demo.documents ++ [str "data"; str "data.csv"]))]
  /\ exists_ (files after_extract)
             (full_text_file (Demo.documents ++ [str "data"])) = true
  /\ fst (@run_phase_summarize_phase_2_input Demo.demo_processor after_extract) = inr [].
Proof. vm_compute. done. Qed.

(** With one PDF in the intake folder the two lists name the same
    folder and the same source file. *)
Example summarize_alone_finds_pdf :
  let after_extract :=
    snd (@phase_1_extract_all Demo.demo_externals Demo.demo_processor
           (Demo.world_of Demo.pdf_case)) in
  match fst (@run_all_phases_phase_2_input Demo.demo_externals Demo.demo_processor
               (Demo.world_of Demo.pdf_case)) with
  | inr (Some docs) => doc_refs docs
  | _ => []
  end
  = match fst (@run_phase_summarize_phase_2_input Demo.demo_processor after_extract) with
    | inr docs => doc_refs docs
    | inl _ => []
    end
  /\ match fst (@run_phase_summarize_phase_2_input Demo.demo_processor after_extract) with
     | inr docs => doc_refs docs
     | inl _ => []
     end = [(Some (Demo.documents ++ [str "notice"]),
             Some (Demo.documents ++ [str "notice"; str "notice.pdf"]))].
Proof. vm_compute. done. Qed.

(** * Further properties of the pipeline *)

(** ** Sanitized names *)

Lemma startswith_take (p s : pystr) n :
  startswith (take n s) p = true -> startswith s p = true.
Proof.
  revert s n. induction p as [|c p IH]; intros s n; [done|].
  destruct s as [|d s]; [by rewrite take_nil|].
  destruct n as [|n]; [done|]. cbn [take startswith].
  intros [-> H]%andb_prop. by rewrite (IH _ _ H).
Qed.

Lemma contains_take (p s : pystr) n :
  contains s p = false -> contains (take n s) p = false.
Proof.
  revert n. induction s as [|d s IH]; intros n.
  - by rewrite take_nil.
  - destruct n as [|n].
    + cbn [take contains]. intros [H _]%orb_false_elim.
      destruct p; [done|]. by rewrite orb_false_r.
    + cbn [take contains]. intros [H1 H2]%orb_false_elim.
      rewrite (IH _ H2), orb_false_r.
      destruct (startswith (d :: take n s) p) eqn:Hs; [|done].
      apply (startswith_take p (d :: s) (S n)) in Hs. congruence.
Qed.

(** After [re.sub(r'_+', '_', name)] no two underscores are adjacent,
    and the text that follows a match does not start with one. *)
Lemma sub_runs_no_double (s : pystr) : forall b,
  contains (sub_runs b s) [underscore; underscore] = false
  /\ (b = true -> startswith (sub_runs b s) [underscore] = false).
Proof.
  induction s as [|c s IH]; intros b; [done|].
  cbn [sub_runs]. destruct (N.eqb_spec c underscore) as [->|Hc].
  - destruct b.
    + apply IH.
    + split; [|done]. destruct (IH true) as [H1 H2].
      cbn [contains]. rewrite H1, orb_false_r.
      change (startswith (underscore :: sub_runs true s) [underscore; underscore])
        with ((underscore =? underscore)%N && startswith (sub_runs true s) [underscore]).
      by rewrite (H2 eq_refl), andb_false_r.
  - destruct (IH false) as [H1 _]. split.
    + cbn [contains]. rewrite H1, orb_false_r. apply startswith_head. congruence.
    + intros _. apply startswith_head. congruence.
Qed.

(** A text without adjacent underscores is left as it is. *)
Lemma sub_runs_fixed (s : pystr) : forall b,
  contains s [underscore; underscore] = false ->
  (b = true -> startswith s [underscore] = false) ->
  sub_runs b s = s.
Proof.
  induction s as [|c s IH]; intros b Hs Hb; [done|].
  cbn [contains] in Hs. apply orb_false_elim in Hs as [Hs1 Hs2].
  cbn [sub_runs]. destruct (N.eqb_spec c underscore) as [->|Hc].
  - destruct b; [by specialize (Hb eq_refl)|].
    f_equal. apply IH; [done|]. intros _.
    change (startswith (underscore :: s) [underscore; underscore])
      with ((underscore =? underscore)%N && startswith s [underscore]) in Hs1.
    by destruct (startswith s [underscore]).
  - f_equal. by apply IH.
Qed.

Lemma sub_outside_class_fixed (s : pystr) :
  Forall (fun c => in_class c = true) s -> sub_outside_class s = s.
Proof.
  unfold sub_outside_class. induction 1 as [|c s Hc _ IH]; [done|].
  cbn [map]. by rewrite Hc, IH.
Qed.

Lemma in_class_no_dot (s : pystr) :
  Forall (fun c => in_class c = true) s -> rfind dot s = None.
Proof.
  intros Hs. apply rfind_none. induction Hs as [|c s Hc _ IH]; [done|].
  cbn [existsb]. rewrite IH, orb_false_r.
  destruct (N.eqb_spec dot c) as [<-|]; [done|done].
Qed.

(** The last dot of [b.e], for an extension [e] without a dot. *)
Lemma rfind_extension (b e : pystr) :
  existsb (N.eqb dot) e = false -> rfind dot (b ++ dot :: e) = Some (length b).
Proof.
  intros He. unfold rfind. rewrite rfind_from_app. cbn [rfind_from].
  rewrite N.eqb_refl. cbn [Nat.add].
  revert He. generalize (S (length b)) as i. generalize (length b) as k.
  induction e as [|d e IH]; intros k i He; [done|].
  cbn [existsb] in He. apply orb_false_elim in He as [Hd He].
  cbn [rfind_from]. rewrite N.eqb_sym, Hd. by apply IH.
Qed.

Lemma ascii_lower_in_class (s : pystr) :
  Forall (fun c => in_class c = true) s -> Demo.ascii_lower s = s.
Proof.
  unfold Demo.ascii_lower. induction 1 as [|c s Hc _ IH]; [done|].
  cbn [map]. rewrite IH. f_equal.
  unfold in_class in Hc.
  destruct (N.leb_spec 65 c), (N.leb_spec c 90); cbn [andb]; try done.
  repeat match type of Hc with
         | context [(?a <=? ?b)%N] => destruct (N.leb_spec a b); try lia
         | context [(?a =? ?b)%N] => destruct (N.eqb_spec a b); try lia
         end; done.
Qed.

Section SanitizeMore.

Context {X : externals}.

(** X1. [_sanitize_filename]: the result never holds two underscores in a
    row, whatever the file name. *)
Theorem sanitize_no_double_underscore (filename : pystr) :
  contains (_sanitize_filename filename) (str "__") = false.
Proof.
  unfold _sanitize_filename. apply contains_take. apply sub_runs_no_double.
Qed.

(** X2. [_sanitize_filename] is idempotent: a sanitized name is its own
    sanitized name, given that [str.lower] leaves the characters of
    [[a-z0-9_-]] alone. *)
Theorem sanitize_idempotent (filename : pystr) :
  (forall s, Forall (fun c => in_class c = true) s -> str_lower s = s) ->
  _sanitize_filename (_sanitize_filename filename) = _sanitize_filename filename.
Proof.
  intros Hlower.
  pose proof (sanitize_in_class filename) as Hclass.
  pose proof (sanitize_length filename) as Hlen.
  assert (Hdouble : contains (_sanitize_filename filename) [underscore; underscore] = false).
  { unfold _sanitize_filename. apply contains_take. apply sub_runs_no_double. }
  set (base := _sanitize_filename filename) in *.
  unfold _sanitize_filename at 1.
  rewrite (in_class_no_dot base Hclass), (Hlower base Hclass),
    (sub_outside_class_fixed base Hclass).
  unfold sub_underscore_runs. rewrite sub_runs_fixed; [|exact Hdouble|done].
  apply take_ge. lia.
Qed.

(** X3. [_sanitize_filename] does not look at the extension: two names that
    differ only after the last dot get the same base, and so compete
    for the same candidates of the centralized folder. *)
Theorem sanitize_ignores_extension (b e e' : pystr) :
  existsb (N.eqb dot) e = false ->
  existsb (N.eqb dot) e' = false ->
  _sanitize_filename (b ++ dot :: e) = _sanitize_filename (b ++ dot :: e').
Proof.
  intros He He'. unfold _sanitize_filename.
  rewrite !rfind_extension by done. by rewrite !take_app_length.
Qed.

End SanitizeMore.

Lemma sanitize_idempotent_witness :
  @_sanitize_filename Demo.demo_externals
    (@_sanitize_filename Demo.demo_externals (str "My  Report (v2).PDF"))
  = @_sanitize_filename Demo.demo_externals (str "My  Report (v2).PDF").
Proof.
  exact (@sanitize_idempotent Demo.demo_externals (str "My  Report (v2).PDF")
           ascii_lower_in_class).
Defined.

Lemma sanitize_ignores_extension_witness :
  @_sanitize_filename Demo.demo_externals (str "report.pdf")
  = @_sanitize_filename Demo.demo_externals (str "report.docx").
Proof.
  exact (@sanitize_ignores_extension Demo.demo_externals (str "report") (str "pdf")
           (str "docx") eq_refl eq_refl).
Defined.

(** ** Discovery and file types *)

Lemma startswith_elim (p s : pystr) :
  startswith s p = true -> exists rest, s = p ++ rest.
Proof.
  revert s. induction p as [|c p IH]; intros s; [by exists s|].
  destruct s as [|d s]; [done|]. cbn [startswith].
  intros [Hc H]%andb_prop. apply N.eqb_eq in Hc as ->.
  destruct (IH _ H) as [rest ->]. by exists rest.
Qed.

Lemma endswith_elim (p s : pystr) :
  endswith s p = true -> exists pre, s = pre ++ p.
Proof.
  unfold endswith. intros [rest H]%startswith_elim. exists (rev rest).
  by rewrite <- (rev_involutive s), H, rev_app_distr, rev_involutive.
Qed.

(** Two endings of one text: one of them is an ending of the other. *)
Lemma startswith_both (a : pystr) : forall b s,
  startswith s a = true -> startswith s b = true ->
  startswith a b = true \/ startswith b a = true.
Proof.
  induction a as [|c a IH]; intros b s Ha Hb; [by right|].
  destruct b as [|d b]; [by left|].
  destruct s as [|x s]; [done|]. cbn [startswith] in *.
  apply andb_prop in Ha as [Hc Ha]. apply andb_prop in Hb as [Hd Hb].
  apply N.eqb_eq in Hc as ->. apply N.eqb_eq in Hd as ->.
  rewrite N.eqb_refl. cbn [andb]. by apply (IH b s).
Qed.

Lemma endswith_both (a b s : pystr) :
  endswith s a = true -> endswith s b = true ->
  endswith a b = true \/ endswith b a = true.
Proof. unfold endswith. apply startswith_both. Qed.

(** No supported extension is the ending of another one, so a name
    matches at most one of the glob patterns. *)
Lemma supported_extensions_apart (a b : pystr) :
  a ∈ supported_extensions -> b ∈ supported_extensions ->
  endswith a b = true -> a = b.
Proof.
  assert (H : forallb (fun a => forallb (fun b => bool_decide (a = b) || negb (endswith a b))
                                  supported_extensions) supported_extensions = true)
    by (vm_compute; reflexivity).
  intros Ha Hb Hab. rewrite forallb_forall in H.
  specialize (H a (proj1 (list_elem_of_In _ _) Ha)). rewrite forallb_forall in H.
  specialize (H b (proj1 (list_elem_of_In _ _) Hb)).
  rewrite Hab in H. cbn [negb] in H. rewrite orb_false_r in H.
  by apply bool_decide_eq_true in H.
Qed.

Lemma supported_extensions_NoDup : NoDup supported_extensions.
Proof. apply (bool_decide_unpack _). by vm_compute. Qed.

(** Every supported extension is a dot followed by at least one
    character, none of which is a dot. *)
Lemma supported_extensions_shape (ext : pystr) :
  ext ∈ supported_extensions ->
  exists c e, ext = dot :: c :: e /\ existsb (N.eqb dot) (c :: e) = false.
Proof.
  assert (H : forallb (fun ext => match ext with
                                  | d :: c :: e => (d =? dot)%N && negb (existsb (N.eqb dot) (c :: e))
                                  | _ => false
                                  end) supported_extensions = true)
    by (vm_compute; reflexivity).
  intros Hext. rewrite forallb_forall in H.
  specialize (H ext (proj1 (list_elem_of_In _ _) Hext)).
  destruct ext as [|d [|c e]]; [done|done|].
  apply andb_prop in H as [Hd He]. apply N.eqb_eq in Hd as ->.
  exists c, e. split; [done|]. by apply negb_true_iff.
Qed.

Lemma insert_sorted_Permutation (p : path) (l : list path) :
  insert_sorted p l ≡ₚ p :: l.
Proof.
  induction l as [|q l IH]; [done|]. cbn [insert_sorted].
  destruct (path_leb q p); [|done]. rewrite IH. apply Permutation_swap.
Qed.

Lemma sorted_Permutation (l : list path) : sorted l ≡ₚ l.
Proof.
  unfold sorted.
  assert (H : forall acc, fold_left (fun acc p => insert_sorted p acc) l acc ≡ₚ l ++ acc).
  { induction l as [|p l IH]; intros acc; [done|].
    cbn [fold_left]. rewrite IH, insert_sorted_Permutation.
    by rewrite <- Permutation_middle. }
  by rewrite H, app_nil_r.
Qed.

Lemma map_fmap {A B} (f : A -> B) (l : list A) : map f l = f <$> l.
Proof. induction l as [|a l IH]; [done|]. simpl. by rewrite IH. Qed.

Lemma iterdir_NoDup (fs : gmap path node) (d : path) : NoDup (iterdir fs d).
Proof.
  unfold iterdir. apply NoDup_filter. rewrite map_fmap. apply NoDup_fst_map_to_list.
Qed.

Lemma elem_of_glob_suffix (fs : gmap path node) (d : path) (ext : pystr) (p : path) :
  p ∈ glob_suffix fs d ext <-> p ∈ iterdir fs d /\ endswith (name p) ext = true.
Proof.
  unfold glob_suffix. rewrite list_elem_of_filter.
  split; intros [H1 H2]; split.
  - done.
  - by apply Is_true_eq_true.
  - by apply Is_true_eq_left.
  - done.
Qed.

Lemma elem_of_flat_map {A B} (f : A -> list B) (l : list A) (b : B) :
  b ∈ flat_map f l <-> exists a, a ∈ l /\ b ∈ f a.
Proof.
  rewrite list_elem_of_In, in_flat_map.
  split; intros (a & Ha & Hb); exists a; by rewrite ?list_elem_of_In in *.
Qed.

Lemma flat_map_nested {A B C} (f : A -> list B) (g : B -> list C) (l : list A) :
  flat_map (fun a => flat_map g (f a)) l = flat_map g (flat_map f l).
Proof.
  induction l as [|a l IH]; [done|]. cbn [flat_map]. by rewrite flat_map_app, IH.
Qed.

(** Globbing for extensions that are no endings of each other lists
    every entry at most once. *)
Lemma glob_all_NoDup (fs : gmap path node) (d : path) (exts : list pystr) :
  NoDup exts ->
  (forall a b n, a ∈ exts -> b ∈ exts ->
     endswith n a = true -> endswith n b = true -> a = b) ->
  NoDup (flat_map (glob_suffix fs d) exts).
Proof.
  induction 1 as [|a exts Ha Hexts IH]; intros Hapart; [constructor|].
  cbn [flat_map]. apply NoDup_app. split; [|split].
  - unfold glob_suffix. apply NoDup_filter, iterdir_NoDup.
  - intros p [_ Hpa]%elem_of_glob_suffix (b & Hb & [_ Hpb]%elem_of_glob_suffix)%elem_of_flat_map.
    apply Ha. rewrite (Hapart a b (name p)); [done|by left|by right|done|done].
  - apply IH. intros x y n Hx Hy. apply Hapart; by right.
Qed.

Lemma suffix_of_extension (p : path) (pre : pystr) (c : N) (e : pystr) :
  name p = pre ++ dot :: c :: e -> pre <> [] ->
  existsb (N.eqb dot) (c :: e) = false ->
  suffix p = dot :: c :: e.
Proof.
  intros Hname Hpre He. unfold suffix. rewrite Hname, rfind_extension by done.
  rewrite length_app. cbn [length].
  replace (0 <? length pre) with true
    by (symmetry; apply Nat.ltb_lt; destruct pre; [done|simpl; lia]).
  replace (length pre <? length pre + S (S (length e)) - 1) with true
    by (symmetry; apply Nat.ltb_lt; lia).
  cbn [andb]. by rewrite drop_app_length.
Qed.

(** A name that is nothing but an extension has no suffix for pathlib. *)
Lemma suffix_of_bare_extension (p : path) (c : N) (e : pystr) :
  name p = dot :: c :: e -> existsb (N.eqb dot) (c :: e) = false -> suffix p = [].
Proof.
  intros Hname He. unfold suffix. rewrite Hname.
  pose proof (rfind_extension [] (c :: e) He) as Hr. cbn [app length] in Hr.
  rewrite Hr. reflexivity.
Qed.

Section Discovery.

Context {X : externals} {self : processor}.

Lemma discover_run (w : world) :
  _discover_intake_files w
  = (inr (sorted (flat_map (glob_suffix (files w) intake_path) supported_extensions)), w).
Proof.
  unfold _discover_intake_files, bind, get_files, ret, supported_extensions.
  by rewrite <- flat_map_nested.
Qed.

(** X4. [_discover_intake_files]: although it globs twenty times, every
    entry of the intake folder whose name ends with a supported
    extension is listed, each one once, and nothing else is. *)
Theorem discover_each_file_once (w : world) :
  exists all_files,
    _discover_intake_files w = (inr all_files, w)
    /\ NoDup all_files
    /\ forall p, p ∈ all_files <->
         p ∈ iterdir (files w) intake_path /\ supported_name (name p) = true.
Proof.
  eexists. split; [apply discover_run|]. split.
  - rewrite sorted_Permutation. apply glob_all_NoDup; [apply supported_extensions_NoDup|].
    intros a b n Ha Hb Hna Hnb.
    destruct (endswith_both a b n Hna Hnb) as [H|H].
    + by apply supported_extensions_apart.
    + symmetry. by apply supported_extensions_apart.
  - intros p. rewrite sorted_Permutation, elem_of_flat_map. unfold supported_name. split.
    + intros (ext & Hext & [Hp Hend]%elem_of_glob_suffix). split; [done|].
      apply existsb_exists. exists ext. by rewrite <- list_elem_of_In.
    + intros [Hp (ext & Hext & Hend)%existsb_exists]. exists ext.
      rewrite list_elem_of_In, elem_of_glob_suffix. done.
Qed.

Lemma detect_file_type_of_extension (p : path) (ext : pystr) :
  ext ∈ supported_extensions -> str_lower (suffix p) = ext ->
  exists file_type exts,
    (file_type, exts) ∈ SUPPORTED_FILE_TYPES /\ ext ∈ exts
    /\ _detect_file_type p = file_type.
Proof.
  intros Hext Hlow. unfold _detect_file_type. rewrite Hlow.
  destruct (find _ SUPPORTED_FILE_TYPES) as [[file_type exts]|] eqn:Hfind.
  - apply find_some in Hfind as [Hin Hmem]. exists file_type, exts.
    split; [by apply list_elem_of_In|]. split; [|done].
    by apply bool_decide_eq_true in Hmem.
  - exfalso. unfold supported_extensions in Hext.
    apply elem_of_flat_map in Hext as (entry & Hentry & Hin).
    apply list_elem_of_In in Hentry.
    apply (find_none _ _ Hfind) in Hentry.
    by apply bool_decide_eq_false in Hentry.
Qed.

Lemma supported_types_handled (file_type : pystr) (exts : list pystr) :
  (file_type, exts) ∈ SUPPORTED_FILE_TYPES ->
  exists handler, (file_type, handler) ∈ handlers /\ handlers_get file_type = handler.
Proof.
  intros H. unfold SUPPORTED_FILE_TYPES in H.
  repeat (apply elem_of_cons in H as [H|H]; [injection H as -> _|]);
    [..|by apply elem_of_nil in H];
    (eexists; split; [|reflexivity]);
    unfold handlers; repeat first [apply list_elem_of_here | apply list_elem_of_further].
Qed.

(** X5. Discovery and typing agree, up to case: a discovered file whose
    name is more than an extension has the extension that the glob
    matched as its suffix, the file type of that extension, and a
    handler of its own in the router's table. *)
Theorem discovered_files_have_a_handler (w : world) (all_files : list path) (p : path) :
  (forall ext, ext ∈ supported_extensions -> str_lower ext = ext) ->
  _discover_intake_files w = (inr all_files, w) ->
  p ∈ all_files ->
  name p ∉ supported_extensions ->
  exists file_type exts handler,
    (file_type, exts) ∈ SUPPORTED_FILE_TYPES
    /\ suffix p ∈ exts
    /\ _detect_file_type p = file_type
    /\ (file_type, handler) ∈ handlers
    /\ handlers_get file_type = handler.
Proof.
  intros Hlower Hd Hp Hname.
  assert (Hall : all_files
                 = sorted (flat_map (glob_suffix (files w) intake_path) supported_extensions))
    by (rewrite discover_run in Hd; congruence).
  subst all_files. clear Hd. rewrite sorted_Permutation in Hp.
  apply elem_of_flat_map in Hp as (ext & Hext & [_ Hend]%elem_of_glob_suffix).
  destruct (endswith_elim _ _ Hend) as [pre Hpre].
  destruct (supported_extensions_shape ext Hext) as (c & e & -> & He).
  assert (Hne : pre <> []) by (intros ->; apply Hname; by rewrite Hpre).
  pose proof (suffix_of_extension p pre c e Hpre Hne He) as Hsuffix.
  destruct (detect_file_type_of_extension p (dot :: c :: e) Hext) as (t & exts & Hin & Hmem & Ht).
  { rewrite Hsuffix. by apply Hlower. }
  destruct (supported_types_handled t exts Hin) as (h & Hh & Hget).
  exists t, exts, h. by rewrite Hsuffix.
Qed.

(** X6. A file whose whole name is a supported extension, such as [.pdf],
    is discovered all the same, but pathlib gives it no suffix: its
    type is ["unsupported"] and the router hands it to
    [_extract_unsupported]. *)
Theorem extension_only_name_is_unsupported (w : world) (ext : pystr) :
  str_lower [] = [] ->
  ext ∈ supported_extensions ->
  is_Some (files w !! (intake_path ++ [ext])) ->
  (exists all_files, _discover_intake_files w = (inr all_files, w)
                     /\ intake_path ++ [ext] ∈ all_files)
  /\ _detect_file_type (intake_path ++ [ext]) = str "unsupported"
  /\ handlers_get (_detect_file_type (intake_path ++ [ext])) = _extract_unsupported.
Proof.
  intros Hlower Hext [n Hn].
  destruct (supported_extensions_shape ext Hext) as (c & e & -> & He).
  assert (Htype : _detect_file_type (intake_path ++ [dot :: c :: e]) = str "unsupported").
  { unfold _detect_file_type.
    rewrite (suffix_of_bare_extension _ c e (name_snoc _ _) He), Hlower. reflexivity. }
  split; [|split; [done|by rewrite Htype]].
  eexists. split; [apply discover_run|].
  rewrite sorted_Permutation, elem_of_flat_map. exists (dot :: c :: e).
  split; [done|]. apply elem_of_glob_suffix. split.
  - unfold iterdir. apply list_elem_of_filter. split.
    + rewrite parent_snoc. apply Is_true_eq_left.
      rewrite !bool_decide_eq_true_2; [done|done|by destruct intake_path].
    + rewrite map_fmap. apply list_elem_of_fmap. exists (intake_path ++ [dot :: c :: e], n).
      split; [done|]. by apply elem_of_map_to_list.
  - rewrite name_snoc. apply (endswith_app []).
Qed.

End Discovery.

(** Closing an equation between closed terms by evaluation. *)
Ltac vm_refl :=
  lazymatch goal with
  | |- @eq ?T ?a ?b => vm_cast_no_check (@eq_refl T b)
  end.

Lemma ascii_lower_supported_extensions (ext : pystr) :
  ext ∈ supported_extensions -> Demo.ascii_lower ext = ext.
Proof.
  assert (H : forallb (fun ext => bool_decide (Demo.ascii_lower ext = ext))
                      supported_extensions = true) by (vm_compute; reflexivity).
  intros Hext. rewrite forallb_forall in H.
  specialize (H ext (proj1 (list_elem_of_In _ _) Hext)).
  by apply bool_decide_eq_true in H.
Qed.

Lemma discovered_files_have_a_handler_witness :
  exists file_type exts handler,
    (file_type, exts) ∈ SUPPORTED_FILE_TYPES
    /\ suffix (Demo.intake ++ [str "c.csv"]) ∈ exts
    /\ @_detect_file_type Demo.demo_externals (Demo.intake ++ [str "c.csv"]) = file_type
    /\ (file_type, handler) ∈ @handlers Demo.demo_externals Demo.demo_processor
    /\ @handlers_get Demo.demo_externals Demo.demo_processor file_type = handler.
Proof.
  apply (@discovered_files_have_a_handler Demo.demo_externals Demo.demo_processor
           (Demo.world_of Demo.five_case)
           (map (fun n => Demo.intake ++ [n])
                [str "a.pdf"; str "b.pdf"; str "c.csv"; str "d.txt"; str "e.mp3"])).
  - apply ascii_lower_supported_extensions.
  - vm_refl.
  - cbn [map]. do 2 apply list_elem_of_further. apply list_elem_of_here.
  - apply (bool_decide_unpack _). vm_compute. reflexivity.
Defined.

Lemma extension_only_name_is_unsupported_witness :
  (exists all_files,
     @_discover_intake_files Demo.demo_processor (Demo.world_of Cases.bare_extension_case)
     = (inr all_files, Demo.world_of Cases.bare_extension_case)
     /\ Demo.intake ++ [str ".pdf"] ∈ all_files)
  /\ @_detect_file_type Demo.demo_externals (Demo.intake ++ [str ".pdf"]) = str "unsupported"
  /\ @handlers_get Demo.demo_externals Demo.demo_processor
       (@_detect_file_type Demo.demo_externals (Demo.intake ++ [str ".pdf"]))
     = _extract_unsupported.
Proof.
  apply (@extension_only_name_is_unsupported Demo.demo_externals Demo.demo_processor
           (Demo.world_of Cases.bare_extension_case) (str ".pdf")).
  - reflexivity.
  - apply list_elem_of_here.
  - exists (File None). vm_compute. reflexivity.
Defined.

(** ** Phase 2 and the two summary workers *)

Section SummariesMore.

Context {X : externals} {W : workspace}.

Lemma static_worker_result (fs : gmap path node) (script : nat -> cli_result)
    (d : doc_record) :
  fst (_generate_summary_worker_static fs script d) = summary_success d
  \/ exists e, fst (_generate_summary_worker_static fs script d) = summary_failure d e.
Proof.
  unfold _generate_summary_worker_static.
  destruct (locate_text fs d) as [e|t]; [right; by eexists|].
  destruct (doc_folder d) as [folder|]; [|right; by eexists].
  destruct (prompt_paths t (summary_file folder)) as [e|paths]; [right; by eexists|].
  destruct (script 0) as [rc stderr out| |e]; [|right; by eexists..].
  destruct (negb (rc =? 0)%Z); [right; by eexists|by left].
Qed.

(** X7. [phase_2_summarize_all]: as soon as one summary fails, the phase
    raises [KeyError('pdf_path')] while it logs the failure, because no
    result of the worker has that key; only when every summary succeeds
    does it return, and then one result for each document. *)
Theorem phase_2_raises_on_failed_summary (fs : gmap path node)
    (scripts : doc_record -> nat -> cli_result) (extracted_docs : list doc_record) :
  (Exists (fun d => success (fst (_generate_summary_worker_static fs (scripts d) d)) = false)
          extracted_docs ->
   fst (phase_2_summarize_all fs scripts extracted_docs) = inl (KeyError (str "pdf_path")))
  /\ (Forall (fun d => success (fst (_generate_summary_worker_static fs (scripts d) d)) = true)
             extracted_docs ->
      fst (phase_2_summarize_all fs scripts extracted_docs)
      = inr (map summary_success extracted_docs)).
Proof.
  split.
  - intros Hex. unfold phase_2_summarize_all.
    destruct extracted_docs as [|d0 rest]; [by apply Exists_nil in Hex|].
    set (docs := d0 :: rest) in *. clearbody docs. rewrite map_map.
    destruct (find _ _) as [r|] eqn:Hfind; [done|]. exfalso.
    apply Exists_exists in Hex as (d & Hd & Hfail).
    destruct (static_worker_result fs (scripts d) d) as [Hr|[e Hr]];
      [rewrite Hr in Hfail; done|].
    assert (Hin : In (summary_failure d e)
                     (List.filter (fun r => negb (success r))
                        (map (fun x => fst (_generate_summary_worker_static fs (scripts x) x))
                             docs))); [|by pose proof (find_none _ _ Hfind _ Hin)].
    apply filter_In. split; [|done]. rewrite <- Hr.
    apply in_map_iff. exists d. split; [done|]. by apply list_elem_of_In.
  - intros Hall. unfold phase_2_summarize_all.
    destruct extracted_docs as [|d0 rest]; [done|].
    set (docs := d0 :: rest) in *. clearbody docs. rewrite map_map.
    assert (Hres : map (fun d => fst (_generate_summary_worker_static fs (scripts d) d)) docs
                   = map summary_success docs).
    { induction Hall as [|d docs Hd _ IH]; [done|]. cbn [map]. rewrite IH. f_equal.
      destruct (static_worker_result fs (scripts d) d) as [Hr|[e Hr]]; [done|].
      rewrite Hr in Hd. done. }
    rewrite Hres.
    assert (Hfailed : List.filter (fun r => negb (success r)) (map summary_success docs) = []).
    { clear. induction docs as [|d docs IH]; [done|]. exact IH. }
    assert (Hok : List.filter (fun r => success r) (map summary_success docs)
                  = map summary_success docs).
    { clear. induction docs as [|d docs IH]; [done|]. cbn [map List.filter success summary_success].
      by rewrite IH. }
    by rewrite Hfailed, Hok.
Qed.

(** X8. The worker of the pool trusts the exit code; the retrying generator
    also wants the output file. For a document whose text is found and
    whose two prompt paths lie below the workspace root: when the
    command line exits with code 0 without writing
    [document_summary.json], the first reports a success and the second
    a failure, after a single call. *)
Theorem static_worker_trusts_exit_code (backend : pystr) (fs : gmap path node)
    (script : nat -> cli_result) (doc_info : doc_record) (text_file folder : path)
    (paths : path * path) (stderr : pystr) :
  locate_text fs doc_info = inr text_file ->
  doc_folder doc_info = Some folder ->
  prompt_paths text_file (summary_file folder) = inr paths ->
  script 0 = Completed 0 stderr false ->
  _generate_summary_worker_static fs script doc_info = (summary_success doc_info, [Run 120])
  /\ _generate_summary_worker None backend fs script doc_info
     = (summary_failure doc_info (Exception (str "Gemini did not create output file")),
        [Run 90]).
Proof.
  intros Hloc Hfolder Hpaths Hrun. split.
  - unfold _generate_summary_worker_static. by rewrite Hloc, Hfolder, Hpaths, Hrun.
  - unfold _generate_summary_worker, _generate_summary_sync.
    rewrite Hloc, Hfolder, Hpaths.
    assert (Hnone : bool_decide (is_Some (@None (exn + bool))) = false).
    { apply bool_decide_eq_false_2. by intros [? ?]. }
    rewrite Hnone. cbn [andb seq cli_retry_loop app]. by rewrite Hrun.
Qed.

End SummariesMore.

Lemma static_worker_trusts_exit_code_witness :
  @_generate_summary_worker_static Demo.demo_externals Demo.demo_workspace
     Demo.notice_extracted_case Cases.ok_without_output Demo.extracted_notice
  = (@summary_success Demo.extracted_notice, [Run 120])
  /\ @_generate_summary_worker Demo.demo_externals Demo.demo_workspace None (str "cli")
       Demo.notice_extracted_case Cases.ok_without_output Demo.extracted_notice
     = (@summary_failure Demo.extracted_notice
          (Exception (str "Gemini did not create output file")), [Run 90]).
Proof.
  apply (@static_worker_trusts_exit_code Demo.demo_externals Demo.demo_workspace (str "cli")
           Demo.notice_extracted_case Cases.ok_without_output Demo.extracted_notice
           (Demo.documents ++ [str "notice"; str "full_text_extraction.txt"])
           (Demo.documents ++ [str "notice"])
           (Demo.documents ++ [str "notice"; str "full_text_extraction.txt"],
            Demo.documents ++ [str "notice"; str "document_summary.json"]) []).
  - vm_compute. reflexivity.
  - reflexivity.
  - vm_compute. reflexivity.
  - reflexivity.
Defined.

(** ** Phase 1.5 *)

Section Exhibits.

Context {X : externals} {self : processor}.

Lemma exhibits_of_document_keeps (doc_meta : doc_record) (w : world) :
  match exhibits_of_document doc_meta w with
  | (inr (exhibits, doc_meta'), w') =>
      doc_folder doc_meta' = doc_folder doc_meta
      /\ file_ref doc_meta' = file_ref doc_meta
      /\ success doc_meta' = success doc_meta
      /\ doc_type doc_meta' = doc_type doc_meta
  | (inl e, w') =>
      e = KeyError (str "doc_folder") /\ doc_folder doc_meta = None
  end.
Proof.
  unfold exhibits_of_document.
  destruct (doc_folder doc_meta) as [folder|] eqn:Hfolder; [|done].
  unfold bind, get_files, ret.
  destruct (_ || _); [by rewrite Hfolder|].
  destruct (negb _); [by rewrite Hfolder|].
  unfold log_call. destruct (extract_exhibits doc_meta) as [e|[|x exhibits]];
    by rewrite ?Hfolder.
Qed.

Lemma exhibits_loop_keeps (extracted_docs : list doc_record) : forall (w : world),
  match exhibits_loop extracted_docs w with
  | (inr (all_exhibits, docs'), w') =>
      doc_refs docs' = doc_refs extracted_docs
      /\ map success docs' = map success extracted_docs
      /\ map doc_type docs' = map doc_type extracted_docs
  | (inl e, w') =>
      e = KeyError (str "doc_folder")
      /\ Exists (fun d => doc_folder d = None) extracted_docs
  end.
Proof.
  induction extracted_docs as [|d docs IH]; intros w; [done|].
  cbn [exhibits_loop]. unfold bind at 1.
  pose proof (exhibits_of_document_keeps d w) as Hd.
  destruct (exhibits_of_document d w) as [[e|[ex d']] w1].
  - destruct Hd as (-> & Hnone). split; [done|]. by left.
  - destruct Hd as (Hfolder & Href & Hsucc & Htype).
    unfold bind at 1. specialize (IH w1).
    destruct (exhibits_loop docs w1) as [[e|[exs docs']] w2].
    + destruct IH as (-> & Hex). split; [done|]. by right.
    + destruct IH as (Hrefs & Hsuccs & Htypes). unfold ret. cbn [fst snd].
      unfold doc_refs in *. cbn [map]. rewrite Hrefs, Hsuccs, Htypes, Hfolder, Href, Hsucc, Htype.
      repeat split; congruence.
Qed.

(** X9. [phase_1_5_extract_exhibits] never adds, drops or reorders a
    document: whenever it returns, the list it leaves has the same
    folders, source files, types and success flags as the list it was
    given (only the exhibit keys of a dict are set). When exhibit
    extraction is disabled or the extractor is missing it returns no
    exhibit and leaves every dict as it was. *)
Theorem exhibit_phase_keeps_documents (extracted_docs : list doc_record) (w : world) :
  (forall all_exhibits docs' w',
     phase_1_5_extract_exhibits extracted_docs w = (inr (all_exhibits, docs'), w') ->
     doc_refs docs' = doc_refs extracted_docs
     /\ map success docs' = map success extracted_docs
     /\ map doc_type docs' = map doc_type extracted_docs)
  /\ (exhibit_enabled && EXHIBIT_EXTRACTOR_AVAILABLE = false ->
      fst (phase_1_5_extract_exhibits extracted_docs w) = inr ([], extracted_docs)).
Proof.
  unfold phase_1_5_extract_exhibits. split.
  - intros all_exhibits docs' w'.
    destruct EXHIBIT_EXTRACTOR_AVAILABLE; cbn [negb]; [|by intros [= <- <- <-]].
    destruct exhibit_enabled; cbn [negb]; [|by intros [= <- <- <-]].
    pose proof (exhibits_loop_keeps extracted_docs w) as H. intros Hrun.
    rewrite Hrun in H. exact H.
  - destruct EXHIBIT_EXTRACTOR_AVAILABLE; cbn [negb]; [|done].
    by destruct exhibit_enabled.
Qed.

End Exhibits.

(** ** The OCR handler *)

(** Writing a file directly inside an existing directory. *)
Lemma write_text_child (fs : gmap path node) (d : path) (c content : pystr) :
  is_dir fs d = true -> is_dir fs (d ++ [c]) = false ->
  write_text_fs fs (d ++ [c]) content = inr (<[d ++ [c] := File (Some content)]> fs).
Proof.
  intros Hd Hc. unfold write_text_fs. rewrite parent_snoc.
  unfold is_dir in Hd, Hc. rewrite lookup_node_snoc in Hc.
  destruct (lookup_node fs d) as [[|?]|]; [|done|done].
  destruct (d ++ [c]) as [|x r] eqn:Hp; [by destruct d|].
  by destruct (fs !! (x :: r)) as [[|?]|].
Qed.

Section OcrHandler.

Context {X : externals} {self : processor}.

Lemma full_text_not_a_folder (doc_folder : path) :
  full_text_file doc_folder <> documents_folder
  /\ full_text_file doc_folder <> fte_folder.
Proof.
  rewrite full_text_file_snoc, fte_folder_snoc, documents_folder_snoc.
  split; intros H; apply app_inj_tail in H as [_ H]; discriminate.
Qed.

(** X10. [_extract_mistral_ocr], when the service answers: the text with
    its page markers is written twice, to [full_text_extraction.txt] in
    the folder of the document and to a new path of the centralized
    folder, and both files hold the same text; the service is called
    once. (The plaintext handler writes the second file only.) *)
Theorem ocr_text_saved_twice (w : world) (file_path doc_folder : path)
    (pages : list pystr) :
  is_dir (files w) documents_folder = true ->
  is_file (files w) fte_folder = false ->
  is_file (files w) file_path = true ->
  is_dir (files w) doc_folder = true ->
  is_dir (files w) (full_text_file doc_folder) = false ->
  ocr_process file_path = inr pages ->
  exists (r : doc_record) (cp : path) (w' : world),
    _extract_mistral_ocr file_path doc_folder w = (inr r, w')
    /\ success r = true
    /\ text_extracted r = Some true
    /\ centralized_copy r = Some cp
    /\ parent cp = fte_folder
    /\ files w !! cp = None
    /\ files w' !! full_text_file doc_folder
       = Some (File (Some (Pages.reassemble_pages pages)))
    /\ files w' !! cp = Some (File (Some (Pages.reassemble_pages pages)))
    /\ calls w' = calls w ++ [CallMistralOCR file_path].
Proof.
  intros Hdocs Hfte Hfile Hfolder Hft Hocr.
  set (text := Pages.reassemble_pages pages).
  set (ft := full_text_file doc_folder) in *.
  set (fs1 := <[ft := File (Some text)]> (files w)).
  set (w1 := {| files := fs1; calls := calls w ++ [CallMistralOCR file_path] |}).
  set (base := _sanitize_filename (name file_path)).
  destruct (full_text_not_a_folder doc_folder) as [Hne1 Hne2]. fold ft in Hne1, Hne2.
  destruct (free_path_loop_returns fs1 fte_folder base) as (k & _ & Hfree & Hbelow).
  set (cp := fte_folder ++ [candidate base (str ".txt") k]) in *.
  assert (Hcp : cp <> ft).
  { intros ->. unfold fs1 in Hfree. by rewrite lookup_insert_eq in Hfree. }
  assert (Hdocs1 : is_dir (files w1) documents_folder = true).
  { unfold is_dir in *. rewrite documents_folder_snoc, lookup_node_snoc in *.
    cbn [files w1]. unfold fs1. rewrite lookup_insert_ne; [done|].
    by rewrite <- documents_folder_snoc. }
  assert (Hfte1 : is_file (files w1) fte_folder = false).
  { unfold is_file in *. rewrite fte_folder_snoc, lookup_node_snoc in *.
    cbn [files w1]. unfold fs1. rewrite lookup_insert_ne; [done|].
    by rewrite <- fte_folder_snoc. }
  assert (Hstep : write_text ft text
                    {| files := files w; calls := calls w ++ [CallMistralOCR file_path] |}
                  = (inr tt, w1)).
  { unfold write_text, lift_fs. cbn [files calls]. unfold ft, w1, fs1, ft.
    rewrite full_text_file_snoc in *. by rewrite write_text_child. }
  exists (extraction_record file_path doc_folder (detect_document_type file_path)
            (str "mistral_ocr") true cp
            [ (str "page_count", MInt (length pages));
              (str "ocr_used", MBool true);
              (str "ocr_method", MStr (str "mistral"));
              (str "api_model", MStr (str "mistral-ocr-latest")) ]),
    cp, {| files := <[cp := File (Some text)]> (<[fte_folder := Dir]> fs1);
           calls := calls w ++ [CallMistralOCR file_path] |}.
  split; [|split; [done|split; [done|split; [done|split; [apply parent_snoc|split; [|split; [|split]]]]]]].
  - unfold _extract_mistral_ocr, extract_text_with_mistral, reraise, try_except, bind,
      open_rb, log_call, lift_result, ret.
    unfold is_file in Hfile.
    destruct (lookup_node (files w) file_path) as [[|data]|]; [done| |done].
    rewrite Hocr. fold text. fold ft. rewrite Hstep.
    by rewrite (write_centralized_copy_at (name file_path) text w1 k).
  - unfold fs1 in Hfree. by rewrite lookup_insert_ne in Hfree.
  - cbn [files]. rewrite !lookup_insert_ne by done. unfold fs1. apply lookup_insert_eq.
  - cbn [files]. apply lookup_insert_eq.
  - reflexivity.
Qed.

End OcrHandler.

Lemma ocr_text_saved_twice_witness :
  exists (r : doc_record) (cp : path) (w' : world),
    @_extract_mistral_ocr Demo.demo_externals Demo.demo_processor
      (Demo.documents ++ [str "notice"; str "notice.pdf"]) (Demo.documents ++ [str "notice"])
      (Demo.world_of Demo.notice_extracted_case) = (inr r, w')
    /\ success r = true
    /\ text_extracted r = Some true
    /\ centralized_copy r = Some cp
    /\ parent cp = @fte_folder Demo.demo_processor
    /\ files (Demo.world_of Demo.notice_extracted_case) !! cp = None
    /\ files w' !! @full_text_file (Demo.documents ++ [str "notice"])
       = Some (File (Some (Pages.reassemble_pages [str "A"; str "B"; str "C"])))
    /\ files w' !! cp = Some (File (Some (Pages.reassemble_pages [str "A"; str "B"; str "C"])))
    /\ calls w' = calls (Demo.world_of Demo.notice_extracted_case)
                  ++ [CallMistralOCR (Demo.documents ++ [str "notice"; str "notice.pdf"])].
Proof.
  apply (@ocr_text_saved_twice Demo.demo_externals Demo.demo_processor
           (Demo.world_of Demo.notice_extracted_case)
           (Demo.documents ++ [str "notice"; str "notice.pdf"])
           (Demo.documents ++ [str "notice"]) [str "A"; str "B"; str "C"]);
    vm_compute; reflexivity.
Defined.

(** ** The case folder *)

Lemma name_rev_cons (x : pystr) (r : path) : name (rev (x :: r)) = x.
Proof. cbn [rev]. apply name_snoc. Qed.

Lemma find_case_folder_snoc (fs : gmap path node) (p : path) (x : pystr) :
  _find_case_folder fs (p ++ [x])
  = if bool_decide (x = str "cases") then None
    else if looks_like_case_folder fs (p ++ [x]) then Some (p ++ [x])
    else _find_case_folder fs p.
Proof.
  unfold _find_case_folder. rewrite rev_app_distr. cbn [rev app find_case_folder_from].
  rewrite rev_involutive. by rewrite name_snoc.
Qed.

(** X11. [_find_case_folder]: the folder it returns is the intake path or
    one of its ancestors, passes the test of the loop (it holds an
    [Intake] entry, or its name starts with ["202"]), and is the nearest
    such folder; neither it nor anything between it and the intake path
    is named ["cases"]. *)
Theorem find_case_folder_nearest (fs : gmap path node) (intake_path case_folder : path) :
  _find_case_folder fs intake_path = Some case_folder ->
  exists rest,
    intake_path = case_folder ++ rest
    /\ case_folder <> []
    /\ looks_like_case_folder fs case_folder = true
    /\ Forall (fun c => c <> str "cases") (name case_folder :: rest)
    /\ forall rest1 rest2, rest = rest1 ++ rest2 -> rest1 <> [] ->
         looks_like_case_folder fs (case_folder ++ rest1) = false.
Proof.
  revert case_folder. induction intake_path as [|x p IH] using rev_ind; intros c; [done|].
  rewrite find_case_folder_snoc. case_bool_decide as Hx; [done|].
  destruct (looks_like_case_folder fs (p ++ [x])) eqn:Hlook.
  - intros [= <-]. exists []. rewrite app_nil_r, name_snoc.
    split; [done|]. split; [by destruct p|]. split; [done|]. split; [by constructor|].
    intros rest1 rest2 H. by destruct rest1.
  - intros (rest & -> & Hne & Hc & Hall & Hnear)%IH. exists (rest ++ [x]).
    rewrite app_assoc. split; [done|]. split; [done|]. split; [done|]. split.
    + rewrite app_comm_cons. apply Forall_app. split; [done|by constructor].
    + intros rest1 rest2 Hsplit Hne1.
      destruct rest2 as [|y rest2 _] using rev_ind.
      * rewrite app_nil_r in Hsplit. subst rest1. by rewrite app_assoc.
      * rewrite app_assoc in Hsplit. apply app_inj_tail in Hsplit as [Hsplit _].
        by apply (Hnear rest1 rest2).
Qed.

(** X12. The usual layout: for an existing folder [Intake] (without an
    [Intake] of its own) directly inside a folder that is not named
    ["cases"], that folder is the case folder. When the intake path is
    the single component [Intake], with no folder written before it,
    the loop ends at the current directory and no case folder is found
    (the method raises [ValueError]). *)
Theorem find_case_folder_of_intake (fs : gmap path node) (case_folder : path) :
  name case_folder <> str "cases" ->
  exists_ fs (case_folder ++ [str "Intake"]) = true ->
  exists_ fs ((case_folder ++ [str "Intake"]) ++ [str "Intake"]) = false ->
  _find_case_folder fs (case_folder ++ [str "Intake"])
  = if bool_decide (case_folder = []) then None else Some case_folder.
Proof.
  intros Hname Hintake Hnone.
  rewrite find_case_folder_snoc. rewrite bool_decide_eq_false_2 by discriminate.
  unfold looks_like_case_folder at 1. rewrite name_snoc, join_long by (simpl; lia).
  rewrite Hnone. cbn [orb]. change (startswith (str "Intake") (str "202")) with false.
  cbv iota.
  destruct case_folder as [|y q _] using rev_ind; [done|].
  rewrite bool_decide_eq_false_2 by (by destruct q).
  rewrite name_snoc in Hname.
  rewrite find_case_folder_snoc. rewrite bool_decide_eq_false_2 by done.
  unfold looks_like_case_folder. rewrite join_long by (simpl; lia).
  by rewrite Hintake.
Qed.

Lemma find_case_folder_nearest_witness :
  exists rest,
    Demo.intake = Demo.case ++ rest
    /\ Demo.case <> []
    /\ looks_like_case_folder Demo.empty_case Demo.case = true
    /\ Forall (fun c => c <> str "cases") (name Demo.case :: rest)
    /\ forall rest1 rest2, rest = rest1 ++ rest2 -> rest1 <> [] ->
         looks_like_case_folder Demo.empty_case (Demo.case ++ rest1) = false.
Proof.
  apply (find_case_folder_nearest Demo.empty_case Demo.intake Demo.case).
  vm_compute. reflexivity.
Defined.

Lemma find_case_folder_of_intake_witness :
  _find_case_folder Demo.empty_case (Demo.case ++ [str "Intake"]) = Some Demo.case
  /\ _find_case_folder (<[[str "Intake"] := Dir]> ∅) ([] ++ [str "Intake"]) = None.
Proof.
  split.
  - apply (find_case_folder_of_intake Demo.empty_case Demo.case).
    + discriminate.
    + vm_compute. reflexivity.
    + vm_compute. reflexivity.
  - apply (find_case_folder_of_intake (<[[str "Intake"] := Dir]> ∅) []).
    + discriminate.
    + vm_compute. reflexivity.
    + vm_compute. reflexivity.
Defined.

(** ** Resuming at Phase 3 *)

Section SynthesizeProps.

Context {self : processor}.

Variable json_loads : pystr -> exn + json_value.

Lemma load_summarized_step_spec (docs : list summarized_doc) (folder : path) (w : world) :
  match load_summarized_step json_loads docs folder w with
  | (inr docs', w') =>
      w' = w
      /\ (docs' = docs
          \/ exists d source rest,
               docs' = docs ++ [d]
               /\ source_files (files w) folder = source :: rest
               /\ exists_ (files w) (summary_file folder) = true
               /\ summarized d = summarized_record source folder)
  | (inl e, w') => w' = w
  end.
Proof.
  unfold load_summarized_step, bind, get_files.
  destruct (exists_ (files w) (summary_file folder)) eqn:Hsum; [|by split; [|left]].
  destruct (source_files (files w) folder) as [|source rest] eqn:Hsrc; [by split; [|left]|].
  unfold read_text, lift_result, ret.
  destruct (read_text_node _) as [e|content]; [done|].
  destruct (json_loads _) as [e|data]; [done|].
  destruct (dict_get data (str "ocr_used") _) as [e|u]; [done|].
  destruct (dict_get data (str "ocr_method") _) as [e|m]; [done|].
  split; [done|]. right. eexists _, source, rest. by repeat split.
Qed.

Lemma load_summarized_loop_spec (folders : list path) : forall docs w,
  match load_summarized_loop json_loads folders docs w with
  | (inr docs', w') =>
      w' = w
      /\ exists new,
           docs' = docs ++ new
           /\ Forall (fun d => exists folder source rest,
                        folder ∈ folders
                        /\ source_files (files w) folder = source :: rest
                        /\ exists_ (files w) (summary_file folder) = true
                        /\ summarized d = summarized_record source folder) new
  | (inl e, w') => w' = w
  end.
Proof.
  induction folders as [|folder folders IH]; intros docs w.
  - cbn. split; [done|]. exists []. by rewrite app_nil_r.
  - cbn [load_summarized_loop]. unfold bind.
    pose proof (load_summarized_step_spec docs folder w) as Hstep.
    destruct (load_summarized_step json_loads docs folder w) as [[e|docs1] w1]; [done|].
    destruct Hstep as [-> Hstep]. specialize (IH docs1 w).
    destruct (load_summarized_loop json_loads folders docs1 w) as [[e|docs2] w2]; [done|].
    destruct IH as (-> & new & -> & Hnew). split; [done|].
    assert (Hnew' : Forall (fun d => exists folder0 source rest,
                        folder0 ∈ folder :: folders
                        /\ source_files (files w) folder0 = source :: rest
                        /\ exists_ (files w) (summary_file folder0) = true
                        /\ summarized d = summarized_record source folder0) new).
    { eapply Forall_impl; [exact Hnew|]. intros d (f & s & r & Hf & H).
      exists f, s, r. split; [by right|done]. }
    destruct Hstep as [->|(d & source & rest & -> & Hsrc & Hsum & H)].
    + by exists new.
    + exists (d :: new). rewrite <- app_assoc. split; [done|].
      constructor; [|done]. exists folder, source, rest. split; [by left|done].
Qed.

Lemma load_summarized_run (w : world) :
  _load_summarized_documents json_loads w
  = load_summarized_loop json_loads (glob_dirs (files w) documents_folder) [] w.
Proof. reflexivity. Qed.

Lemma elem_of_source_files (fs : gmap path node) (folder source : path) :
  source ∈ source_files fs folder ->
  parent source = folder /\ is_file fs source = true
  /\ suffix source <> str ".json" /\ suffix source <> str ".txt".
Proof.
  unfold source_files, iterdir. rewrite !list_elem_of_filter.
  intros [Hp [Hdir _]].
  apply Is_true_eq_true in Hp, Hdir.
  apply andb_prop in Hp as [[Hfile Hjson]%andb_prop Htxt].
  apply andb_prop in Hdir as [_ Hparent].
  apply negb_true_iff, bool_decide_eq_false in Hjson, Htxt.
  by apply bool_decide_eq_true in Hparent.
Qed.

(** X13. Every record [_load_summarized_documents] returns stands for a
    directory of [documents/] that holds [document_summary.json]: its
    [file_path] is the first entry of that directory that is a file
    with a suffix other than [.json] and [.txt], its [doc_type] is the
    name of the directory. *)
Theorem loaded_summaries_have_a_source (w w' : world) (docs : list summarized_doc) :
  _load_summarized_documents json_loads w = (inr docs, w') ->
  Forall (fun d => exists folder source rest,
               folder ∈ glob_dirs (files w) documents_folder
               /\ exists_ (files w) (summary_file folder) = true
               /\ source_files (files w) folder = source :: rest
               /\ summarized d = summarized_record source folder
               /\ parent source = folder
               /\ is_file (files w) source = true
               /\ suffix source <> str ".json"
               /\ suffix source <> str ".txt") docs.
Proof.
  rewrite load_summarized_run.
  pose proof (load_summarized_loop_spec (glob_dirs (files w) documents_folder) [] w) as H.
  destruct (load_summarized_loop _ _ _ _) as [[e|docs'] w1]; [done|].
  destruct H as (-> & new & -> & Hnew). intros [= <- <-].
  eapply Forall_impl; [exact Hnew|]. cbv beta.
  intros d (folder & source & rest & Hfolder & Hsrc & Hsum & Hd).
  exists folder, source, rest. repeat (split; [done|]).
  apply elem_of_source_files. rewrite Hsrc. left.
Qed.

(** X14. A directory whose files all have the suffix [.txt] or [.json], as
    the folder of a plaintext note does after Phases 1 and 2, gives no
    record: Phase 3, when it is run on its own, does not see the note. *)
Theorem text_sources_are_not_loaded (w w' : world) (docs : list summarized_doc)
    (folder : path) :
  (forall f, f ∈ iterdir (files w) folder -> is_file (files w) f = true ->
     suffix f = str ".txt" \/ suffix f = str ".json") ->
  _load_summarized_documents json_loads w = (inr docs, w') ->
  Forall (fun d => doc_folder (summarized d) <> Some folder) docs.
Proof.
  intros Htext. rewrite load_summarized_run.
  pose proof (load_summarized_loop_spec (glob_dirs (files w) documents_folder) [] w) as H.
  destruct (load_summarized_loop _ _ _ _) as [[e|docs'] w1]; [done|].
  destruct H as (-> & new & -> & Hnew). intros [= <- <-].
  eapply Forall_impl; [exact Hnew|]. cbv beta.
  intros d (folder' & source & rest & _ & Hsrc & _ & Hd). rewrite Hd. cbn.
  intros [= ->].
  assert (Hin : source ∈ source_files (files w) folder) by (rewrite Hsrc; left).
  pose proof (elem_of_source_files _ _ _ Hin) as (_ & Hfile & Hjson & Htxt).
  unfold source_files in Hin. apply list_elem_of_filter in Hin as [_ Hin].
  destruct (Htext source Hin Hfile); done.
Qed.

(** X15. Nothing is caught in [_load_summarized_documents]: one summary that
    [json.loads] rejects, in a directory that has a source file, makes
    the whole load raise, whatever the other directories hold. *)
Theorem unreadable_summary_aborts_load (w : world) (folder : path) (content : pystr)
    (e : exn) :
  folder ∈ glob_dirs (files w) documents_folder ->
  exists_ (files w) (summary_file folder) = true ->
  source_files (files w) folder <> [] ->
  read_text_node (lookup_node (files w) (summary_file folder)) = inr content ->
  json_loads (strip_code_fences content) = inl e ->
  exists e', _load_summarized_documents json_loads w = (inl e', w).
Proof.
  intros Hfolder Hsum Hsrc Hread Hjson. rewrite load_summarized_run.
  generalize (@nil summarized_doc) as docs.
  induction (glob_dirs (files w) documents_folder) as [|d folders IH]; intros docs.
  - by apply elem_of_nil in Hfolder.
  - cbn [load_summarized_loop]. unfold bind.
    pose proof (load_summarized_step_spec docs d w) as Hstep.
    destruct (decide (d = folder)) as [->|Hne].
    + clear Hstep. unfold load_summarized_step, bind, get_files. rewrite Hsum.
      destruct (source_files (files w) folder) as [|source rest]; [done|].
      unfold read_text, lift_result. rewrite Hread, Hjson. by eexists.
    + destruct (load_summarized_step json_loads docs d w) as [[e1|docs1] w1].
      * subst w1. by eexists.
      * destruct Hstep as [-> _]. apply IH.
        apply elem_of_cons in Hfolder as [->|Hfolder]; done.
Qed.

End SynthesizeProps.

Lemma loaded_summaries_have_a_source_witness :
  Forall (fun d => exists folder source rest,
               folder ∈ glob_dirs SummaryCases.two_summarized_case
                          (@documents_folder Demo.demo_processor)
               /\ exists_ SummaryCases.two_summarized_case (summary_file folder) = true
               /\ source_files SummaryCases.two_summarized_case folder = source :: rest
               /\ summarized d = summarized_record source folder
               /\ parent source = folder
               /\ is_file SummaryCases.two_summarized_case source = true
               /\ suffix source <> str ".json"
               /\ suffix source <> str ".txt")
            [ {| summarized :=
                   summarized_record (Demo.documents ++ [str "notice"; str "notice.pdf"])
                                     (Demo.documents ++ [str "notice"]);
                 ocr_used := JBool false;
                 ocr_method := JString (str "unknown") |} ].
Proof.
  apply (@loaded_summaries_have_a_source Demo.demo_processor SummaryCases.json_loads_lite
           (Demo.world_of SummaryCases.two_summarized_case)
           (Demo.world_of SummaryCases.two_summarized_case)).
  vm_refl.
Defined.

Lemma text_sources_are_not_loaded_witness :
  Forall (fun d => doc_folder (summarized d) <> Some (Demo.documents ++ [str "note"]))
    [ {| summarized :=
           summarized_record (Demo.documents ++ [str "notice"; str "notice.pdf"])
                             (Demo.documents ++ [str "notice"]);
         ocr_used := JBool false;
         ocr_method := JString (str "unknown") |} ].
Proof.
  apply (@text_sources_are_not_loaded Demo.demo_processor SummaryCases.json_loads_lite
           (Demo.world_of SummaryCases.two_summarized_case)
           (Demo.world_of SummaryCases.two_summarized_case)).
  - intros f Hf _.
    assert (Hl : iterdir SummaryCases.two_summarized_case (Demo.documents ++ [str "note"])
                 = [ Demo.documents ++ [str "note"; str "note.txt"];
                     Demo.documents ++ [str "note"; str "document_summary.json"] ])
      by vm_refl.
    cbn [files Demo.world_of] in Hf. rewrite Hl in Hf.
    apply elem_of_cons in Hf as [Hf|Hf]; [subst f; left; vm_compute; reflexivity|].
    apply elem_of_cons in Hf as [Hf|Hf]; [subst f; right; vm_compute; reflexivity|].
    apply elem_of_nil in Hf. destruct Hf.
  - vm_refl.
Defined.

Lemma unreadable_summary_aborts_load_witness :
  exists e',
    @_load_summarized_documents Demo.demo_processor SummaryCases.json_loads_lite
      (Demo.world_of SummaryCases.notice_broken_summary_case)
    = (inl e', Demo.world_of SummaryCases.notice_broken_summary_case).
Proof.
  apply (@unreadable_summary_aborts_load Demo.demo_processor SummaryCases.json_loads_lite
           (Demo.world_of SummaryCases.notice_broken_summary_case)
           (Demo.documents ++ [str "notice"])
           (str "Sorry, I cannot read this file.")
           (External (str "JSONDecodeError"))).
  - apply (bool_decide_unpack _). vm_compute. reflexivity.
  - vm_compute. reflexivity.
  - apply (bool_decide_unpack _). vm_compute. reflexivity.
  - vm_compute. reflexivity.
  - vm_compute. reflexivity.
Defined.

(** ** Folders by document type and the move of the original *)

(** More distinct paths than the file system has entries cannot all
    exist. *)
Lemma not_all_exist (fs : gmap path node) (f : nat -> path) (start : nat) :
  (forall j j', f j = f j' -> j = j') ->
  ~ (forall j, start <= j < start + S (size fs) -> is_Some (fs !! f j)).
Proof.
  intros Hinj Hall.
  set (l := map f (seq start (S (size fs)))).
  assert (Hnd : NoDup l).
  { unfold l. apply NoDup_fmap_2_strong; [|apply NoDup_seq]. intros j j' _ _. apply Hinj. }
  assert (Hin : forall p, p ∈ l -> p ∈ (map_to_list fs).*1).
  { intros p Hp. unfold l in Hp. apply list_elem_of_fmap in Hp as (j & -> & Hj).
    apply elem_of_seq in Hj. destruct (Hall j) as [n Hn]; [lia|].
    apply list_elem_of_fmap. exists (f j, n). split; [done|]. by apply elem_of_map_to_list. }
  pose proof (submseteq_length _ _ (NoDup_submseteq _ _ Hnd Hin)) as Hlen.
  unfold l in Hlen. rewrite length_map, length_seq, length_fmap, length_map_to_list in Hlen.
  lia.
Qed.

Lemma join_component (p : path) (c : pystr) :
  c <> [] -> c <> str "." -> p </> c = p ++ [c].
Proof.
  intros H1 H2. unfold join. by rewrite !bool_decide_eq_false_2.
Qed.

Lemma well_formed_parent (fs : gmap path node) (p : path) :
  well_formed fs = true -> is_Some (fs !! p) -> is_dir fs (parent p) = true.
Proof.
  unfold well_formed. rewrite forallb_forall. intros Hwf [n Hn]. apply Hwf.
  apply list_elem_of_In, list_elem_of_fmap. exists (p, n). split; [done|].
  by apply elem_of_map_to_list.
Qed.

(** In a well-formed file system, what has an entry below it is a
    directory. *)
Lemma well_formed_above (fs : gmap path node) (p rest : path) :
  well_formed fs = true -> rest <> [] -> is_Some (fs !! (p ++ rest)) -> is_dir fs p = true.
Proof.
  intros Hwf. induction rest as [|c rest IH] using rev_ind; [done|]. intros _ Hsome.
  pose proof (well_formed_parent fs _ Hwf Hsome) as Hdir.
  rewrite app_assoc, parent_snoc in Hdir.
  destruct rest as [|x rest']; [by rewrite app_nil_r in Hdir|].
  apply IH; [done|]. unfold is_dir, lookup_node in Hdir.
  destruct (p ++ x :: rest') eqn:Hp; [by destruct p|].
  by destruct (fs !! (l :: l0)).
Qed.

(** What [rename] makes of a file system when a file without entries
    below it goes to a path that does not exist. *)
Lemma rename_file_lookup (fs fs' : gmap path node) (src dst : path) (data : option pystr) :
  fs !! src = Some (File data) ->
  (forall rest, rest <> [] -> fs !! (src ++ rest) = None) ->
  fs !! dst = None ->
  rename_fs fs src dst = inr fs' ->
  forall q, fs' !! q = if decide (q = dst) then Some (File data)
                       else if decide (q = src) then None
                       else fs !! q.
Proof.
  intros Hsrc Hleaf Hdst. unfold rename_fs.
  destruct src as [|s0 src0]; [done|]. cbv iota. rewrite Hsrc.
  remember (s0 :: src0) as src eqn:Hs. clear Hs.
  destruct (lookup_node fs (parent dst)) as [[|?]|]; [|done|done].
  intros [= <-].
  set (f := fun p : path => if is_prefix src p then dst ++ drop (length src) p else p).
  assert (Hf_src : f src = dst).
  { unfold f, is_prefix. rewrite firstn_all, bool_decide_eq_true_2 by done.
    by rewrite drop_all, app_nil_r. }
  assert (Hf_other : forall p, is_Some (fs !! p) -> p <> src -> f p = p).
  { intros p [n Hp] Hne. unfold f, is_prefix. case_bool_decide as Hpre; [|done].
    exfalso. rewrite <- (take_drop (length src) p), Hpre in Hp.
    destruct (drop (length src) p) as [|c rest] eqn:Hd.
    - rewrite app_nil_r in Hp. apply Hne.
      by rewrite <- (take_drop (length src) p), Hpre, Hd, app_nil_r.
    - by rewrite Hleaf in Hp. }
  assert (Hmap : map (fun '(p, n) => (if is_prefix src p then dst ++ drop (length src) p else p, n))
                     (map_to_list fs)
                 = prod_map f id <$> map_to_list fs).
  { apply map_ext. by intros [p n]. }
  rewrite Hmap. clear Hmap.
  assert (Hkeys : forall p n, (p, n) ∈ (prod_map f id <$> map_to_list fs : list (path * node)) <->
                    exists p0, fs !! p0 = Some n /\ f p0 = p).
  { intros p n. rewrite list_elem_of_fmap. split.
    - intros ([p0 n0] & [= -> ->] & Hin). exists p0. split; [|done].
      by apply elem_of_map_to_list.
    - intros (p0 & Hp0 & <-). exists (p0, n). split; [done|]. by apply elem_of_map_to_list. }
  intros q. destruct (decide (q = dst)) as [->|Hqd].
  - apply elem_of_list_to_map_1'.
    + intros n (p0 & Hp0 & Hfp)%Hkeys.
      destruct (decide (p0 = src)) as [->|Hne]; [congruence|].
      rewrite Hf_other in Hfp by (by eexists || done). congruence.
    + apply Hkeys. by exists src.
  - destruct (decide (q = src)) as [->|Hqs].
    + apply not_elem_of_list_to_map_1. rewrite list_elem_of_fmap.
      intros ([p n] & Hq & (p0 & Hp0 & Hfp)%Hkeys). cbn in Hq. subst p.
      destruct (decide (p0 = src)) as [->|Hne]; [congruence|].
      rewrite Hf_other in Hfp by (by eexists || done). done.
    + destruct (fs !! q) as [n|] eqn:Hq.
      * apply elem_of_list_to_map_1'.
        -- intros n' (p0 & Hp0 & Hfp)%Hkeys.
           destruct (decide (p0 = src)) as [->|Hne]; [congruence|].
           rewrite Hf_other in Hfp by (by eexists || done). congruence.
        -- apply Hkeys. exists q. split; [done|]. apply Hf_other; [by eexists|done].
      * apply not_elem_of_list_to_map_1. rewrite list_elem_of_fmap.
        intros ([p n] & Hq' & (p0 & Hp0 & Hfp)%Hkeys). cbn in Hq'. subst p.
        destruct (decide (p0 = src)) as [->|Hne]; [congruence|].
        rewrite Hf_other in Hfp by (by eexists || done). congruence.
Qed.

Section Folders.

Context {self : processor}.

Lemma numbered_folder_snoc (doc_type : pystr) (k : nat) :
  numbered_folder doc_type k
  = documents_folder ++ [doc_type ++ [underscore] ++ format_int k].
Proof.
  unfold numbered_folder. apply join_component.
  - by destruct doc_type.
  - destruct doc_type as [|c [|d t]]; discriminate.
Qed.

Lemma numbered_folder_inj (doc_type : pystr) (k k' : nat) :
  numbered_folder doc_type k = numbered_folder doc_type k' -> k = k'.
Proof.
  rewrite !numbered_folder_snoc. intros H. apply app_inv_head in H.
  injection H as H. apply app_inv_head in H. injection H as H.
  by apply format_int_inj.
Qed.

Lemma folder_counter_loop_scan (fs : gmap path node) (doc_type : pystr) (fuel : nat) :
  forall counter,
    let k := folder_counter_loop fs doc_type fuel counter in
    counter <= k <= counter + fuel
    /\ (forall j, counter <= j < k -> is_Some (fs !! numbered_folder doc_type j))
    /\ (k < counter + fuel -> fs !! numbered_folder doc_type k = None).
Proof.
  induction fuel as [|fuel IH]; intros counter; cbn [folder_counter_loop].
  - cbv zeta. split; [lia|]. split; [intros j Hj; lia|lia].
  - rewrite numbered_folder_snoc, exists_snoc, <- numbered_folder_snoc.
    case_bool_decide as Hex.
    + specialize (IH (S counter)). cbv zeta in IH |- *.
      destruct IH as (Hk & Hbelow & Hfree). split; [lia|]. split.
      * intros j Hj. destruct (decide (j = counter)) as [->|Hne]; [done|].
        apply Hbelow. lia.
      * intros Hlt. apply Hfree. lia.
    + cbv zeta. split; [lia|]. split; [intros j Hj; lia|]. intros _.
      destruct (fs !! numbered_folder doc_type counter) eqn:Hl; [|done].
      exfalso. apply Hex. by eexists.
Qed.

Lemma create_document_folder_run (w : world) (doc_type : pystr) :
  is_dir (files w) documents_folder = true ->
  doc_type <> [] -> doc_type <> str "." ->
  exists c,
    create_document_folder doc_type w
    = (inr (documents_folder ++ [c]),
       {| files := <[documents_folder ++ [c] := Dir]> (files w); calls := calls w |})
    /\ files w !! (documents_folder ++ [c]) = None
    /\ (c = doc_type
        \/ exists k, 1 <= k
             /\ c = doc_type ++ [underscore] ++ format_int k
             /\ is_Some (files w !! (documents_folder ++ [doc_type]))
             /\ forall j, 1 <= j < k -> is_Some (files w !! numbered_folder doc_type j)).
Proof.
  intros Hdocs Hne Hdot.
  unfold create_document_folder, bind, get_files, mkdir, lift_fs, ret.
  rewrite (join_component _ _ Hne Hdot), exists_snoc.
  assert (Hmk : forall c, files w !! (documents_folder ++ [c]) = None ->
            mkdir_p (files w) (documents_folder ++ [c])
            = inr (<[documents_folder ++ [c] := Dir]> (files w))).
  { intros c Hc. rewrite mkdir_p_child; [by rewrite Hc|done|].
    unfold is_file. by rewrite lookup_node_snoc, Hc. }
  case_bool_decide as Hex.
  - pose proof (folder_counter_loop_scan (files w) doc_type (S (size (files w))) 1) as Hscan.
    cbv zeta in Hscan. set (k := folder_counter_loop _ _ _ _) in *.
    destruct Hscan as (Hk & Hbelow & Hfree).
    assert (Hlt : k < 1 + S (size (files w))).
    { destruct (decide (k < 1 + S (size (files w)))) as [|Hge]; [done|]. exfalso.
      apply (not_all_exist (files w) (numbered_folder doc_type) 1).
      - apply numbered_folder_inj.
      - intros j Hj. apply Hbelow. lia. }
    specialize (Hfree Hlt). rewrite numbered_folder_snoc in *.
    exists (doc_type ++ [underscore] ++ format_int k).
    rewrite (Hmk _ Hfree). split; [done|]. split; [done|].
    right. exists k.
    split; [lia|]. split; [done|]. split; [done|]. intros j Hj. by apply Hbelow.
  - assert (Hfree : files w !! (documents_folder ++ [doc_type]) = None).
    { destruct (files w !! (documents_folder ++ [doc_type])) eqn:Hl; [|done].
      exfalso. apply Hex. by eexists. }
    exists doc_type. rewrite (Hmk _ Hfree).
    split; [done|]. split; [done|]. by left.
Qed.

Lemma entry_name_component (c : pystr) :
  entry_name c = true -> c <> [] /\ c <> str "." /\ c <> str "..".
Proof.
  unfold entry_name. intros H.
  apply andb_prop in H as [[[H1 H2]%andb_prop H3]%andb_prop _].
  apply negb_true_iff, bool_decide_eq_false in H1, H2, H3. done.
Qed.

(** X16. [create_document_folder] never hands out a folder that is already
    there. With the documents folder and the processing log in place,
    for a document type that can name an entry (not empty, neither [.]
    nor [..], no slash), it returns; the folder it returns did not
    exist and is now a directory directly inside [documents/]; its name
    is the document type or, when something of that name exists, the
    type with the first free counter from 1; and no other path is
    touched, the processing log apart. *)
Theorem create_document_folder_fresh (w : world) (doc_type : pystr) :
  is_dir (files w) documents_folder = true ->
  is_file (files w) log_file = true ->
  entry_name doc_type = true ->
  exists folder w',
    create_document_folder doc_type w = (inr folder, w')
    /\ files w !! folder = None
    /\ files w' !! folder = Some Dir
    /\ calls w' = calls w
    /\ (forall q, q <> folder -> q <> log_file -> files w' !! q = files w !! q)
    /\ parent folder = documents_folder
    /\ (name folder = doc_type
        \/ exists k, 1 <= k
             /\ name folder = doc_type ++ [underscore] ++ format_int k
             /\ is_Some (files w !! (documents_folder ++ [doc_type]))
             /\ forall j, 1 <= j < k -> is_Some (files w !! numbered_folder doc_type j)).
Proof.
  intros Hdocs _ (Hne & Hdot & _)%entry_name_component.
  destruct (create_document_folder_run w doc_type Hdocs Hne Hdot) as (c & Hrun & Hfree & Hc).
  eexists (documents_folder ++ [c]), _. split; [exact Hrun|]. cbn [files calls].
  rewrite parent_snoc, name_snoc. split; [done|]. split; [apply lookup_insert_eq|].
  split; [done|]. split; [|done]. intros q Hq _. by rewrite lookup_insert_ne.
Qed.

End Folders.

Lemma create_document_folder_fresh_witness :
  exists folder w',
    @create_document_folder Demo.demo_processor (str "Motion")
      (Demo.world_of (Cases.with_log Cases.motion_case)) = (inr folder, w')
    /\ Cases.with_log Cases.motion_case !! folder = None
    /\ files w' !! folder = Some Dir
    /\ calls w' = []
    /\ (forall q, q <> folder -> q <> @log_file Demo.demo_processor ->
          files w' !! q = Cases.with_log Cases.motion_case !! q)
    /\ parent folder = @documents_folder Demo.demo_processor
    /\ (name folder = str "Motion"
        \/ exists k, 1 <= k
             /\ name folder = str "Motion" ++ [underscore] ++ format_int k
             /\ is_Some (Cases.with_log Cases.motion_case
                           !! (@documents_folder Demo.demo_processor ++ [str "Motion"]))
             /\ forall j, 1 <= j < k ->
                  is_Some (Cases.with_log Cases.motion_case
                             !! @numbered_folder Demo.demo_processor (str "Motion") j)).
Proof.
  apply (@create_document_folder_fresh Demo.demo_processor
           (Demo.world_of (Cases.with_log Cases.motion_case)) (str "Motion")).
  - vm_compute. reflexivity.
  - vm_compute. reflexivity.
  - vm_compute. reflexivity.
Defined.

Lemma well_formed_iff (fs : gmap path node) :
  well_formed fs = true <-> forall p, is_Some (fs !! p) -> is_dir fs (parent p) = true.
Proof.
  split; [intros Hwf p; by apply well_formed_parent|].
  intros H. unfold well_formed. apply forallb_forall. intros p Hp.
  apply list_elem_of_In, list_elem_of_fmap in Hp as ([p' n] & -> & Hin).
  apply H. exists n. by apply elem_of_map_to_list.
Qed.

Lemma is_dir_lookup (fs : gmap path node) (p : path) :
  p <> [] -> is_dir fs p = true <-> fs !! p = Some Dir.
Proof.
  intros Hp. unfold is_dir, lookup_node. destruct p as [|c p]; [done|].
  destruct (fs !! (c :: p)) as [[|?]|]; split; done.
Qed.

Lemma is_dir_insert_dir (fs : gmap path node) (p q : path) :
  is_dir fs q = true -> is_dir (<[p := Dir]> fs) q = true.
Proof.
  destruct q as [|c q]; [done|]. rewrite !is_dir_lookup by done. intros Hq.
  destruct (decide (p = c :: q)) as [->|Hne]; [apply lookup_insert_eq|].
  by rewrite lookup_insert_ne.
Qed.

(** Creating a directory inside a directory keeps a file system well
    formed. *)
Lemma well_formed_insert_dir (fs : gmap path node) (p : path) :
  well_formed fs = true -> is_dir fs (parent p) = true ->
  well_formed (<[p := Dir]> fs) = true.
Proof.
  rewrite !well_formed_iff. intros Hwf Hparent q [n Hq].
  apply is_dir_insert_dir.
  destruct (decide (p = q)) as [<-|Hne]; [done|].
  rewrite lookup_insert_ne in Hq by done. apply Hwf. by eexists.
Qed.

(** Moving a file into a directory, to a name that is free there. *)
Lemma move_file_into (fs : gmap path node) (source folder : path) (c : pystr)
    (data : option pystr) :
  well_formed fs = true ->
  source <> [] ->
  fs !! source = Some (File data) ->
  is_dir fs folder = true ->
  fs !! (folder ++ [c]) = None ->
  exists fs',
    rename_fs fs source (folder ++ [c]) = inr fs'
    /\ forall q, fs' !! q = if decide (q = folder ++ [c]) then Some (File data)
                            else if decide (q = source) then None
                            else fs !! q.
Proof.
  intros Hwf Hne Hsrc Hfolder Hfree.
  assert (Hok : exists fs', rename_fs fs source (folder ++ [c]) = inr fs').
  { unfold rename_fs. destruct source as [|s0 src]; [done|]. rewrite Hsrc, parent_snoc.
    unfold is_dir in Hfolder. destruct (lookup_node fs folder) as [[|?]|]; [|done|done].
    by eexists. }
  destruct Hok as [fs' Hok]. exists fs'. split; [done|].
  apply (rename_file_lookup fs fs' source (folder ++ [c]) data); [done| |done|done].
  intros rest Hrest. destruct (fs !! (source ++ rest)) eqn:Hl; [|done]. exfalso.
  assert (Hdir : is_dir fs source = true)
    by (apply (well_formed_above fs source rest); [done|done|by eexists]).
  apply is_dir_lookup in Hdir; [congruence|done].
Qed.

Section Moves.

Context {X : externals} {self : processor}.

(** X17. Steps 2 and 3 of [process_document] together: the file lands in a
    folder made for it. In a well-formed file system with the documents
    folder and the processing log in place, for a document type and a
    file name that can name an entry, [create_document_folder]
    followed by [move_pdf] returns; the file (which is not the log) is
    then at its name inside the new folder and no longer at its old
    path, and no other path has changed, the processing log apart. No
    existing file can be overwritten, since the folder is new. *)
Theorem moved_into_new_folder (w : world) (doc_type : pystr) (source : path)
    (data : option pystr) :
  well_formed (files w) = true ->
  is_dir (files w) documents_folder = true ->
  is_file (files w) log_file = true ->
  entry_name doc_type = true ->
  files w !! source = Some (File data) ->
  source <> log_file ->
  entry_name (name source) = true ->
  exists folder w',
    (doc_folder <- create_document_folder doc_type ;; move_pdf source doc_folder) w
    = (inr (folder ++ [name source]), w')
    /\ parent folder = documents_folder
    /\ files w !! folder = None
    /\ files w !! (folder ++ [name source]) = None
    /\ files w' !! (folder ++ [name source]) = Some (File data)
    /\ files w' !! source = None
    /\ files w' !! folder = Some Dir
    /\ calls w' = calls w
    /\ forall q, q <> folder ++ [name source] -> q <> source -> q <> folder -> q <> log_file ->
         files w' !! q = files w !! q.
Proof.
  intros Hwf Hdocs _ (Hne & Hdot & _)%entry_name_component Hsrc _
    (Hn1 & Hn2 & _)%entry_name_component.
  destruct (create_document_folder_run w doc_type Hdocs Hne Hdot) as (c & Hrun & Hfree & _).
  set (folder := documents_folder ++ [c]) in *.
  set (fs1 := <[folder := Dir]> (files w)).
  assert (Hsf : source <> folder) by congruence.
  assert (Hwf1 : well_formed fs1 = true).
  { apply well_formed_insert_dir; [done|]. unfold folder. by rewrite parent_snoc. }
  assert (Hsrc1 : fs1 !! source = Some (File data))
    by (unfold fs1; by rewrite lookup_insert_ne).
  assert (Hfolder1 : is_dir fs1 folder = true).
  { apply is_dir_lookup; [by destruct documents_folder|]. apply lookup_insert_eq. }
  assert (Hfree0 : files w !! (folder ++ [name source]) = None).
  { destruct (files w !! (folder ++ [name source])) eqn:Hl; [|done]. exfalso.
    assert (Hdir : is_dir (files w) (parent (folder ++ [name source])) = true)
      by (apply well_formed_parent; [done|by eexists]).
    rewrite parent_snoc in Hdir. apply is_dir_lookup in Hdir; [congruence|].
    by destruct documents_folder. }
  assert (Hdf : folder <> folder ++ [name source]).
  { intros H. apply (f_equal length) in H. rewrite length_app in H. simpl in H. lia. }
  assert (Hfree1 : fs1 !! (folder ++ [name source]) = None)
    by (unfold fs1; by rewrite lookup_insert_ne).
  assert (Hsne : source <> []) by (intros ->; by apply Hn1).
  destruct (move_file_into fs1 source folder (name source) data Hwf1 Hsne Hsrc1 Hfolder1 Hfree1)
    as (fs' & Hmove & Hlook).
  exists folder, {| files := fs'; calls := calls w |}.
  assert (Hsd : source <> folder ++ [name source]) by congruence.
  split; [|split; [apply parent_snoc|split; [done|split; [done|]]]].
  - unfold bind at 1. rewrite Hrun. fold folder. fold fs1.
    unfold move_pdf, bind, rename, lift_fs, ret. rewrite (join_component _ _ Hn1 Hn2).
    cbn [files calls]. by rewrite Hmove.
  - cbn [files calls]. rewrite !Hlook.
    rewrite decide_True by done.
    rewrite (decide_False (P := source = folder ++ [name source])) by done.
    rewrite decide_True by done.
    rewrite (decide_False (P := folder = folder ++ [name source])) by done.
    rewrite (decide_False (P := folder = source)) by done.
    split; [done|]. split; [done|]. split; [apply lookup_insert_eq|]. split; [done|].
    intros q Hq1 Hq2 Hq3 _. rewrite Hlook, !decide_False by done.
    unfold fs1. by rewrite lookup_insert_ne.
Qed.

End Moves.

Lemma moved_into_new_folder_witness :
  exists folder w',
    (doc_folder <- @create_document_folder Demo.demo_processor (str "Motion") ;;
     move_pdf (Demo.intake ++ [str "motion_to_dismiss.pdf"]) doc_folder)
      (Demo.world_of (Cases.with_log Cases.motion_case))
    = (inr (folder ++ [str "motion_to_dismiss.pdf"]), w')
    /\ parent folder = @documents_folder Demo.demo_processor
    /\ Cases.with_log Cases.motion_case !! folder = None
    /\ Cases.with_log Cases.motion_case !! (folder ++ [str "motion_to_dismiss.pdf"]) = None
    /\ files w' !! (folder ++ [str "motion_to_dismiss.pdf"]) = Some (File None)
    /\ files w' !! (Demo.intake ++ [str "motion_to_dismiss.pdf"]) = None
    /\ files w' !! folder = Some Dir
    /\ calls w' = []
    /\ forall q, q <> folder ++ [str "motion_to_dismiss.pdf"] ->
         q <> Demo.intake ++ [str "motion_to_dismiss.pdf"] -> q <> folder ->
         q <> @log_file Demo.demo_processor ->
         files w' !! q = Cases.with_log Cases.motion_case !! q.
Proof.
  apply (@moved_into_new_folder Demo.demo_processor
           (Demo.world_of (Cases.with_log Cases.motion_case))
           (str "Motion") (Demo.intake ++ [str "motion_to_dismiss.pdf"]) None).
  - vm_compute. reflexivity.
  - vm_compute. reflexivity.
  - vm_compute. reflexivity.
  - vm_compute. reflexivity.
  - vm_compute. reflexivity.
  - discriminate.
  - vm_compute. reflexivity.
Defined.

(** ** A failed extraction and the intake folder *)

Lemma elem_of_iterdir (fs : gmap path node) (d p : path) :
  p ∈ iterdir fs d -> is_Some (fs !! p).
Proof.
  unfold iterdir. rewrite list_elem_of_filter. intros [_ Hp].
  apply list_elem_of_fmap in Hp as ([p' n] & -> & Hin).
  exists n. by apply elem_of_map_to_list.
Qed.

Section FailedExtraction.

Context {X : externals} {self : processor}.

(** X18. The router moves the file before it calls the handler. When the OCR
    service then fails, the router returns a failure record that names
    the path in the intake folder, while the file is no longer there: it
    stays in its document folder, and a later run of the extraction phase
    does not discover it. *)
Theorem failed_extraction_leaves_intake (w : world) (file_path : path)
    (data : option pystr) (e : exn) :
  well_formed (files w) = true ->
  is_dir (files w) documents_folder = true ->
  files w !! file_path = Some (File data) ->
  name file_path <> [] -> name file_path <> str "." ->
  stem file_path <> [] -> stem file_path <> str "." ->
  is_file (files w) (documents_folder ++ [stem file_path]) = false ->
  files w !! (documents_folder ++ [stem file_path] ++ [name file_path]) = None ->
  handlers_get (_detect_file_type file_path) = _extract_mistral_ocr ->
  ocr_process (documents_folder ++ [stem file_path] ++ [name file_path]) = inl e ->
  exists w',
    _extract_single_document_router file_path w
    = (inr (failure_record file_path (ExceptionFrom (str "Mistral OCR failed: ") e)), w')
    /\ files w' !! file_path = None
    /\ files w' !! (documents_folder ++ [stem file_path] ++ [name file_path])
       = Some (File data)
    /\ calls w' = calls w ++ [CallMistralOCR
                                (documents_folder ++ [stem file_path] ++ [name file_path])]
    /\ forall all_files, _discover_intake_files w' = (inr all_files, w') ->
         file_path ∉ all_files.
Proof.
  rewrite !app_assoc.
  set (doc_folder := documents_folder ++ [stem file_path]).
  set (moved_file := doc_folder ++ [name file_path]).
  intros Hwf Hdocs Hsrc Hn1 Hn2 Hs1 Hs2 Hnotfile Hfree Hhandler Hocr.
  set (fs1 := match files w !! doc_folder with
              | Some _ => files w
              | None => <[doc_folder := Dir]> (files w)
              end).
  assert (Hmk : mkdir_p (files w) doc_folder = inr fs1)
    by (unfold doc_folder; by rewrite mkdir_p_child).
  assert (Hdne : doc_folder <> []) by (unfold doc_folder; by destruct documents_folder).
  assert (Hfolder1 : is_dir fs1 doc_folder = true).
  { apply is_dir_lookup; [done|]. unfold fs1, is_file in *.
    unfold doc_folder in Hnotfile. rewrite lookup_node_snoc in Hnotfile. fold doc_folder in Hnotfile.
    destruct (files w !! doc_folder) as [[|?]|] eqn:Hl; [done|done|apply lookup_insert_eq]. }
  assert (Hwf1 : well_formed fs1 = true).
  { unfold fs1. destruct (files w !! doc_folder); [done|].
    apply well_formed_insert_dir; [done|]. unfold doc_folder. by rewrite parent_snoc. }
  assert (Hsrc1 : fs1 !! file_path = Some (File data)).
  { unfold fs1. destruct (files w !! doc_folder) eqn:Hl; [done|].
    rewrite lookup_insert_ne; [done|]. congruence. }
  assert (Hfree1 : fs1 !! moved_file = None).
  { unfold fs1. destruct (files w !! doc_folder); [done|].
    rewrite lookup_insert_ne; [done|]. unfold moved_file. intros H.
    apply (f_equal length) in H. rewrite length_app in H. simpl in H. lia. }
  assert (Hsne : file_path <> []) by (intros ->; by apply Hn1).
  destruct (move_file_into fs1 file_path doc_folder (name file_path) data
              Hwf1 Hsne Hsrc1 Hfolder1 Hfree1) as (fs2 & Hmove & Hlook).
  fold moved_file in Hmove, Hlook.
  assert (Hgone : fs2 !! file_path = None).
  { rewrite Hlook. rewrite decide_False by congruence. by rewrite decide_True. }
  assert (Hthere : fs2 !! moved_file = Some (File data)).
  { rewrite Hlook. by rewrite decide_True. }
  exists {| files := fs2; calls := calls w ++ [CallMistralOCR moved_file] |}.
  split; [|split; [done|split; [done|split; [done|]]]].
  - unfold _extract_single_document_router, router_try_block, try_except.
    rewrite (join_component _ _ Hs1 Hs2). fold doc_folder.
    rewrite (join_component _ _ Hn1 Hn2). fold moved_file. rewrite Hhandler.
    unfold bind at 1. unfold mkdir, lift_fs. rewrite Hmk.
    unfold bind at 1. unfold get_files. cbn [files calls].
    unfold bind at 1. unfold moved_file at 1. rewrite exists_snoc. fold moved_file.
    rewrite bool_decide_eq_false_2 by (rewrite Hfree1; by intros [? ?]).
    cbn [negb]. unfold rename, lift_fs. cbn [files calls]. rewrite Hmove.
    unfold _extract_mistral_ocr, extract_text_with_mistral, reraise, try_except, bind,
      open_rb, log_call, lift_result. cbn [files calls].
    unfold moved_file at 1. rewrite lookup_node_snoc. fold moved_file.
    by rewrite Hthere, Hocr.
  - intros all_files Hd.
    assert (Hall : all_files = sorted (flat_map (glob_suffix fs2 intake_path)
                                                supported_extensions))
      by (rewrite discover_run in Hd; cbn [files] in Hd; congruence).
    subst all_files. clear Hd. rewrite sorted_Permutation, elem_of_flat_map.
    intros (ext & _ & [Hin _]%elem_of_glob_suffix).
    apply elem_of_iterdir in Hin as [n Hn]. congruence.
Qed.

End FailedExtraction.

Lemma failed_extraction_leaves_intake_witness :
  exists w',
    @_extract_single_document_router Demo.demo_externals Demo.demo_processor
      (Demo.intake ++ [str "b.pdf"]) (Demo.world_of Demo.five_case)
    = (inr (failure_record (Demo.intake ++ [str "b.pdf"])
              (ExceptionFrom (str "Mistral OCR failed: ")
                 (External (str "503 Service Unavailable")))), w')
    /\ files w' !! (Demo.intake ++ [str "b.pdf"]) = None
    /\ files w' !! (@documents_folder Demo.demo_processor
                     ++ [stem (Demo.intake ++ [str "b.pdf"])]
                     ++ [name (Demo.intake ++ [str "b.pdf"])])
       = Some (File None)
    /\ calls w' = calls (Demo.world_of Demo.five_case)
                  ++ [CallMistralOCR (@documents_folder Demo.demo_processor
                                        ++ [stem (Demo.intake ++ [str "b.pdf"])]
                                        ++ [name (Demo.intake ++ [str "b.pdf"])])]
    /\ forall all_files,
         @_discover_intake_files Demo.demo_processor w' = (inr all_files, w') ->
         Demo.intake ++ [str "b.pdf"] ∉ all_files.
Proof.
  apply (@failed_extraction_leaves_intake Demo.demo_externals Demo.demo_processor
           (Demo.world_of Demo.five_case) (Demo.intake ++ [str "b.pdf"]) None
           (External (str "503 Service Unavailable"))).
  - vm_compute. reflexivity.
  - vm_compute. reflexivity.
  - vm_compute. reflexivity.
  - discriminate.
  - discriminate.
  - discriminate.
  - discriminate.
  - vm_compute. reflexivity.
  - vm_compute. reflexivity.
  - reflexivity.
  - reflexivity.
Defined.

(** ** Page breaks by estimate *)

Lemma split_nonempty (sep : N) (s : pystr) : split sep s <> [].
Proof.
  destruct s as [|c s]; [done|]. cbn [split].
  destruct (c =? sep)%N; [done|]. by destruct (split sep s).
Qed.

(** Splitting at the newlines and joining with newlines gives the text
    back. *)
Lemma join_split (s : pystr) : join_lines [nl] (split nl s) = s.
Proof.
  induction s as [|c s IH]; [done|]. cbn [split].
  pose proof (split_nonempty nl s) as Hne.
  destruct (N.eqb_spec c nl) as [->|Hc].
  - destruct (split nl s) as [|line lines]; [done|].
    change (join_lines [nl] ([] :: line :: lines))
      with ([] ++ [nl] ++ join_lines [nl] (line :: lines)).
    by rewrite IH.
  - destruct (split nl s) as [|line lines]; [done|]. rewrite <- IH.
    by destruct lines.
Qed.

(** Up to line 50 the loop copies the lines. *)
Lemma page_break_loop_short (lines : list pystr) : forall i current_page out n,
  i + length lines <= 50 ->
  page_break_loop lines i current_page out n = (out ++ lines, n).
Proof.
  induction lines as [|line rest IH]; intros i cp out n Hlen.
  - by rewrite app_nil_r.
  - cbn [page_break_loop length] in *.
    assert (Hcond : (0 <? i) && (i mod 50 =? 0) = false).
    { destruct i as [|i]; [done|]. cbn [Nat.ltb Nat.leb andb].
      apply Nat.eqb_neq. rewrite Nat.mod_small by lia. lia. }
    rewrite Hcond, IH by lia. by rewrite <- app_assoc.
Qed.

(** One break for every index that is a positive multiple of 50. *)
Lemma page_break_loop_count (lines : list pystr) : forall i current_page out n,
  1 <= i ->
  snd (page_break_loop lines i current_page out n)
  = n + ((i + length lines - 1) / 50 - (i - 1) / 50).
Proof.
  induction lines as [|line rest IH]; intros i cp out n Hi.
  - cbn [page_break_loop length snd]. rewrite Nat.add_0_r. lia.
  - cbn [page_break_loop length].
    replace (0 <? i) with true by (symmetry; apply Nat.ltb_lt; lia). cbn [andb].
    destruct (Nat.eqb_spec (i mod 50) 0) as [Hmod|Hmod]; rewrite IH by lia.
    + replace (S i - 1) with i by lia.
      replace (S i + length rest - 1) with (i + length rest) by lia.
      replace (i + S (length rest) - 1) with (i + length rest) by lia.
      assert (Hdiv : i / 50 = S ((i - 1) / 50)).
      { pose proof (Nat.div_mod_eq i 50) as H1. pose proof (Nat.div_mod_eq (i - 1) 50) as H2.
        pose proof (Nat.mod_upper_bound (i - 1) 50) as H3. lia. }
      assert (Hmono : i / 50 <= (i + length rest) / 50)
        by (apply Nat.Div0.div_le_mono; lia).
      lia.
    + replace (S i - 1) with i by lia.
      replace (S i + length rest - 1) with (i + length rest) by lia.
      replace (i + S (length rest) - 1) with (i + length rest) by lia.
      assert (Hdiv : i / 50 = (i - 1) / 50).
      { pose proof (Nat.div_mod_eq i 50) as H1. pose proof (Nat.div_mod_eq (i - 1) 50) as H2.
        pose proof (Nat.mod_upper_bound (i - 1) 50) as H3.
        pose proof (Nat.mod_upper_bound i 50) as H4. lia. }
      lia.
Qed.

Lemma page_break_loop_breaks (lines : list pystr) :
  snd (page_break_loop lines 0 1 [] 0) = (length lines - 1) / 50.
Proof.
  destruct lines as [|line rest]; [done|].
  cbn [page_break_loop Nat.ltb Nat.leb andb]. rewrite page_break_loop_count by lia.
  cbn [length]. replace (1 + length rest - 1) with (length rest) by lia.
  replace (S (length rest) - 1) with (length rest) by lia.
  change ((1 - 1) / 50) with 0. lia.
Qed.

Lemma contains_count (needle s : pystr) :
  needle <> [] -> contains s needle = true -> 1 <= count_from needle s 0.
Proof.
  intros Hne. induction s as [|c s IH]; cbn [contains count_from].
  - destruct needle; [done|]. discriminate.
  - destruct (startswith (c :: s) needle); [lia|]. cbn [orb]. exact IH.
Qed.

Section PageBreaks.

Context {self : processor}.

(** X19. [insert_page_breaks] on a text without page markers: with the
    output folder in place it returns, the number of breaks is the
    number of lines less one, divided by 50 (one marker before each
    line whose index is a positive multiple of 50), the text it returns
    is the text it writes to [full_text_extraction.txt], and a text of
    at most 50 lines is returned as it is. *)
Theorem page_breaks_by_estimate (w : world) (markdown_text : pystr) (output_folder : path) :
  contains markdown_text (str "--- Page ") = false ->
  is_dir (files w) output_folder = true ->
  is_dir (files w) (output_folder ++ [str "full_text_extraction.txt"]) = false ->
  exists output_text,
    insert_page_breaks markdown_text output_folder w
    = (inr (output_text, (length (split nl markdown_text) - 1) / 50),
       {| files := <[output_folder ++ [str "full_text_extraction.txt"]
                     := File (Some output_text)]> (files w);
          calls := calls w |})
    /\ (length (split nl markdown_text) <= 50 -> output_text = markdown_text).
Proof.
  intros Hmark Hfolder Hft. unfold insert_page_breaks, try_except. rewrite Hmark.
  pose proof (page_break_loop_breaks (split nl markdown_text)) as Hn.
  destruct (page_break_loop (split nl markdown_text) 0 1 [] 0) as [out n] eqn:Hloop.
  cbn [snd] in Hn. subst n.
  exists (join_lines [nl] out). split.
  - unfold bind, write_text, lift_fs, ret. rewrite full_text_file_snoc.
    by rewrite write_text_child.
  - intros Hshort. rewrite page_break_loop_short in Hloop by lia.
    injection Hloop as <- _. apply join_split.
Qed.

(** X20. A text that already holds a marker is written and returned as it
    is, with the number of its markers, which is at least one. *)
Theorem page_breaks_kept (w : world) (markdown_text : pystr) (output_folder : path) :
  contains markdown_text (str "--- Page ") = true ->
  is_dir (files w) output_folder = true ->
  is_dir (files w) (output_folder ++ [str "full_text_extraction.txt"]) = false ->
  insert_page_breaks markdown_text output_folder w
  = (inr (markdown_text, count markdown_text (str "--- Page ")),
     {| files := <[output_folder ++ [str "full_text_extraction.txt"]
                   := File (Some markdown_text)]> (files w);
        calls := calls w |})
  /\ 1 <= count markdown_text (str "--- Page ").
Proof.
  intros Hmark Hfolder Hft. split.
  - unfold insert_page_breaks, try_except. rewrite Hmark.
    unfold bind, write_text, lift_fs, ret. rewrite full_text_file_snoc.
    by rewrite write_text_child.
  - by apply contains_count.
Qed.

(** X21. The [except] clause of [insert_page_breaks] repeats the write that
    failed: when the output folder is not a directory, the method
    raises, and no path other than the processing log is written. *)
Theorem page_breaks_need_the_folder (w : world) (markdown_text : pystr)
    (output_folder : path) :
  is_dir (files w) output_folder = false ->
  exists e w',
    insert_page_breaks markdown_text output_folder w = (inl e, w')
    /\ calls w' = calls w
    /\ forall q, q <> log_file -> files w' !! q = files w !! q.
Proof.
  intros Hfolder.
  assert (Hwrite : forall content,
            exists e, write_text (full_text_file output_folder) content w = (inl e, w)).
  { intros content. unfold write_text, lift_fs, write_text_fs.
    rewrite full_text_file_snoc, parent_snoc. unfold is_dir in Hfolder.
    destruct (lookup_node (files w) output_folder) as [[|?]|]; [done| |];
      destruct (output_folder ++ _); by eexists. }
  unfold insert_page_breaks, try_except.
  destruct (Hwrite markdown_text) as [e He].
  destruct (contains markdown_text (str "--- Page ")).
  - unfold bind at 1. destruct (Hwrite markdown_text) as [e1 ->].
    unfold bind. rewrite He. by eexists _, _.
  - destruct (page_break_loop _ _ _ _ _) as [out n].
    unfold bind at 1. destruct (Hwrite (join_lines [nl] out)) as [e1 ->].
    unfold bind. rewrite He. by eexists _, _.
Qed.

End PageBreaks.

Lemma page_breaks_by_estimate_witness :
  exists output_text,
    insert_page_breaks (repeat nl 60) (Demo.documents ++ [str "notice"])
      (Demo.world_of Demo.notice_extracted_case)
    = (inr (output_text, (length (split nl (repeat nl 60)) - 1) / 50),
       {| files := <[(Demo.documents ++ [str "notice"]) ++ [str "full_text_extraction.txt"]
                     := File (Some output_text)]>
                     (files (Demo.world_of Demo.notice_extracted_case));
          calls := calls (Demo.world_of Demo.notice_extracted_case) |})
    /\ (length (split nl (repeat nl 60)) <= 50 -> output_text = repeat nl 60).
Proof.
  apply (page_breaks_by_estimate (Demo.world_of Demo.notice_extracted_case)
           (repeat nl 60) (Demo.documents ++ [str "notice"])).
  - vm_compute. reflexivity.
  - vm_compute. reflexivity.
  - vm_compute. reflexivity.
Defined.

Lemma page_breaks_kept_witness :
  insert_page_breaks (Pages.reassemble_pages [str "A"]) (Demo.documents ++ [str "notice"])
    (Demo.world_of Demo.notice_extracted_case)
  = (inr (Pages.reassemble_pages [str "A"],
          count (Pages.reassemble_pages [str "A"]) (str "--- Page ")),
     {| files := <[(Demo.documents ++ [str "notice"]) ++ [str "full_text_extraction.txt"]
                   := File (Some (Pages.reassemble_pages [str "A"]))]>
                   (files (Demo.world_of Demo.notice_extracted_case));
        calls := calls (Demo.world_of Demo.notice_extracted_case) |})
  /\ 1 <= count (Pages.reassemble_pages [str "A"]) (str "--- Page ").
Proof.
  apply (page_breaks_kept (Demo.world_of Demo.notice_extracted_case)
           (Pages.reassemble_pages [str "A"]) (Demo.documents ++ [str "notice"])).
  - vm_compute. reflexivity.
  - vm_compute. reflexivity.
  - vm_compute. reflexivity.
Defined.

Lemma page_breaks_need_the_folder_witness :
  exists e w',
    insert_page_breaks (str "text") (Demo.documents ++ [str "missing"])
      (Demo.world_of Demo.empty_case)
    = (inl e, w')
    /\ calls w' = []
    /\ forall q, q <> @log_file Demo.demo_processor -> files w' !! q = Demo.empty_case !! q.
Proof.
  apply (@page_breaks_need_the_folder Demo.demo_processor (Demo.world_of Demo.empty_case)
           (str "text") (Demo.documents ++ [str "missing"])).
  vm_compute. reflexivity.
Defined.

(** ** Classification and the sequential batch *)

Section SequentialProps.

Context {X : externals} {self : processor}.

(** X22. [classify_document] never sets [is_reference_material]; whether a
    document is a case filing or a court order depends on its type
    alone, never on its text, and the two exclude each other. *)
Theorem classification_flags (doc_type text : pystr) :
  is_reference_material (classify_document doc_type text) = false
  /\ is_case_filing (classify_document doc_type text)
     = bool_decide (doc_type ∈ [str "Motion"; str "Response"; str "Complaint"])
  /\ is_court_order (classify_document doc_type text) = bool_decide (doc_type = str "Order")
  /\ is_case_filing (classify_document doc_type text)
     && is_court_order (classify_document doc_type text) = false.
Proof.
  unfold classify_document.
  destruct (contains (str_lower text) (str "exhibit")
            || contains (str_lower text) (str "evidence"));
    destruct (contains (str_lower text) (str "memorandum")
              || contains (str_lower text) (str "research"));
    repeat case_bool_decide;
    cbn [is_reference_material is_case_filing is_court_order andb];
    try done;
    exfalso;
    repeat match goal with
           | H : _ ∈ [] |- _ => apply elem_of_nil in H; destruct H
           | H : _ ∈ _ :: _ |- _ => apply elem_of_cons in H as [H|H]
           end;
    subst; try discriminate;
    repeat match goal with
           | H : _ ∉ _ |- _ => apply H; repeat first [left; reflexivity | right]
           end.
Qed.

Variable generate_gemini_summary : path -> path -> pystr -> M json_value.
Variable extract_text_with_docling : path -> path -> M (pystr * json_value).
Variable generate_document_summary_json :
  path -> pystr -> json_value -> pystr -> json_value -> nat -> path -> M unit.




End SequentialProps.

(** ** The two copies of an extracted text *)

Section TwoCopies.

Context {X : externals} {self : processor}.

(** The statements every handler but the plaintext one ends with: the
    text goes to [full_text_extraction.txt] and to a new path of the
    centralized folder. *)
Lemma save_twice_run (w : world) (file_name text : pystr) (doc_folder : path)
    (result : path -> doc_record) :
  is_dir (files w) documents_folder = true ->
  is_file (files w) fte_folder = false ->
  is_dir (files w) doc_folder = true ->
  is_dir (files w) (full_text_file doc_folder) = false ->
  exists cp,
    (write_text (full_text_file doc_folder) text ;;;
     centralized_path <- write_centralized_copy file_name text ;;
     ret (result centralized_path)) w
    = (inr (result cp),
       {| files := <[cp := File (Some text)]>
                     (<[fte_folder := Dir]>
                        (<[full_text_file doc_folder := File (Some text)]> (files w)));
          calls := calls w |})
    /\ parent cp = fte_folder
    /\ files w !! cp = None
    /\ cp <> full_text_file doc_folder.
Proof.
  intros Hdocs Hfte Hfolder Hft.
  set (ft := full_text_file doc_folder) in *.
  set (fs1 := <[ft := File (Some text)]> (files w)).
  set (w1 := {| files := fs1; calls := calls w |}).
  set (base := _sanitize_filename file_name).
  destruct (full_text_not_a_folder doc_folder) as [Hne1 Hne2]. fold ft in Hne1, Hne2.
  destruct (free_path_loop_returns fs1 fte_folder base) as (k & _ & Hfree & Hbelow).
  set (cp := fte_folder ++ [candidate base (str ".txt") k]) in *.
  assert (Hcp : cp <> ft).
  { intros Heq. rewrite Heq in Hfree. unfold fs1 in Hfree. by rewrite lookup_insert_eq in Hfree. }
  assert (Hdocs1 : is_dir (files w1) documents_folder = true).
  { unfold is_dir in *. rewrite documents_folder_snoc, lookup_node_snoc in *.
    cbn [files w1]. unfold fs1. rewrite lookup_insert_ne; [done|].
    by rewrite <- documents_folder_snoc. }
  assert (Hfte1 : is_file (files w1) fte_folder = false).
  { unfold is_file in *. rewrite fte_folder_snoc, lookup_node_snoc in *.
    cbn [files w1]. unfold fs1. rewrite lookup_insert_ne; [done|].
    by rewrite <- fte_folder_snoc. }
  assert (Hstep : write_text ft text w = (inr tt, w1)).
  { unfold write_text, lift_fs. unfold ft, w1, fs1, ft.
    rewrite full_text_file_snoc in *. by rewrite write_text_child. }
  exists cp. split; [|split; [apply parent_snoc|split; [|done]]].
  - unfold bind at 1. rewrite Hstep. unfold bind.
    by rewrite (write_centralized_copy_at file_name text w1 k).
  - unfold fs1 in Hfree. by rewrite lookup_insert_ne in Hfree.
Qed.

(** X24. A failed description is not a failed extraction: when the OCR
    answers and the Gemini command line does not, [_extract_image_hybrid]
    succeeds all the same, writes ["[Visual description unavailable]"]
    in the place of the description, in both copies of the text, and
    records [visual_description_generated] as true. *)
Theorem image_without_description (w : world) (file_path doc_folder : path)
    (pages : list pystr) :
  is_dir (files w) documents_folder = true ->
  is_file (files w) fte_folder = false ->
  is_file (files w) file_path = true ->
  is_dir (files w) doc_folder = true ->
  is_dir (files w) (full_text_file doc_folder) = false ->
  ocr_process file_path = inr pages ->
  vision_stdout file_path = inr None ->
  exists (r : doc_record) (cp : path) (w' : world) (before : pystr),
    _extract_image_hybrid file_path doc_folder w = (inr r, w')
    /\ success r = true
    /\ centralized_copy r = Some cp
    /\ (exists ocr_metadata,
          metadata r = Some (ocr_metadata ++ [(str "visual_description_generated", MBool true)]))
    /\ files w' !! full_text_file doc_folder
       = Some (File (Some (before ++ str "[Visual description unavailable]" ++ [nl])))
    /\ files w' !! cp
       = Some (File (Some (before ++ str "[Visual description unavailable]" ++ [nl])))
    /\ calls w' = calls w ++ [CallMistralOCR file_path; CallGeminiVision file_path].
Proof.
  intros Hdocs Hfte Hfile Hfolder Hft Hocr Hvision.
  set (w1 := {| files := files w;
                calls := (calls w ++ [CallMistralOCR file_path])
                         ++ [CallGeminiVision file_path] |}).
  set (before := str "# Image Analysis: " ++ name file_path ++ [nl; nl]
                 ++ str "## Extracted Text (OCR)" ++ [nl]
                 ++ (match strip (Pages.reassemble_pages pages) with
                     | [] => str "[No text detected in image]"
                     | _ => Pages.reassemble_pages pages
                     end) ++ [nl; nl]
                 ++ str "## Visual Description" ++ [nl]).
  set (text := before ++ str "[Visual description unavailable]" ++ [nl]).
  set (ocr_metadata := [ (str "page_count", MInt (length pages));
                         (str "ocr_used", MBool true);
                         (str "ocr_method", MStr (str "mistral"));
                         (str "api_model", MStr (str "mistral-ocr-latest")) ]).
  destruct (save_twice_run w1 (name file_path) text doc_folder
              (fun cp => extraction_record file_path doc_folder (str "IMAGE")
                           (str "hybrid_ocr_vision") true cp
                           (ocr_metadata ++ [(str "visual_description_generated", MBool true)])))
    as (cp & Hsave & Hparent & Hfree & Hcp); [done..|].
  eexists _, cp, _, before.
  split; [|split; [|split; [|split; [|split; [|split]]]]].
  - unfold _extract_image_hybrid, extract_text_with_mistral, _get_gemini_vision_description,
      reraise, try_except, bind, open_rb, log_call, lift_result, ret.
    unfold bind, ret in Hsave.
    unfold is_file in Hfile.
    destruct (lookup_node (files w) file_path) as [[|data]|]; [done| |done].
    rewrite Hocr, Hvision. cbn [files calls]. fold w1.
    assert (Htext : str "# Image Analysis: " ++ name file_path ++ [nl; nl]
                    ++ str "## Extracted Text (OCR)" ++ [nl]
                    ++ (match strip (Pages.reassemble_pages pages) with
                        | [] => str "[No text detected in image]"
                        | _ => Pages.reassemble_pages pages
                        end) ++ [nl; nl]
                    ++ str "## Visual Description" ++ [nl]
                    ++ str "[Visual description unavailable]" ++ [nl] = text).
    { unfold text, before. by rewrite <- !app_assoc. }
    rewrite Htext. fold ocr_metadata. rewrite Hsave. reflexivity.
  - reflexivity.
  - reflexivity.
  - by exists ocr_metadata.
  - cbn [files]. rewrite lookup_insert_ne by done.
    rewrite lookup_insert_ne by apply not_eq_sym, full_text_not_a_folder.
    apply lookup_insert_eq.
  - cbn [files]. apply lookup_insert_eq.
  - cbn [calls w1]. by rewrite <- app_assoc.
Qed.

End TwoCopies.

Lemma image_without_description_witness :
  exists (r : doc_record) (cp : path) (w' : world) (before : pystr),
    @_extract_image_hybrid Demo.demo_externals Demo.demo_processor
      (Demo.documents ++ [str "photo"; str "photo.png"]) (Demo.documents ++ [str "photo"])
      (Demo.world_of UploadCases.photo_case) = (inr r, w')
    /\ success r = true
    /\ centralized_copy r = Some cp
    /\ (exists ocr_metadata,
          metadata r = Some (ocr_metadata ++ [(str "visual_description_generated", MBool true)]))
    /\ files w' !! full_text_file (Demo.documents ++ [str "photo"])
       = Some (File (Some (before ++ str "[Visual description unavailable]" ++ [nl])))
    /\ files w' !! cp
       = Some (File (Some (before ++ str "[Visual description unavailable]" ++ [nl])))
    /\ calls w' = calls (Demo.world_of UploadCases.photo_case)
                  ++ [CallMistralOCR (Demo.documents ++ [str "photo"; str "photo.png"]);
                      CallGeminiVision (Demo.documents ++ [str "photo"; str "photo.png"])].
Proof.
  apply (@image_without_description Demo.demo_externals Demo.demo_processor
           (Demo.world_of UploadCases.photo_case)
           (Demo.documents ++ [str "photo"; str "photo.png"])
           (Demo.documents ++ [str "photo"]) [str "A"; str "B"; str "C"]);
    vm_compute; reflexivity.
Defined.

(** ** A name that is already in the documents folder *)

Section SameName.

Context {X : externals} {self : processor}.

(** X25. The router moves a file only when its place in the documents folder
    is free. When a file of the same name is already there, the new
    file stays in the intake folder, untouched, and the handler runs on
    the old one: the record that comes back is a success for the path in
    the documents folder. *)
Theorem existing_copy_is_extracted_again (w : world) (file_path : path)
    (new_data old_data : option pystr) (pages : list pystr) :
  is_dir (files w) documents_folder = true ->
  is_file (files w) fte_folder = false ->
  name file_path <> [] -> name file_path <> str "." ->
  stem file_path <> [] -> stem file_path <> str "." ->
  is_dir (files w) (documents_folder ++ [stem file_path]) = true ->
  is_dir (files w) (full_text_file (documents_folder ++ [stem file_path])) = false ->
  files w !! (documents_folder ++ [stem file_path] ++ [name file_path])
  = Some (File old_data) ->
  files w !! file_path = Some (File new_data) ->
  file_path <> documents_folder ++ [stem file_path] ++ [name file_path] ->
  handlers_get (_detect_file_type file_path) = _extract_mistral_ocr ->
  ocr_process (documents_folder ++ [stem file_path] ++ [name file_path]) = inr pages ->
  exists (r : doc_record) (w' : world),
    _extract_single_document_router file_path w = (inr r, w')
    /\ success r = true
    /\ Records.file_path r = Some (documents_folder ++ [stem file_path] ++ [name file_path])
    /\ files w' !! file_path = Some (File new_data)
    /\ calls w' = calls w ++ [CallMistralOCR
                                (documents_folder ++ [stem file_path] ++ [name file_path])].
Proof.
  rewrite !app_assoc.
  set (doc_folder := documents_folder ++ [stem file_path]).
  set (moved_file := doc_folder ++ [name file_path]).
  intros Hdocs Hfte Hn1 Hn2 Hs1 Hs2 Hfolder Hft Hold Hnew Hne Hhandler Hocr.
  assert (Hdne : doc_folder <> []) by (unfold doc_folder; by destruct documents_folder).
  assert (Hmk : mkdir_p (files w) doc_folder = inr (files w)).
  { apply is_dir_lookup in Hfolder as Hl; [|done]. unfold doc_folder in *.
    rewrite mkdir_p_child; [by rewrite Hl|done|].
    unfold is_file. by rewrite lookup_node_snoc, Hl. }
  set (w1 := {| files := files w; calls := calls w ++ [CallMistralOCR moved_file] |}).
  set (metadata := [ (str "page_count", MInt (length pages));
                     (str "ocr_used", MBool true);
                     (str "ocr_method", MStr (str "mistral"));
                     (str "api_model", MStr (str "mistral-ocr-latest")) ]).
  destruct (save_twice_run w1 (name moved_file) (Pages.reassemble_pages pages) doc_folder
              (fun cp => extraction_record moved_file doc_folder
                           (detect_document_type moved_file) (str "mistral_ocr") true cp
                           metadata))
    as (cp & Hsave & Hparent & Hfree & Hcp); [done..|].
  eexists _, _. split; [|split; [|split; [|split]]].
  - unfold _extract_single_document_router, router_try_block, try_except.
    rewrite (join_component _ _ Hs1 Hs2). fold doc_folder.
    rewrite (join_component _ _ Hn1 Hn2). fold moved_file. rewrite Hhandler.
    unfold bind at 1. unfold mkdir, lift_fs. rewrite Hmk.
    unfold bind at 1. unfold get_files. cbn [files calls].
    unfold bind at 1. unfold moved_file at 1. rewrite exists_snoc. fold moved_file.
    rewrite bool_decide_eq_true_2 by (rewrite Hold; by eexists).
    cbn [negb]. unfold ret at 1.
    unfold _extract_mistral_ocr, extract_text_with_mistral, reraise, try_except, bind,
      open_rb, log_call, lift_result, ret.
    unfold bind, ret in Hsave. cbn [files calls].
    unfold moved_file at 1. rewrite lookup_node_snoc. fold moved_file.
    rewrite Hold, Hocr. fold metadata.
    replace {| files := files w; calls := calls w |} with w by (by destruct w).
    fold w1. rewrite Hsave. reflexivity.
  - reflexivity.
  - reflexivity.
  - cbn [files w1].
    assert (H1 : cp <> file_path) by (intros ->; cbn [files w1] in Hfree; congruence).
    assert (H2 : fte_folder <> file_path).
    { intros Heq. unfold is_file in Hfte. rewrite fte_folder_snoc, lookup_node_snoc in Hfte.
      rewrite <- fte_folder_snoc, Heq, Hnew in Hfte. done. }
    assert (H3 : full_text_file doc_folder <> file_path).
    { intros Heq. apply Hne. rewrite full_text_file_snoc in Heq.
      assert (Hname : name file_path = str "full_text_extraction.txt")
        by (rewrite <- Heq; apply name_snoc).
      unfold moved_file. by rewrite Hname. }
    by rewrite !lookup_insert_ne.
  - reflexivity.
Qed.

End SameName.

Lemma existing_copy_is_extracted_again_witness :
  exists (r : doc_record) (w' : world),
    @_extract_single_document_router Demo.demo_externals Demo.demo_processor
      (Demo.intake ++ [str "notice.pdf"]) (Demo.world_of UploadCases.notice_again_case)
    = (inr r, w')
    /\ success r = true
    /\ Records.file_path r
       = Some (@documents_folder Demo.demo_processor
                 ++ [stem (Demo.intake ++ [str "notice.pdf"])]
                 ++ [name (Demo.intake ++ [str "notice.pdf"])])
    /\ files w' !! (Demo.intake ++ [str "notice.pdf"]) = Some (File None)
    /\ calls w' = calls (Demo.world_of UploadCases.notice_again_case)
                  ++ [CallMistralOCR (@documents_folder Demo.demo_processor
                                        ++ [stem (Demo.intake ++ [str "notice.pdf"])]
                                        ++ [name (Demo.intake ++ [str "notice.pdf"])])].
Proof.
  apply (@existing_copy_is_extracted_again Demo.demo_externals Demo.demo_processor
           (Demo.world_of UploadCases.notice_again_case) (Demo.intake ++ [str "notice.pdf"])
           None None [str "A"; str "B"; str "C"]).
  - vm_compute. reflexivity.
  - vm_compute. reflexivity.
  - discriminate.
  - discriminate.
  - discriminate.
  - discriminate.
  - vm_compute. reflexivity.
  - vm_compute. reflexivity.
  - vm_compute. reflexivity.
  - vm_compute. reflexivity.
  - discriminate.
  - reflexivity.
  - reflexivity.
Defined.

(** ** Phase 2 after the plaintext handler *)

Section PlaintextSummary.

Context {X : externals} {self : processor}.

(** X26. Phases 1 and 2 fit together for a plaintext document whose folder
    holds no [full_text_extraction.txt]: the handler writes none, and
    for the record it returns the summary worker falls back on the
    original file, which is where the handler left it. When the folder
    already holds a [full_text_extraction.txt] (left there by another
    file of the same stem), the handler leaves it as it is and the
    worker reads that file instead of the note. *)
Theorem plaintext_summary_reads_the_original (w : world) (file_path doc_folder : path)
    (text : pystr) :
  is_dir (files w) documents_folder = true ->
  is_file (files w) fte_folder = false ->
  lookup_node (files w) file_path = Some (File (Some text)) ->
  doc_folder <> fte_folder ->
  str_lower (suffix file_path) ∈ [str ".txt"; str ".md"; str ".markdown"] ->
  exists (r : doc_record) (w' : world),
    _extract_plaintext file_path doc_folder w = (inr r, w')
    /\ files w' !! full_text_file doc_folder = files w !! full_text_file doc_folder
    /\ locate_text (files w') r
       = inr (if exists_ (files w) (full_text_file doc_folder)
              then full_text_file doc_folder else file_path)
    /\ lookup_node (files w') file_path = Some (File (Some text)).
Proof.
  intros Hdocs Hfte Hfile Hfolder Hsuffix.
  set (base := _sanitize_filename (name file_path)).
  destruct (free_path_loop_returns (files w) fte_folder base) as (k & _ & Hfree & Hbelow).
  set (cp := fte_folder ++ [candidate base (str ".txt") k]) in *.
  assert (Hft1 : cp <> full_text_file doc_folder).
  { rewrite full_text_file_snoc. intros H. apply app_inj_tail in H as [H _]. done. }
  assert (Hft2 : fte_folder <> full_text_file doc_folder).
  { apply not_eq_sym, full_text_not_a_folder. }
  eexists _, _. split; [|split; [|split]].
  - unfold _extract_plaintext, reraise, try_except, bind, read_text. rewrite Hfile.
    cbn [read_text_node].
    rewrite (write_centralized_copy_at (name file_path) (universal_newlines text) w k)
      by done.
    reflexivity.
  - cbn [files]. by rewrite !lookup_insert_ne by done.
  - unfold locate_text. cbn [Records.doc_folder extraction_record files].
    unfold exists_. rewrite full_text_file_snoc, !lookup_node_snoc, <- full_text_file_snoc.
    rewrite !lookup_insert_ne by done.
    destruct (files w !! full_text_file doc_folder); [done|].
    cbn [Records.file_path extraction_record]. by rewrite bool_decide_eq_true_2.
  - cbn [files].
    assert (Hl : forall fs : gmap path node, lookup_node fs file_path = fs !! file_path).
    { intros fs. destruct file_path; [done|done]. }
    rewrite Hl in *.
    rewrite !lookup_insert_ne; [done| |].
    + intros Heq. unfold is_file in Hfte. rewrite Heq, Hl, Hfile in Hfte. done.
    + intros Heq. rewrite <- Heq in Hfile. unfold cp, base in Hfree. congruence.
Qed.

End PlaintextSummary.

Lemma plaintext_summary_reads_the_original_witness :
  exists (r : doc_record) (w' : world),
    @_extract_plaintext Demo.demo_externals Demo.demo_processor
      (Demo.documents ++ [str "note"; str "note.txt"]) (Demo.documents ++ [str "note"])
      (Demo.world_of Demo.plain_note_case) = (inr r, w')
    /\ files w' !! @full_text_file (Demo.documents ++ [str "note"]) = None
    /\ @locate_text Demo.demo_externals (files w') r
       = inr (Demo.documents ++ [str "note"; str "note.txt"])
    /\ lookup_node (files w') (Demo.documents ++ [str "note"; str "note.txt"])
       = Some (File (Some (str "hello"))).
Proof.
  apply (@plaintext_summary_reads_the_original Demo.demo_externals Demo.demo_processor
           (Demo.world_of Demo.plain_note_case)
           (Demo.documents ++ [str "note"; str "note.txt"]) (Demo.documents ++ [str "note"])
           (str "hello")).
  - vm_compute. reflexivity.
  - vm_compute. reflexivity.
  - vm_compute. reflexivity.
  - discriminate.
  - apply list_elem_of_here.
Defined.

(** ** The table of document types *)

Lemma contains_startswith (s p : pystr) : startswith s p = true -> contains s p = true.
Proof. intros H. destruct s; cbn [contains]; by rewrite H. Qed.

Lemma contains_skip (a t p : pystr) : contains t p = true -> contains (a ++ t) p = true.
Proof.
  intros H. induction a as [|c a IH]; [done|].
  cbn [app contains]. by rewrite IH, orb_true_r.
Qed.

(** Where a text occurs, so does each of its endings. *)
Lemma contains_app_r (s a b : pystr) : contains s (a ++ b) = true -> contains s b = true.
Proof.
  assert (Hstart : forall t, startswith t (a ++ b) = true -> contains t b = true).
  { intros t [rest ->]%startswith_elim. rewrite <- app_assoc.
    apply contains_skip, contains_startswith, startswith_app. }
  induction s as [|c s IH]; cbn [contains].
  - rewrite orb_false_r. apply Hstart.
  - intros [H|H]%orb_prop.
    + apply Hstart in H. exact H.
    + by rewrite (IH H), orb_true_r.
Qed.

Section Patterns.

Context {X : externals}.

(** X27. The pattern ["amended complaint"] of [DOCUMENT_TYPE_PATTERNS] never
    decides: a stem that holds it holds ["complaint"], which stands
    before it in the same entry, so [detect_document_type] gives the
    same type for every file with or without that pattern. *)
Theorem amended_complaint_never_decides (pdf_path : path) :
  detect_document_type pdf_path = detect_in DOCUMENT_TYPE_PATTERNS pdf_path
  /\ detect_document_type pdf_path = detect_in patterns_without_amended pdf_path.
Proof.
  split; [reflexivity|].
  unfold detect_document_type, detect_in, DOCUMENT_TYPE_PATTERNS, patterns_without_amended.
  set (s := str_lower (stem pdf_path)).
  cbn [find snd existsb].
  match goal with
  | |- context [if ?b then Some (str "Motion", _) else _] => destruct b; [reflexivity|]
  end.
  match goal with
  | |- context [if ?b then Some (str "Response", _) else _] => destruct b; [reflexivity|]
  end.
  destruct (contains s (str "complaint")) eqn:Hc; cbn [orb]; [reflexivity|].
  assert (Ha : contains s (str "amended complaint") = false).
  { destruct (contains s (str "amended complaint")) eqn:Ha; [|done].
    change (str "amended complaint") with (str "amended " ++ str "complaint") in Ha.
    apply contains_app_r in Ha. congruence. }
  rewrite Ha. cbn [orb]. destruct (contains s (str "petition")); reflexivity.
Qed.

End Patterns.
